(** * CSEEW/eew.js: earthquake early-warning reconciler, checked against its specification

    A shallow embedding of [src/CSEEW/eew.js]: the intensity estimator
    ([estimateIntensity]), the banner builder ([createEewAlertElement]), the
    alert reconciler ([displayEew]), the wave animation ([addEarthquake] and
    its [animateWaves] closure) and the polling cycle (the [setInterval]
    callback), over an explicit store for the two registries, the closures of
    the running animations, the DOM container, the pending timers and
    animation frames, and the map.  The handlers are state transformers; the
    browser's run loop is the choice of the next event ([step]).

    Numbers.  A JavaScript number is modelled as [NaN], one of the two
    infinities, or an exact rational: every finite double is a rational, and
    arithmetic is carried out exactly (rounding to 53 bits, overflow and the
    negative zero are not modelled).  [Math.log10] is
    implementation-approximated in ECMAScript; the development is parametric
    in it.  Where a property of the estimate would depend on the exactness
    of the arithmetic, it is stated of [estimateIntensity_in], the estimator
    over an arbitrary arithmetic, and so holds of the doubles as well.  The
    radii of the wave fronts, sums of rounded increments in JavaScript, are
    exact sums here.

    Identifiers.  The fields [EventID] and [ID] of a snapshot are strings
    when present.  A feed that returned a number there would make
    [eventId.startsWith] (line 659) throw in the eviction loop, cutting the
    cycle short: the embedding has no such path.

    Also embedded: [fetchData] (as a function of what the request and the
    parsing of its body give), the earthquake list ([displayEqList] and the
    callback that loads it), and the click handler of the test button.

    Left out: the markup around the interpolated parts of a banner or of a
    list row, and what the map library draws.  Whether a circle's
    [getBounds()] returns bounds is a parameter. *)

From Stdlib Require Import QArith Qround Qminmax ZArith String Ascii DecimalString List Bool Lia Lqa.
From stdpp Require Import gmap strings list.
Import ListNotations.

Local Open Scope string_scope.

(** ** JavaScript numbers *)

Inductive number : Type :=
| NaN
| PInf
| NInf
| Fin (q : Q).

Declare Scope num_scope.
Delimit Scope num_scope with num.
Bind Scope num_scope with number.

Definition isNaN (n : number) : bool :=
  match n with NaN => true | _ => false end.

(** The sign of a number that is not [NaN], as [Lt], [Eq] (zero) or [Gt]. *)
Definition num_sign (n : number) : comparison :=
  match n with
  | NaN => Eq
  | PInf => Gt
  | NInf => Lt
  | Fin q => (q ?= 0)%Q
  end.

Definition num_opp (a : number) : number :=
  match a with
  | NaN => NaN
  | PInf => NInf
  | NInf => PInf
  | Fin x => Fin (- x)
  end.

Definition num_add (a b : number) : number :=
  match a, b with
  | NaN, _ | _, NaN => NaN
  | PInf, NInf | NInf, PInf => NaN
  | PInf, _ | _, PInf => PInf
  | NInf, _ | _, NInf => NInf
  | Fin x, Fin y => Fin (x + y)
  end.

Definition num_sub (a b : number) : number := num_add a (num_opp b).

(** The infinity of the sign of a product or quotient of the given signs. *)
Definition inf_of_signs (s1 s2 : comparison) : number :=
  match s1, s2 with
  | Eq, _ | _, Eq => NaN
  | Gt, Gt | Lt, Lt => PInf
  | _, _ => NInf
  end.

Definition num_mul (a b : number) : number :=
  match a, b with
  | NaN, _ | _, NaN => NaN
  | Fin x, Fin y => Fin (x * y)
  | _, _ => inf_of_signs (num_sign a) (num_sign b)
  end.

Definition num_div (a b : number) : number :=
  match a, b with
  | NaN, _ | _, NaN => NaN
  | Fin x, Fin y =>
      if Qeq_bool y 0 then inf_of_signs (x ?= 0)%Q Gt else Fin (x / y)
  | Fin _, _ => Fin 0
  | _, Fin y => inf_of_signs (num_sign a) (if Qeq_bool y 0 then Gt else (y ?= 0)%Q)
  | _, _ => NaN
  end.

(** [a < b] and [a <= b]: false as soon as one side is [NaN]. *)
Definition num_ltb (a b : number) : bool :=
  match a, b with
  | NaN, _ | _, NaN => false
  | _, NInf => false
  | NInf, _ => true
  | PInf, _ => false
  | _, PInf => true
  | Fin x, Fin y => match (x ?= y)%Q with Lt => true | _ => false end
  end.

Definition num_leb (a b : number) : bool :=
  match a, b with
  | NaN, _ | _, NaN => false
  | NInf, _ => true
  | _, NInf => false
  | _, PInf => true
  | PInf, _ => false
  | Fin x, Fin y => match (x ?= y)%Q with Gt => false | _ => true end
  end.

Notation "a + b" := (num_add a b) : num_scope.
Notation "a - b" := (num_sub a b) : num_scope.
Notation "a * b" := (num_mul a b) : num_scope.
Notation "a / b" := (num_div a b) : num_scope.
Notation "a <? b" := (num_ltb a b) : num_scope.
Notation "a <=? b" := (num_leb a b) : num_scope.

(** [Math.round]: the nearest integer, ties towards positive infinity. *)
Definition Math_round (x : number) : number :=
  match x with
  | Fin q => Fin (inject_Z (Qfloor (q + (1 # 2))))
  | _ => x
  end.

(** [Math.min] and [Math.max] of two arguments: [NaN] when either is. *)
Definition Math_min (a b : number) : number :=
  if isNaN a || isNaN b then NaN else if (a <? b)%num then a else b.

Definition Math_max (a b : number) : number :=
  if isNaN a || isNaN b then NaN else if (a <? b)%num then b else a.

(** Truthiness of a number: [NaN] and zero are falsy. *)
Definition num_truthy (n : number) : bool :=
  match n with
  | NaN => false
  | Fin q => negb (Qeq_bool q 0)
  | _ => true
  end.

(** Equality of two numbers as values ([===] on numbers). *)
Definition num_eqb (a b : number) : bool :=
  match a, b with
  | PInf, PInf | NInf, NInf => true
  | Fin x, Fin y => Qeq_bool x y
  | _, _ => false
  end.

(** ** A rational stand-in for [Math.log10]

    Used to run the examples: linear interpolation between consecutive powers
    of ten, exact on the powers of ten themselves. *)

(** The largest [k] with [10^k <= z], for [z >= 1], trying [k = fuel, ..., 0]. *)
Fixpoint decade_up (fuel : nat) (z : Z) : Z :=
  match fuel with
  | O => 0
  | S f => if (10 ^ Z.of_nat fuel <=? z)%Z then Z.of_nat fuel else decade_up f z
  end.

(** The least [k >= 1] with [1 <= q * 10^k], for [0 < q < 1], trying [k = 1, 2, ...]. *)
Fixpoint decade_down (fuel : nat) (k : Z) (q : Q) : Z :=
  match fuel with
  | O => k
  | S f => if Qle_bool 1 (q * inject_Z (10 ^ k)) then k else decade_down f (k + 1) q
  end.

Definition Math_log10_interp (x : number) : number :=
  match x with
  | NaN | NInf => NaN
  | PInf => PInf
  | Fin q =>
      match (q ?= 0)%Q with
      | Lt => NaN
      | Eq => NInf
      | Gt =>
          if Qle_bool 1 q then
            let k := decade_up (Z.to_nat (Z.log2 (Qfloor q))) (Qfloor q) in
            Fin (Qred (inject_Z k + (q / inject_Z (10 ^ k) - 1) / 9))
          else
            let k := decade_down (S (Z.to_nat (Z.log2 (Zpos (Qden q))))) 1 q in
            Fin (Qred (- inject_Z k + (q * inject_Z (10 ^ k) - 1) / 9))
      end
  end.

(** ** The intensity estimator (eew.js, lines 88-111) *)

Section Estimator.

(** [Math.log10], implementation-approximated. *)
Variable Math_log10 : number -> number.

(** [estimateIntensity(magnitude, depth)] on numbers, as its JSDoc types
    them.  [parseFloat(depth)] converts a number to its decimal string and
    parses it back, which gives the number itself. *)
Definition estimateIntensity (magnitude depth : number) : number :=
  if isNaN magnitude || (magnitude <? Fin 3.0)%num then Fin 0
  else
    let actualDepth := depth in
    let actualDepth :=
      if isNaN actualDepth || (actualDepth <=? Fin 0)%num then Fin 10 else actualDepth in
    let logDepth := Math_log10 actualDepth in
    let estimatedI := (Fin 1.5 * magnitude + Fin 3.0 - Fin 3.5 * logDepth)%num in
    let estimatedI := Math_round estimatedI in
    Math_max (Fin 0) (Math_min (Fin 12) estimatedI).

(** The reference definition, following the specification's words: 0 when
    the magnitude is not a number or is below 3.0; otherwise, with the depth
    replaced by 10 whenever it is not a positive number, the rounded formula
    clamped to the range from 0 to 12. *)
Definition is_positive_number (d : number) : bool :=
  negb (isNaN d) && (Fin 0 <? d)%num.

Definition clamp (lo hi x : number) : number :=
  if (x <? lo)%num then lo else if (hi <? x)%num then hi else x.

Definition estimate_reference (magnitude depth : number) : number :=
  if isNaN magnitude || (magnitude <? Fin 3.0)%num then Fin 0
  else
    let d := if is_positive_number depth then depth else Fin 10 in
    clamp (Fin 0) (Fin 12)
      (Math_round (Fin 1.5 * magnitude + Fin 3.0 - Fin 3.5 * Math_log10 d)%num).

End Estimator.


(** ** JavaScript values and [parseFloat] *)

Inductive value : Type :=
| undefined
| null
| VBool (b : bool)
| VNum (n : number)
| VStr (s : string).

(** Truthiness, as [if (v)], [v ? a : b] and [v || w] read a value. *)
Definition truthy (v : value) : bool :=
  match v with
  | undefined | null => false
  | VBool b => b
  | VNum n => num_truthy n
  | VStr s => negb (String.eqb s "")
  end.

(** [a || b]. *)
Definition value_or (a b : value) : value := if truthy a then a else b.

(** [v === 's'] for a string literal, and [v === true]. *)
Definition strict_eq_str (v : value) (s : string) : bool :=
  match v with VStr s' => String.eqb s' s | _ => false end.

Definition is_true (v : value) : bool :=
  match v with VBool true => true | _ => false end.

(** The text of a template literal or of a string concatenation: the
    sequence of its parts, each converted to a string when the text is
    produced.  Converting a number to its decimal string is not modelled, so
    the parts are kept as values. *)
Definition text : Type := list value.

(** [parseFloat] on a string: leading white space (the ASCII one), a sign, then
    the longest prefix that is a decimal literal; [NaN] when there is none.
    The value of the literal is exact: it is neither rounded to a double nor
    turned into an infinity or a zero beyond the range of the doubles. *)
Definition is_white_space (c : ascii) : bool :=
  let n := nat_of_ascii c in
  ((9 <=? n) && (n <=? 13) || (n =? 32))%nat.

Fixpoint trim_start (s : string) : string :=
  match s with
  | String c s' => if is_white_space c then trim_start s' else s
  | EmptyString => s
  end.

Definition digit_of (c : ascii) : option Z :=
  let n := nat_of_ascii c in
  if ((48 <=? n) && (n <=? 57))%nat then Some (Z.of_nat n - 48)%Z else None.

(** The digits at the start of [s]: their value added to [10^count * acc], how
    many they are, and the rest of the string. *)
Fixpoint read_digits (s : string) (acc : Z) (count : nat) : Z * nat * string :=
  match s with
  | String c s' =>
      match digit_of c with
      | Some d => read_digits s' (10 * acc + d)%Z (S count)
      | None => (acc, count, s)
      end
  | EmptyString => (acc, count, s)
  end.

(** The exponent part [e+12] at the start of [s]; 0 when there is none or it
    has no digit. *)
Definition read_exponent (s : string) : Z :=
  match s with
  | String c s' =>
      if (Ascii.eqb c "e" || Ascii.eqb c "E")%char then
        let '(neg, s'') :=
          match s' with
          | String "+"%char r => (false, r)
          | String "-"%char r => (true, r)
          | _ => (false, s')
          end in
        let '(e, n, _) := read_digits s'' 0 0 in
        if (n =? 0)%nat then 0%Z else if neg then (- e)%Z else e
      else 0%Z
  | EmptyString => 0%Z
  end.

Definition pow10 (e : Z) : Q :=
  if (0 <=? e)%Z then inject_Z (10 ^ e) else / inject_Z (10 ^ (- e)).

Definition parse_decimal (s : string) : number :=
  if String.prefix "Infinity" s then PInf
  else
    let '(ip, ni, s1) := read_digits s 0 0 in
    let '(fp, nf, s2) :=
      match s1 with
      | String "."%char r => read_digits r 0 0
      | _ => (0%Z, O, s1)
      end in
    if (ni + nf =? 0)%nat then NaN
    else Fin ((inject_Z ip + inject_Z fp / inject_Z (10 ^ Z.of_nat nf)) * pow10 (read_exponent s2)).

Definition parseFloat_string (s : string) : number :=
  match trim_start s with
  | String "-"%char r => num_opp (parse_decimal r)
  | String "+"%char r => parse_decimal r
  | r => parse_decimal r
  end.

(** [parseFloat(v)]: the argument is first converted to a string; a number
    comes back as itself, and [undefined], [null] and the booleans have no
    numeric prefix. *)
Definition parseFloat (v : value) : number :=
  match v with
  | VNum n => n
  | VStr s => parseFloat_string s
  | _ => NaN
  end.

(** ** Snapshots (the JSON a feed returns, or the test button builds) *)

(** The fields the program reads.  The identifier fields [EventID] and [ID]
    are strings when present ([None]: absent), as [eventId.startsWith] in the
    polling cycle requires of the keys of [activeEewAlerts]: the program
    itself takes any JSON value there, and throws at line 659 on a key that
    is not a string.  [Issue_Source] is [data.Issue?.Source]. *)
Record EewData : Type := {
  type : value;
  EventID : option string;
  ID : option string;
  Serial : value;
  ReportNum : value;
  HypoCenter : value;
  Hypocenter : value;
  OriginTime : value;
  Magunitude : value;
  Depth : value;
  MaxIntensity : value;
  Latitude : value;
  Longitude : value;
  isCancel : value;
  isFinal : value;
  name : value;
  Issue_Source : value
}.

(** [data.EventID || data.ID]: the first identifier that is present and not
    the empty string. *)
Definition id_or (a b : option string) : option string :=
  match a with
  | Some s => if String.eqb s "" then b else a
  | None => b
  end.

(** What the environment supplies to one call of [displayEew]: the text
    [`${Date.now()}-${Math.random().toString(36).substring(7)}`] of each of
    the two places that synthesize an identifier, and [performance.now()]. *)
Record Env : Type := {
  uid : string;
  uid_attr : string;
  now : number
}.

(** [data.EventID || data.ID || `test-${...}`] (lines 230 and 350). *)
Definition eventId_of (data : EewData) (synth : string) : string :=
  match id_or (EventID data) (ID data) with
  | Some s => s
  | None => "test-" ++ synth
  end.

(** ** The intensity colours (lines 6-46) *)

Definition intColor : list (string * string) :=
  [ ("0", "#444444"); ("1", "#9bc4e4"); ("2", "#00a0f1"); ("3", "#0062f5");
    ("4", "#2de161"); ("5", "#1cac5d"); ("6", "#ffbd2b"); ("7", "#ff992b");
    ("8", "#fa5151"); ("9", "#f4440d"); ("10", "#ff000d"); ("11", "#c20007");
    ("12", "#fd2fc2") ].

Fixpoint assoc_string {A : Type} (k : string) (l : list (string * A)) : option A :=
  match l with
  | [] => None
  | (k', a) :: l' => if String.eqb k k' then Some a else assoc_string k l'
  end.

(** The property key of a value, for the keys [intColor] has: a string as
    itself, an integer from 0 to 12 as its decimal digits. *)
Definition small_integer_keys : list (Z * string) :=
  [ (0, "0"); (1, "1"); (2, "2"); (3, "3"); (4, "4"); (5, "5"); (6, "6");
    (7, "7"); (8, "8"); (9, "9"); (10, "10"); (11, "11"); (12, "12") ]%Z.

Definition property_key (v : value) : option string :=
  match v with
  | VStr s => Some s
  | VNum (Fin q) =>
      snd <$> List.find (fun kv => Qeq_bool q (inject_Z (fst kv))) small_integer_keys
  | _ => None
  end.

(** [intColor[v] && intColor[v].bkcolor], [None] when falsy. *)
Definition intColor_bkcolor (v : value) : option string :=
  match property_key v with
  | Some k => assoc_string k intColor
  | None => None
  end.

(** ** The store: registries, DOM, scheduler and map *)

(** The content of a banner: the interpolated parts of the template literal
    assigned to [alertItem.innerHTML] (lines 316-329). *)
Record BannerContent : Type := {
  eew_report_num : text;
  eew_intensity_bg : string;
  eew_intensity : value;
  eew_location : value;
  eew_agency : text;
  eew_time : value;
  eew_magnitude : value;
  eew_depth : text
}.

(** A [div.eew-alert-item]: its [data-event-id] attribute, its content,
    whether its class list holds [hidden], and how many once-only
    [transitionend] listeners wait to remove it. *)
Record Element : Type := {
  data_event_id : string;
  innerHTML : BannerContent;
  hidden : bool;
  transitionend_listeners : nat
}.

(** An entry of [activeEewAlerts]: [{ element, timeoutId }]. *)
Record AlertEntry : Type := {
  element : nat;
  timeoutId : nat
}.

(** An entry of [activeWaveAnimations]:
    [{ epicenter, pWave, sWave, animationFrameId, lastUpdateTime, fitViewTimer }],
    an object built once (line 589); only [animationFrameId] is assigned
    afterwards (line 571). *)
Record WaveAnimation : Type := {
  wa_epicenter : nat;
  wa_pWave : nat;
  wa_sWave : nat;
  animationFrameId : nat;
  wa_lastUpdateTime : number;
  wa_fitViewTimer : option nat
}.

(** The variables one call of [addEarthquake] closes over, shared by its
    [animateWaves] callback and the view-fit timer callback. *)
Record WaveClosure : Type := {
  eventId : string;
  epicenter : nat;
  pWave : nat;
  sWave : nat;
  pWaveRadius : number;
  sWaveRadius : number;
  lastUpdateTime : number;
  fitViewTimer : option nat
}.

(** The callbacks passed to [setTimeout]: the alert's expiry (lines 413-420)
    and the view fit of a wave animation (lines 546-565). *)
Inductive TimerCallback : Type :=
| ExpireAlert (eventId : string) (alertElement : nat)
| FitView (closure : nat).

Record Timer : Type := {
  callback : TimerCallback;
  delay : number
}.

Inductive MapObject : Type :=
| Marker (position : number * number) (magnitude : number)
| Circle (center : number * number) (radius strokeOpacity fillOpacity : number).

(** The map's view: what [setCenter] and [setZoom] set, or what [setFitView]
    computes from the overlays it is given. *)
Inductive ViewCenter : Type :=
| CenterAt (lnglat : number * number)
| CenterFitted (overlays : list nat).

Inductive ViewZoom : Type :=
| ZoomAt (level : number)
| ZoomFitted (overlays : list nat).

Record State : Type := {
  activeEewAlerts : gmap string AlertEntry;
  activeWaveAnimations : gmap string WaveAnimation;
  closures : gmap nat WaveClosure;
  domElements : gmap nat Element;
  container : list nat;
  timers : gmap nat Timer;
  frames : gmap nat nat;
  mapObjects : gmap nat MapObject;
  onMap : gset nat;
  viewCenter : ViewCenter;
  viewZoom : ViewZoom;
  next : nat
}.

Definition INITIAL_MAP_CENTER : number * number := (Fin 104.06, Fin 30.67).
Definition INITIAL_MAP_ZOOM : number := Fin 5.
Definition ALERT_DISPLAY_DURATION_MS : number := (Fin 10 * Fin 60 * Fin 1000)%num.

(** The page once loaded (lines 117-134): both registries empty, the map at
    its initial view. *)
Definition initial : State := {|
  activeEewAlerts := ∅;
  activeWaveAnimations := ∅;
  closures := ∅;
  domElements := ∅;
  container := [];
  timers := ∅;
  frames := ∅;
  mapObjects := ∅;
  onMap := ∅;
  viewCenter := CenterAt INITIAL_MAP_CENTER;
  viewZoom := ZoomAt INITIAL_MAP_ZOOM;
  next := 0
|}.

Definition upd_alerts (f : gmap string AlertEntry -> gmap string AlertEntry) (s : State) : State :=
  {| activeEewAlerts := f (activeEewAlerts s); activeWaveAnimations := activeWaveAnimations s;
     closures := closures s; domElements := domElements s; container := container s;
     timers := timers s; frames := frames s; mapObjects := mapObjects s; onMap := onMap s;
     viewCenter := viewCenter s; viewZoom := viewZoom s; next := next s |}.

Definition upd_waves (f : gmap string WaveAnimation -> gmap string WaveAnimation) (s : State) : State :=
  {| activeEewAlerts := activeEewAlerts s; activeWaveAnimations := f (activeWaveAnimations s);
     closures := closures s; domElements := domElements s; container := container s;
     timers := timers s; frames := frames s; mapObjects := mapObjects s; onMap := onMap s;
     viewCenter := viewCenter s; viewZoom := viewZoom s; next := next s |}.

Definition upd_closures (f : gmap nat WaveClosure -> gmap nat WaveClosure) (s : State) : State :=
  {| activeEewAlerts := activeEewAlerts s; activeWaveAnimations := activeWaveAnimations s;
     closures := f (closures s); domElements := domElements s; container := container s;
     timers := timers s; frames := frames s; mapObjects := mapObjects s; onMap := onMap s;
     viewCenter := viewCenter s; viewZoom := viewZoom s; next := next s |}.

Definition upd_elements (f : gmap nat Element -> gmap nat Element) (s : State) : State :=
  {| activeEewAlerts := activeEewAlerts s; activeWaveAnimations := activeWaveAnimations s;
     closures := closures s; domElements := f (domElements s); container := container s;
     timers := timers s; frames := frames s; mapObjects := mapObjects s; onMap := onMap s;
     viewCenter := viewCenter s; viewZoom := viewZoom s; next := next s |}.

Definition upd_container (f : list nat -> list nat) (s : State) : State :=
  {| activeEewAlerts := activeEewAlerts s; activeWaveAnimations := activeWaveAnimations s;
     closures := closures s; domElements := domElements s; container := f (container s);
     timers := timers s; frames := frames s; mapObjects := mapObjects s; onMap := onMap s;
     viewCenter := viewCenter s; viewZoom := viewZoom s; next := next s |}.

Definition upd_timers (f : gmap nat Timer -> gmap nat Timer) (s : State) : State :=
  {| activeEewAlerts := activeEewAlerts s; activeWaveAnimations := activeWaveAnimations s;
     closures := closures s; domElements := domElements s; container := container s;
     timers := f (timers s); frames := frames s; mapObjects := mapObjects s; onMap := onMap s;
     viewCenter := viewCenter s; viewZoom := viewZoom s; next := next s |}.

Definition upd_frames (f : gmap nat nat -> gmap nat nat) (s : State) : State :=
  {| activeEewAlerts := activeEewAlerts s; activeWaveAnimations := activeWaveAnimations s;
     closures := closures s; domElements := domElements s; container := container s;
     timers := timers s; frames := f (frames s); mapObjects := mapObjects s; onMap := onMap s;
     viewCenter := viewCenter s; viewZoom := viewZoom s; next := next s |}.

Definition upd_mapObjects (f : gmap nat MapObject -> gmap nat MapObject) (s : State) : State :=
  {| activeEewAlerts := activeEewAlerts s; activeWaveAnimations := activeWaveAnimations s;
     closures := closures s; domElements := domElements s; container := container s;
     timers := timers s; frames := frames s; mapObjects := f (mapObjects s); onMap := onMap s;
     viewCenter := viewCenter s; viewZoom := viewZoom s; next := next s |}.

Definition upd_onMap (f : gset nat -> gset nat) (s : State) : State :=
  {| activeEewAlerts := activeEewAlerts s; activeWaveAnimations := activeWaveAnimations s;
     closures := closures s; domElements := domElements s; container := container s;
     timers := timers s; frames := frames s; mapObjects := mapObjects s; onMap := f (onMap s);
     viewCenter := viewCenter s; viewZoom := viewZoom s; next := next s |}.

Definition set_view (c : ViewCenter) (z : ViewZoom) (s : State) : State :=
  {| activeEewAlerts := activeEewAlerts s; activeWaveAnimations := activeWaveAnimations s;
     closures := closures s; domElements := domElements s; container := container s;
     timers := timers s; frames := frames s; mapObjects := mapObjects s; onMap := onMap s;
     viewCenter := c; viewZoom := z; next := next s |}.

(** A fresh handle: element, overlay, closure, timer and frame identifiers
    are drawn from one counter. *)
Definition fresh (s : State) : nat * State :=
  (next s,
   {| activeEewAlerts := activeEewAlerts s; activeWaveAnimations := activeWaveAnimations s;
      closures := closures s; domElements := domElements s; container := container s;
      timers := timers s; frames := frames s; mapObjects := mapObjects s; onMap := onMap s;
      viewCenter := viewCenter s; viewZoom := viewZoom s; next := S (next s) |}).

(** *** Scheduler *)

Definition setTimeout (cb : TimerCallback) (ms : number) (s : State) : nat * State :=
  let '(id, s) := fresh s in
  (id, upd_timers <[id := {| callback := cb; delay := ms |}]> s).

(** [clearTimeout]: a no-op on a timer that fired or never existed. *)
Definition clearTimeout (id : nat) (s : State) : State := upd_timers (delete id) s.

Definition requestAnimationFrame (closure : nat) (s : State) : nat * State :=
  let '(id, s) := fresh s in
  (id, upd_frames <[id := closure]> s).

Definition cancelAnimationFrame (id : nat) (s : State) : State := upd_frames (delete id) s.

(** *** Map *)

Definition map_add (h : nat) (s : State) : State := upd_onMap (fun m => {[h]} ∪ m) s.

Definition map_remove (hs : list nat) (s : State) : State :=
  upd_onMap (fun m => m ∖ list_to_set hs) s.

Definition map_setCenter (c : number * number) (s : State) : State :=
  set_view (CenterAt c) (viewZoom s) s.

Definition map_setZoom (z : number) (s : State) : State :=
  set_view (viewCenter s) (ZoomAt z) s.

Definition map_setFitView (hs : list nat) (s : State) : State :=
  set_view (CenterFitted hs) (ZoomFitted hs) s.

Definition new_overlay (o : MapObject) (s : State) : nat * State :=
  let '(h, s) := fresh s in
  (h, upd_mapObjects <[h := o]> s).

(** [circle.setRadius(r)] and [circle.setOptions({ strokeOpacity, fillOpacity })]. *)
Definition circle_setRadius (h : nat) (r : number) (s : State) : State :=
  upd_mapObjects
    (alter (fun o => match o with Circle c _ so fo => Circle c r so fo | _ => o end) h) s.

Definition circle_setOptions (h : nat) (so fo : number) (s : State) : State :=
  upd_mapObjects
    (alter (fun o => match o with Circle c r _ _ => Circle c r so fo | _ => o end) h) s.

(** *** DOM *)

Definition classList_add_hidden (h : nat) (s : State) : State :=
  upd_elements
    (alter (fun e => {| data_event_id := data_event_id e; innerHTML := innerHTML e;
                        hidden := true;
                        transitionend_listeners := transitionend_listeners e |}) h) s.

Definition classList_remove_hidden (h : nat) (s : State) : State :=
  upd_elements
    (alter (fun e => {| data_event_id := data_event_id e; innerHTML := innerHTML e;
                        hidden := false;
                        transitionend_listeners := transitionend_listeners e |}) h) s.

(** [el.addEventListener('transitionend', () => el.remove(), { once: true })]. *)
Definition remove_on_transitionend (h : nat) (s : State) : State :=
  upd_elements
    (alter (fun e => {| data_event_id := data_event_id e; innerHTML := innerHTML e;
                        hidden := hidden e;
                        transitionend_listeners := S (transitionend_listeners e) |}) h) s.

Definition set_innerHTML (h : nat) (c : BannerContent) (s : State) : State :=
  upd_elements
    (alter (fun e => {| data_event_id := data_event_id e; innerHTML := c;
                        hidden := hidden e;
                        transitionend_listeners := transitionend_listeners e |}) h) s.

(** The banners of the container that carry a given [data-event-id]. *)
Definition banners_of (id : string) (s : State) : list nat :=
  List.filter
    (fun h => match domElements s !! h with
              | Some e => String.eqb (data_event_id e) id
              | None => false
              end)
    (container s).

(** ** The program *)

(** The local variables of [createEewAlertElement] (lines 233-243);
    [rawMagnitudeForCalc] and [rawDepthForCalc] are [null] ([None]) until a
    branch assigns them. *)
Record AlertFields : Type := {
  reportNum : value;
  hypoCenter : value;
  originTime : value;
  magnitudeDisplay : value;
  depthDisplay : value;
  maxIntensityDisplay : value;
  sourceAgency : text;
  rawMagnitudeForCalc : option number;
  rawDepthForCalc : option number
}.

(** The wave speeds and the radius each wave stops at (lines 495-501). *)
Definition pWaveSpeed_m_s : number := Fin 6000.
Definition sWaveSpeed_m_s : number := Fin 4000.
Definition maxAnimationDuration_s : number := (ALERT_DISPLAY_DURATION_MS / Fin 1000)%num.
Definition pWaveMaxRadius : number := (pWaveSpeed_m_s * maxAnimationDuration_s)%num.
Definition sWaveMaxRadius : number := (sWaveSpeed_m_s * maxAnimationDuration_s)%num.

(** One frame of [animateWaves] on the closure's variables (lines 507-516):
    the elapsed seconds since the last frame, then each radius advanced at its
    speed and capped. *)
Definition deltaTime (v : WaveClosure) (currentTime : number) : number :=
  ((currentTime - lastUpdateTime v) / Fin 1000)%num.

Definition advance (v : WaveClosure) (currentTime : number) : WaveClosure :=
  let dt := deltaTime v currentTime in
  {| eventId := eventId v; epicenter := epicenter v; pWave := pWave v; sWave := sWave v;
     pWaveRadius := Math_min (pWaveRadius v + pWaveSpeed_m_s * dt)%num pWaveMaxRadius;
     sWaveRadius := Math_min (sWaveRadius v + sWaveSpeed_m_s * dt)%num sWaveMaxRadius;
     lastUpdateTime := currentTime;
     fitViewTimer := fitViewTimer v |}.

(** The opacities of a frame (lines 520-529). *)
Definition opacity (initial_opacity radius maxRadius : number) : number :=
  Math_max (Fin 0) (initial_opacity * (Fin 1 - radius / maxRadius))%num.

Definition currentPWaveStrokeOpacity (v : WaveClosure) : number :=
  opacity (Fin 0.8) (pWaveRadius v) pWaveMaxRadius.
Definition currentPWaveFillOpacity (v : WaveClosure) : number :=
  opacity (Fin 0.1) (pWaveRadius v) pWaveMaxRadius.
Definition currentSWaveStrokeOpacity (v : WaveClosure) : number :=
  opacity (Fin 1) (sWaveRadius v) sWaveMaxRadius.
Definition currentSWaveFillOpacity (v : WaveClosure) : number :=
  opacity (Fin 0.2) (sWaveRadius v) sWaveMaxRadius.

(** [pWaveRadius < pWaveMaxRadius || sWaveRadius < sWaveMaxRadius] (line 569). *)
Definition stillSpreading (v : WaveClosure) : bool :=
  (pWaveRadius v <? pWaveMaxRadius)%num || (sWaveRadius v <? sWaveMaxRadius)%num.

(** The closure's variables when [addEarthquake] has run (lines 492-504). *)
Definition new_closure (id : string) (e p w : nat) (t : number) : WaveClosure :=
  {| eventId := id; epicenter := e; pWave := p; sWave := w;
     pWaveRadius := Fin 0; sWaveRadius := Fin 0;
     lastUpdateTime := t; fitViewTimer := None |}.

(** The closure's variables after frames at the given times. *)
Definition frames_at (v : WaveClosure) (times : list number) : WaveClosure :=
  fold_left advance times v.

(** The block that hides a banner and forgets its alert (lines 355-362 in
    [displayEew], again at lines 661-666 in the polling cycle). *)
Definition removeAlert (id : string) (entry : AlertEntry) (s : State) : State :=
  let s := clearTimeout (timeoutId entry) s in
  let s := classList_add_hidden (element entry) s in
  let s := remove_on_transitionend (element entry) s in
  upd_alerts (delete id) s.

(** The block that stops a wave animation (lines 366-373 in [displayEew],
    again at lines 670-677 in the polling cycle).  A timer identifier is a
    positive integer, so [if (fitViewTimer)] tests that the field is not
    [null]. *)
Definition removeWaveAnimation (id : string) (anim : WaveAnimation) (s : State) : State :=
  let s := cancelAnimationFrame (animationFrameId anim) s in
  let s := match wa_fitViewTimer anim with
           | Some t => clearTimeout t s
           | None => s
           end in
  let s := map_remove [wa_epicenter anim; wa_pWave anim; wa_sWave anim] s in
  let s := upd_waves (delete id) s in
  let s := map_setZoom INITIAL_MAP_ZOOM s in
  map_setCenter INITIAL_MAP_CENTER s.

(** [addEarthquake(lat, lon, magnitude, eventId)] (lines 441-590), as far as
    its own body goes; [t] is what [performance.now()] returns. *)
Definition addEarthquake (lat lon magnitude : number) (id : string) (t : number)
    (s : State) : State :=
  let s :=
    match activeWaveAnimations s !! id with
    | Some existingAnimation =>
        let s := cancelAnimationFrame (animationFrameId existingAnimation) s in
        let s := match wa_fitViewTimer existingAnimation with
                 | Some tm => clearTimeout tm s
                 | None => s
                 end in
        let s := map_remove [wa_epicenter existingAnimation; wa_pWave existingAnimation;
                             wa_sWave existingAnimation] s in
        upd_waves (delete id) s
    | None => s
    end in
  let s := map_setCenter (lon, lat) s in
  let s := map_setZoom (Fin 8) s in
  let '(e, s) := new_overlay (Marker (lon, lat) magnitude) s in
  let s := map_add e s in
  let '(p, s) := new_overlay (Circle (lon, lat) (Fin 0) (Fin 0.8) (Fin 0.1)) s in
  let '(w, s) := new_overlay (Circle (lon, lat) (Fin 0) (Fin 1) (Fin 0.2)) s in
  let s := map_add p s in
  let s := map_add w s in
  let '(c, s) := fresh s in
  let v := new_closure id e p w t in
  let s := upd_closures <[c := v]> s in
  let '(frame, s) := requestAnimationFrame c s in
  upd_waves
    <[id := {| wa_epicenter := e; wa_pWave := p; wa_sWave := w;
               animationFrameId := frame;
               wa_lastUpdateTime := lastUpdateTime v;
               wa_fitViewTimer := fitViewTimer v |}]> s.

(** The closure's variable [fitViewTimer] assigned. *)
Definition set_fitViewTimer (tm : option nat) (v : WaveClosure) : WaveClosure :=
  {| eventId := eventId v; epicenter := epicenter v; pWave := pWave v; sWave := sWave v;
     pWaveRadius := pWaveRadius v; sWaveRadius := sWaveRadius v;
     lastUpdateTime := lastUpdateTime v; fitViewTimer := tm |}.

(** Lines 531-541: the circles take the new radii and opacities. *)
Definition drawWaves (v : WaveClosure) (s : State) : State :=
  let s := circle_setRadius (pWave v) (pWaveRadius v) s in
  let s := circle_setRadius (sWave v) (sWaveRadius v) s in
  let s := circle_setOptions (pWave v)
             (currentPWaveStrokeOpacity v) (currentPWaveFillOpacity v) s in
  circle_setOptions (sWave v) (currentSWaveStrokeOpacity v) (currentSWaveFillOpacity v) s.

(** Lines 545-566: a view fit is scheduled 500 ms ahead unless one is
    pending. *)
Definition scheduleFitView (c : nat) (v : WaveClosure) (s : State) : WaveClosure * State :=
  match fitViewTimer v with
  | None =>
      let '(tm, s) := setTimeout (FitView c) (Fin 500) s in
      (set_fitViewTimer (Some tm) v, s)
  | Some _ => (v, s)
  end.

(** Line 571: the next frame is requested and its identifier stored in the
    registry entry. *)
Definition continueWaves (c : nat) (v : WaveClosure) (s : State) : State :=
  let '(frame, s) := requestAnimationFrame c s in
  upd_waves
    (alter (fun a => {| wa_epicenter := wa_epicenter a; wa_pWave := wa_pWave a;
                        wa_sWave := wa_sWave a; animationFrameId := frame;
                        wa_lastUpdateTime := wa_lastUpdateTime a;
                        wa_fitViewTimer := wa_fitViewTimer a |}) (eventId v)) s.

(** Lines 574-581: the animation ends. *)
Definition finishWaves (v : WaveClosure) (s : State) : State :=
  let s := match fitViewTimer v with
           | Some t => clearTimeout t s
           | None => s
           end in
  let s := map_remove [epicenter v; pWave v; sWave v] s in
  let s := upd_waves (delete (eventId v)) s in
  let s := map_setZoom INITIAL_MAP_ZOOM s in
  map_setCenter INITIAL_MAP_CENTER s.

(** [animateWaves(currentTime)] of the closure [c] (lines 506-583). *)
Definition animateWaves (c : nat) (currentTime : number) (s : State) : State :=
  match closures s !! c with
  | None => s
  | Some v =>
      let v := advance v currentTime in
      let s := drawWaves v s in
      let '(v, s) := scheduleFitView c v s in
      let s := upd_closures <[c := v]> s in
      if stillSpreading v then continueWaves c v s else finishWaves v s
  end.

Section Program.

(** [Math.log10], and whether [getBounds()] of a circle returns bounds. *)
Variable Math_log10 : number -> number.
Variable getBounds : MapObject -> bool.

(** *** [createEewAlertElement] (lines 226-333) *)

Definition initialFields : AlertFields :=
  {| reportNum := VStr ""; hypoCenter := VStr ""; originTime := VStr "";
     magnitudeDisplay := VStr ""; depthDisplay := VStr "";
     maxIntensityDisplay := VStr "-"; sourceAgency := [VStr "未知机构"];
     rawMagnitudeForCalc := None; rawDepthForCalc := None |}.

(** The chain of [if (data.type === ...)] (lines 246-296). *)
Definition parseFields (data : EewData) : AlertFields :=
  if strict_eq_str (type data) "sc_eew" then
    {| reportNum := ReportNum data; hypoCenter := HypoCenter data;
       originTime := OriginTime data; magnitudeDisplay := Magunitude data;
       rawMagnitudeForCalc := Some (parseFloat (Magunitude data));
       depthDisplay := Depth data;
       rawDepthForCalc := Some (parseFloat (Depth data));
       sourceAgency := [VStr "四川地震局"];
       maxIntensityDisplay := MaxIntensity data |}
  else if strict_eq_str (type data) "fj_eew" then
    {| reportNum := ReportNum data; hypoCenter := HypoCenter data;
       originTime := OriginTime data; magnitudeDisplay := Magunitude data;
       rawMagnitudeForCalc := Some (parseFloat (Magunitude data));
       depthDisplay := VStr "未知深度";
       rawDepthForCalc := Some (Fin 10);
       maxIntensityDisplay := VStr "N/A";
       sourceAgency := [VStr "福建地震局"] |}
  else if strict_eq_str (type data) "cwa_eew" then
    {| reportNum := ReportNum data; hypoCenter := HypoCenter data;
       originTime := OriginTime data; magnitudeDisplay := Magunitude data;
       rawMagnitudeForCalc := Some (parseFloat (Magunitude data));
       depthDisplay := Depth data;
       rawDepthForCalc := Some (parseFloat (Depth data));
       sourceAgency := [VStr "台湾中央气象署"];
       maxIntensityDisplay := MaxIntensity data |}
  else if strict_eq_str (type data) "jma_eew" then
    {| reportNum := Serial data; hypoCenter := Hypocenter data;
       originTime := OriginTime data; magnitudeDisplay := Magunitude data;
       rawMagnitudeForCalc := Some (parseFloat (Magunitude data));
       depthDisplay := Depth data;
       rawDepthForCalc := Some (parseFloat (Depth data));
       sourceAgency := [value_or (Issue_Source data) (VStr "日本气象厅")];
       maxIntensityDisplay := MaxIntensity data |}
  else if strict_eq_str (type data) "test_eew" then
    {| reportNum := value_or (ReportNum data) (Serial data);
       hypoCenter := value_or (HypoCenter data) (Hypocenter data);
       originTime := OriginTime data; magnitudeDisplay := Magunitude data;
       rawMagnitudeForCalc := Some (parseFloat (Magunitude data));
       depthDisplay := Depth data;
       rawDepthForCalc := Some (parseFloat (Depth data));
       maxIntensityDisplay := MaxIntensity data;
       sourceAgency := [value_or (name data) (VStr "测试"); VStr "模拟机构"] |}
  else initialFields.

(** [isNaN(x)] for a variable that holds [null] or a number: [null]
    converts to the number 0. *)
Definition isNaN_nullable (x : option number) : bool :=
  match x with
  | Some n => isNaN n
  | None => false
  end.

(** The call [estimateIntensity(rawMagnitudeForCalc, rawDepthForCalc)]: on
    a [null] magnitude, [isNaN] and [<] read the number 0, and
    [parseFloat(null)] is [NaN]. *)
Definition estimateIntensity_call (m d : option number) : number :=
  estimateIntensity Math_log10
    (match m with Some n => n | None => Fin 0 end)
    (match d with Some n => n | None => NaN end).

(** Lines 298-307: the estimate when it can be computed, else what the
    feed supplied, else ['-']. *)
Definition displayedIntensity (f : AlertFields) : value :=
  if negb (isNaN_nullable (rawMagnitudeForCalc f)) && negb (isNaN_nullable (rawDepthForCalc f))
  then VNum (estimateIntensity_call (rawMagnitudeForCalc f) (rawDepthForCalc f))
  else
    match maxIntensityDisplay f with
    | undefined | null => VStr "-"
    | v => if strict_eq_str v "N/A" then VStr "-" else v
    end.

(** Lines 309-313. *)
Definition intensityBgColor (shown : value) : string :=
  if negb (strict_eq_str shown "-") then
    match intColor_bkcolor shown with
    | Some c => c
    | None => "#444444"
    end
  else "#444444".

(** The content assigned to [alertItem.innerHTML] (lines 316-329). *)
Definition alertContent (data : EewData) : BannerContent :=
  let f := parseFields data in
  let shown := displayedIntensity f in
  {| eew_report_num :=
       if truthy (reportNum f) then [VStr "(第"; reportNum f; VStr "报)"]
       else [VStr "(报数未知)"];
     eew_intensity_bg := intensityBgColor shown;
     eew_intensity := shown;
     eew_location := value_or (hypoCenter f) (VStr "未知地点");
     eew_agency := sourceAgency f;
     eew_time := value_or (originTime f) (VStr "未知时间");
     eew_magnitude := magnitudeDisplay f;
     eew_depth :=
       if truthy (depthDisplay f) then [depthDisplay f; VStr "km"]
       else [VStr "深度未知"] |}.

(** [createEewAlertElement(data)]: a new [div.eew-alert-item] with its
    [data-event-id] and content, appended to the container (line 331), and
    returned. *)
Definition createEewAlertElement (data : EewData) (env : Env) (s : State) : nat * State :=
  let '(alertItem, s) := fresh s in
  let s := upd_elements
             <[alertItem := {| data_event_id := eventId_of data (uid_attr env);
                               innerHTML := alertContent data;
                               hidden := false;
                               transitionend_listeners := 0 |}]> s in
  let s := upd_container (fun children => (children ++ [alertItem])%list) s in
  (alertItem, s).

(** *** [displayEew] (lines 340-432) *)

Definition isCancel_of (data : EewData) : bool :=
  strict_eq_str (type data) "jma_eew" && is_true (isCancel data).

Definition isFinal_of (data : EewData) : bool :=
  (strict_eq_str (type data) "jma_eew" && is_true (isFinal data))
  || (strict_eq_str (type data) "fj_eew" && is_true (isFinal data)).

(** [let lat, lon, magnitude] and the branches that assign them (lines
    378-389): [None] is [undefined]. *)
Definition parseCoordinates (data : EewData) : option number * option number * option number :=
  if strict_eq_str (type data) "sc_eew" || strict_eq_str (type data) "fj_eew"
     || strict_eq_str (type data) "cwa_eew" || strict_eq_str (type data) "test_eew"
  then (Some (parseFloat (Latitude data)), Some (parseFloat (Longitude data)),
        Some (parseFloat (Magunitude data)))
  else if strict_eq_str (type data) "jma_eew"
  then (Some (parseFloat (Latitude data)), Some (parseFloat (Longitude data)),
        Some (parseFloat (Magunitude data)))
  else (None, None, None).

Definition truthy_var (x : option number) : bool :=
  match x with
  | Some n => num_truthy n
  | None => false
  end.

Definition isNaN_var (x : option number) : bool :=
  match x with
  | Some n => isNaN n
  | None => true
  end.

(** The test of line 392. *)
Definition validCoordinates (lat lon magnitude : option number) : bool :=
  truthy_var lat && truthy_var lon && truthy_var magnitude
  && negb (isNaN_var lat) && negb (isNaN_var lon) && negb (isNaN_var magnitude).

(** The update of an alert that is already shown (lines 396-406): the old
    expiry timer is cleared, [createEewAlertElement(data)] builds the new
    content, and the content is copied into the existing banner through a
    detached [tempDiv]. *)
Definition updateBanner (data : EewData) (env : Env) (existingAlert : AlertEntry) (s : State)
  : nat * State :=
  let alertElement := element existingAlert in
  let s := clearTimeout (timeoutId existingAlert) s in
  let '(created, s) := createEewAlertElement data env s in
  let s := match domElements s !! created with
           | Some e => set_innerHTML alertElement (innerHTML e) s
           | None => s
           end in
  (alertElement, classList_remove_hidden alertElement s).

Definition displayEew (data : EewData) (env : Env) (s : State) : State :=
  let id := eventId_of data (uid env) in
  if isCancel_of data || isFinal_of data then
    let s := match activeEewAlerts s !! id with
             | Some entry => removeAlert id entry s
             | None => s
             end in
    match activeWaveAnimations s !! id with
    | Some anim => removeWaveAnimation id anim s
    | None => s
    end
  else
    match parseCoordinates data with
    | (Some lat, Some lon, Some magnitude) =>
        if validCoordinates (Some lat) (Some lon) (Some magnitude) then
          let '(alertElement, s) :=
            match activeEewAlerts s !! id with
            | Some existingAlert => updateBanner data env existingAlert s
            | None => createEewAlertElement data env s
            end in
          let '(newTimeoutId, s) :=
            setTimeout (ExpireAlert id alertElement) ALERT_DISPLAY_DURATION_MS s in
          let s := upd_alerts
                     <[id := {| element := alertElement; timeoutId := newTimeoutId |}]> s in
          addEarthquake lat lon magnitude id (now env) s
        else s
    | _ => s
    end.

(** *** The callbacks the browser runs *)

(** A pending animation frame comes due. *)
Definition runFrame (frame : nat) (currentTime : number) (s : State) : State :=
  match frames s !! frame with
  | Some c => animateWaves c currentTime (upd_frames (delete frame) s)
  | None => s
  end.

(** A pending timer fires: the expiry callback (lines 413-420) or the
    view-fit callback (lines 546-565). *)
Definition fireTimer (id : nat) (s : State) : State :=
  match timers s !! id with
  | None => s
  | Some tm =>
      let s := upd_timers (delete id) s in
      match callback tm with
      | ExpireAlert ev alertElement =>
          let s := classList_add_hidden alertElement s in
          let s := remove_on_transitionend alertElement s in
          upd_alerts (delete ev) s
      | FitView c =>
          match closures s !! c with
          | None => s
          | Some v =>
              let bounds h := match mapObjects s !! h with
                              | Some o => getBounds o
                              | None => false
                              end in
              let s := if bounds (pWave v) || bounds (sWave v)
                       then map_setFitView [epicenter v; pWave v; sWave v] s
                       else s in
              upd_closures <[c := set_fitViewTimer None v]> s
          end
      end
  end.

(** The [transitionend] event of an element: its once-only listeners remove it. *)
Definition transitionEnd (h : nat) (s : State) : State :=
  match domElements s !! h with
  | Some e =>
      if (0 <? transitionend_listeners e)%nat then
        let s := upd_container (List.filter (fun h' => negb (h' =? h)%nat)) s in
        upd_elements
          (alter (fun e => {| data_event_id := data_event_id e; innerHTML := innerHTML e;
                              hidden := hidden e; transitionend_listeners := 0 |}) h) s
      else s
  | None => s
  end.

(** *** The polling cycle (lines 640-697) *)

(** [data.EventID || data.ID || data.Serial], [None] when falsy. *)
Definition receivedId (data : EewData) : option value :=
  match id_or (EventID data) (ID data) with
  | Some k => Some (VStr k)
  | None => if truthy (Serial data) then Some (Serial data) else None
  end.

(** The loop over [eewResults] (lines 648-653): a fetch that failed gave
    [null] ([None]). *)
Fixpoint processResults (results : list (option EewData * Env)) (received : list value)
    (s : State) : list value * State :=
  match results with
  | [] => (received, s)
  | (Some data, env) :: rest =>
      match receivedId data with
      | Some k => processResults rest (received ++ [k])%list (displayEew data env s)
      | None => processResults rest received s
      end
  | (None, _) :: rest => processResults rest received s
  end.

(** [receivedEventIdsThisCycle.has(eventId)] for a string key. *)
Definition received_has (received : list value) (id : string) : bool :=
  existsb (fun v => strict_eq_str v id) received.

(** The body of [activeEewAlerts.forEach] (lines 656-680). *)
Definition evict (received : list value) (s : State) (kv : string * AlertEntry) : State :=
  let '(id, entry) := kv in
  let isTestAlert := String.prefix "test-" id in
  if negb (received_has received id) && negb isTestAlert then
    let s := removeAlert id entry s in
    match activeWaveAnimations s !! id with
    | Some anim => removeWaveAnimation id anim s
    | None => s
    end
  else s.

Definition pollCycle (results : list (option EewData * Env)) (s : State) : State :=
  let '(received, s) := processResults results [] s in
  fold_left (evict received) (map_to_list (activeEewAlerts s)) s.

(** *** The event loop *)

Inductive Event : Type :=
| Snapshot (data : EewData) (env : Env)
| Poll (results : list (option EewData * Env))
| Frame (frame : nat) (currentTime : number)
| TimerFires (id : nat)
| TransitionEnd (h : nat).

Definition step (s : State) (ev : Event) : State :=
  match ev with
  | Snapshot data env => displayEew data env s
  | Poll results => pollCycle results s
  | Frame frame currentTime => runFrame frame currentTime s
  | TimerFires id => fireTimer id s
  | TransitionEnd h => transitionEnd h s
  end.

Definition run (evs : list Event) : State := fold_left step evs initial.

End Program.

(** ** The estimator over an arithmetic of doubles

    [estimateIntensity] above computes line 104 on exact rationals.  In
    JavaScript each of the three operations of that line rounds its result
    to a double, and overflows to an infinity: [1.5 * 1.5e308] is
    [Infinity], and the estimate at the magnitude 1.5e308 and an infinite
    depth is [NaN], where the exact formula gives 0.  The rest of the
    function ([isNaN], the two comparisons, [Math.round], [Math.min] and
    [Math.max]) is exact on doubles.  The estimator is therefore given a
    second time, over the three operations as parameters: what is proved of
    it for every [Arith] holds of the exact arithmetic and of the doubles
    alike. *)
Record Arith : Type := {
  fmul : number -> number -> number;
  fadd : number -> number -> number;
  fsub : number -> number -> number
}.

(** The arithmetic of [estimateIntensity] above. *)
Definition exact : Arith := {| fmul := num_mul; fadd := num_add; fsub := num_sub |}.

Section Arithmetic.

Variable A : Arith.
Variable Math_log10 : number -> number.

(** [estimateIntensity(magnitude, depth)] (lines 88-111). *)
Definition estimateIntensity_in (magnitude depth : number) : number :=
  if isNaN magnitude || (magnitude <? Fin 3.0)%num then Fin 0
  else
    let actualDepth := depth in
    let actualDepth :=
      if isNaN actualDepth || (actualDepth <=? Fin 0)%num then Fin 10 else actualDepth in
    let logDepth := Math_log10 actualDepth in
    let estimatedI :=
      fsub A (fadd A (fmul A (Fin 1.5) magnitude) (Fin 3.0)) (fmul A (Fin 3.5) logDepth) in
    let estimatedI := Math_round estimatedI in
    Math_max (Fin 0) (Math_min (Fin 12) estimatedI).

(** The call of line 299, as [estimateIntensity_call]. *)
Definition estimateIntensity_call_in (m d : option number) : number :=
  estimateIntensity_in
    (match m with Some n => n | None => Fin 0 end)
    (match d with Some n => n | None => NaN end).

(** Lines 298-307, as [displayedIntensity]. *)
Definition displayedIntensity_in (f : AlertFields) : value :=
  if negb (isNaN_nullable (rawMagnitudeForCalc f)) && negb (isNaN_nullable (rawDepthForCalc f))
  then VNum (estimateIntensity_call_in (rawMagnitudeForCalc f) (rawDepthForCalc f))
  else
    match maxIntensityDisplay f with
    | undefined | null => VStr "-"
    | v => if strict_eq_str v "N/A" then VStr "-" else v
    end.

End Arithmetic.

(** ** [fetchData] (lines 65-79) *)

(** What [fetch(url)] and [response.json()] can do: the request is rejected,
    or a response arrives, with its [ok] flag and a body that parses as JSON
    ([Some]) or does not ([None]). *)
Inductive FetchOutcome (A : Type) : Type :=
| Rejected
| Response (ok : bool) (json : option A).

Arguments Rejected {A}.
Arguments Response {A} ok json.

(** [fetchData(url)]: the parsed body, or [null] ([None]) for whatever is
    thrown on the way (the rejected request, the error thrown at line 70 for a
    response that is not [ok], the body that does not parse). *)
Definition fetchData {A : Type} (outcome : FetchOutcome A) : option A :=
  match outcome with
  | Rejected => None
  | Response ok json => if negb ok then None else json
  end.

(** ** The earthquake list ([displayEqList], lines 145-219) *)

(** An entry [data.No1], ..., of an earthquake list: the fields the program
    reads.  [shindo] is a string when present, as [eq.shindo.replace]
    requires. *)
Record EqEntry : Type := {
  eq_location : value;
  eq_magnitude : value;
  eq_depth : value;
  eq_time : value;
  eq_shindo : option string
}.

(** The interpolated parts of the template literal assigned to
    [listItem.innerHTML] (lines 171-178 and 205-212). *)
Record ListItem : Type := {
  eq_intensity_small_bg : string;
  eq_intensity_small : value;
  eq_location_small : value;
  eq_magnitude_small : value;
  eq_depth_small : value;
  eq_time_small : value
}.

(** The key [`No${i}`]. *)
Definition No (i : nat) : string := "No" ++ NilEmpty.string_of_uint (Nat.to_uint i).

(** [s.replace(c, '')] for a one-character pattern: the first occurrence
    is dropped. *)
Fixpoint replace_first (c : ascii) (s : string) : string :=
  match s with
  | EmptyString => EmptyString
  | String c' s' => if Ascii.eqb c' c then s' else String c' (replace_first c s')
  end.

Section EarthquakeList.

(** The arithmetic of the estimate, and [Math.log10]. *)
Variable A : Arith.
Variable Math_log10 : number -> number.

(** The row of an entry of the CENC list (lines 166-178). *)
Definition cencListItem (eq : EqEntry) : ListItem :=
  let estimatedIntensity :=
    estimateIntensity_in A Math_log10 (parseFloat (eq_magnitude eq)) (parseFloat (eq_depth eq)) in
  let intensityBgColor :=
    match intColor_bkcolor (VNum estimatedIntensity) with
    | Some c => c
    | None => "#444444"
    end in
  {| eq_intensity_small_bg := intensityBgColor;
     eq_intensity_small := VNum estimatedIntensity;
     eq_location_small := eq_location eq;
     eq_magnitude_small := eq_magnitude eq;
     eq_depth_small := eq_depth eq;
     eq_time_small := eq_time eq |}.

(** The row of an entry of the JMA list (lines 187-212): the shindo the
    feed gives, its first [+] and first [-] dropped, else the estimate when
    magnitude and depth parse, else ['-']. *)
Definition jmaListItem (eq : EqEntry) : ListItem :=
  let rawMagnitudeForCalc := parseFloat (eq_magnitude eq) in
  let rawDepthForCalc := parseFloat (eq_depth eq) in
  let estimated :=
    if negb (isNaN rawMagnitudeForCalc) && negb (isNaN rawDepthForCalc)
    then VNum (estimateIntensity_in A Math_log10 rawMagnitudeForCalc rawDepthForCalc)
    else VStr "-" in
  let displayIntensity :=
    match eq_shindo eq with
    | Some shindo =>
        if negb (String.eqb shindo "") && negb (String.eqb shindo "-")
        then VStr (replace_first "-" (replace_first "+" shindo))
        else estimated
    | None => estimated
    end in
  {| eq_intensity_small_bg := intensityBgColor displayIntensity;
     eq_intensity_small := displayIntensity;
     eq_location_small := eq_location eq;
     eq_magnitude_small := eq_magnitude eq;
     eq_depth_small := eq_depth eq;
     eq_time_small := eq_time eq |}.

(** The loop [for (let i = 1; i <= 50; i++)] of either branch: a row is
    appended for each key [No1], ..., [No50] that is present. *)
Definition appendRows (item : EqEntry -> ListItem) (data : gmap string EqEntry)
    (children : list ListItem) : list ListItem :=
  fold_left
    (fun children i =>
       match data !! No i with
       | Some eq => (children ++ [item eq])%list
       | None => children
       end)
    (seq 1 50) children.

(** [displayEqList(data, dataType)] on the children of the [#eq-list]
    element; the element is [None] when [getElementById] found none, and
    [data] is [None] for [null]. *)
Definition displayEqList (data : option (gmap string EqEntry)) (dataType : value)
    (eqList : option (list ListItem)) : option (list ListItem) :=
  match data with
  | None => eqList
  | Some data =>
      match eqList with
      | None => None
      | Some _ =>
          let children := [] in
          if strict_eq_str dataType "cenc_eqlist" then
            Some (appendRows cencListItem data children)
          else if strict_eq_str dataType "jma_eqlist" then
            Some (appendRows jmaListItem data children)
          else Some children
      end
  end.

(** [url.includes(part)]. *)
Definition includes (url part : string) : bool :=
  match String.index 0 part url with
  | Some _ => true
  | None => false
  end.

(** The callback of [fetchData(url).then] for a list source (lines 624-633
    and 684-693); [dataType] stays [undefined] for a URL of neither kind. *)
Definition loadEqList (url : string) (outcome : FetchOutcome (gmap string EqEntry))
    (eqList : option (list ListItem)) : option (list ListItem) :=
  match fetchData outcome with
  | Some data =>
      let dataType :=
        if includes url "cenc_eqlist" then VStr "cenc_eqlist"
        else if includes url "jma_eqlist" then VStr "jma_eqlist"
        else undefined in
      displayEqList (Some data) dataType eqList
  | None => eqList
  end.

End EarthquakeList.

(** ** The test button (lines 594-618) *)

(** [testLocations], given the four numbers
    [Math.floor(Math.random() * 10) + 1] evaluates to. *)
Definition testLocations (r0 r1 r2 r3 : number) : list EewData :=
  [ {| name := VStr "Sichuan"; Latitude := VNum (Fin 31.0); Longitude := VNum (Fin 103.0);
       Magunitude := VNum (Fin 6.8); ReportNum := VNum r0;
       OriginTime := VStr "2025/06/15 08:00:00"; HypoCenter := VStr "四川省阿坝州";
       Depth := VNum (Fin 20); MaxIntensity := VStr "7"; type := VStr "sc_eew";
       EventID := None; ID := None; Serial := undefined; Hypocenter := undefined;
       isCancel := undefined; isFinal := undefined; Issue_Source := undefined |};
    {| name := VStr "Fujian"; Latitude := VNum (Fin 25.0); Longitude := VNum (Fin 119.0);
       Magunitude := VNum (Fin 5.5); ReportNum := VNum r1;
       OriginTime := VStr "2025/06/15 09:15:30"; HypoCenter := VStr "福建省泉州市";
       Depth := VNum (Fin 15); MaxIntensity := VStr "5"; type := VStr "fj_eew";
       EventID := None; ID := None; Serial := undefined; Hypocenter := undefined;
       isCancel := undefined; isFinal := undefined; Issue_Source := undefined |};
    {| name := VStr "Taiwan Strait"; Latitude := VNum (Fin 23.5); Longitude := VNum (Fin 118.5);
       Magunitude := VNum (Fin 7.1); ReportNum := VNum r2;
       OriginTime := VStr "2025/06/15 10:30:45"; HypoCenter := VStr "台湾海峡";
       Depth := VNum (Fin 30); MaxIntensity := VStr "8"; type := VStr "cwa_eew";
       EventID := None; ID := None; Serial := undefined; Hypocenter := undefined;
       isCancel := undefined; isFinal := undefined; Issue_Source := undefined |};
    {| name := VStr "Offshore Japan"; Latitude := VNum (Fin 36.0); Longitude := VNum (Fin 141.0);
       Magunitude := VNum (Fin 7.3); Serial := VNum r3;
       OriginTime := VStr "2025/06/15 11:44:00"; Hypocenter := VStr "日本福岛县近海";
       Depth := VNum (Fin 40); MaxIntensity := VStr "6"; type := VStr "jma_eew";
       Issue_Source := VStr "日本气象厅";
       EventID := None; ID := None; ReportNum := undefined; HypoCenter := undefined;
       isCancel := undefined; isFinal := undefined |} ].

(** An object with no property. *)
Definition emptyObject : EewData :=
  {| type := undefined; EventID := None; ID := None; Serial := undefined;
     ReportNum := undefined; HypoCenter := undefined; Hypocenter := undefined;
     OriginTime := undefined; Magunitude := undefined; Depth := undefined;
     MaxIntensity := undefined; Latitude := undefined; Longitude := undefined;
     isCancel := undefined; isFinal := undefined; name := undefined;
     Issue_Source := undefined |}.

(** [{ ...randomLocation, EventID: `test-${...}` }] (lines 606-611), where
    [randomLocation] is [testLocations[k]]; spreading [undefined] adds no
    property. *)
Definition testEewData (r0 r1 r2 r3 : number) (k : nat) (synth : string) : EewData :=
  let randomLocation :=
    match nth_error (testLocations r0 r1 r2 r3) k with
    | Some location => location
    | None => emptyObject
    end in
  {| EventID := Some ("test-" ++ synth);
     type := type randomLocation; ID := ID randomLocation; Serial := Serial randomLocation;
     ReportNum := ReportNum randomLocation; HypoCenter := HypoCenter randomLocation;
     Hypocenter := Hypocenter randomLocation; OriginTime := OriginTime randomLocation;
     Magunitude := Magunitude randomLocation; Depth := Depth randomLocation;
     MaxIntensity := MaxIntensity randomLocation; Latitude := Latitude randomLocation;
     Longitude := Longitude randomLocation; isCancel := isCancel randomLocation;
     isFinal := isFinal randomLocation; name := name randomLocation;
     Issue_Source := Issue_Source randomLocation |}.

(** The click handler (lines 595-615). *)
Definition clickTest (Math_log10 : number -> number) (r0 r1 r2 r3 : number) (k : nat)
    (synth : string) (env : Env) (s : State) : State :=
  displayEew Math_log10 (testEewData r0 r1 r2 r3 k synth) env s.

(** ** The polling cycle on what the requests give *)

(** The [setInterval] callback on the outcomes of its four requests. *)
Definition pollFeeds (Math_log10 : number -> number)
    (outcomes : list (FetchOutcome EewData * Env)) (s : State) : State :=
  pollCycle Math_log10 (map (fun oe => (fetchData oe.1, oe.2)) outcomes) s.

(** ** Snapshots and environments used in the examples *)

(** A report of the given source type and identifier; [cancel] sets
    [isCancel]. *)
Definition report (ty id : string) (lat lon mag depth : value) (cancel : bool) : EewData :=
  {| type := VStr ty; EventID := Some id; ID := None;
     Serial := VNum (Fin 1); ReportNum := VNum (Fin 1);
     HypoCenter := VStr "四川省阿坝州"; Hypocenter := VStr "日本福岛县近海";
     OriginTime := VStr "2025/06/15 08:00:00";
     Magunitude := mag; Depth := depth; MaxIntensity := VStr "7";
     Latitude := lat; Longitude := lon;
     isCancel := VBool cancel; isFinal := undefined;
     name := undefined; Issue_Source := undefined |}.

(** The scenario of the specification: identifier E1 at latitude 31.0,
    longitude 103.0, magnitude 6.8, depth 20. *)
Definition report_E1 : EewData :=
  report "sc_eew" "E1" (VNum (Fin 31.0)) (VNum (Fin 103.0)) (VNum (Fin 6.8)) (VNum (Fin 20)) false.

(** A report of the Japanese feed and its cancellation. *)
Definition report_J1 : EewData :=
  report "jma_eew" "J1" (VNum (Fin 36.0)) (VNum (Fin 141.0)) (VNum (Fin 7.3)) (VNum (Fin 40)) false.

Definition cancel_J1 : EewData :=
  report "jma_eew" "J1" (VNum (Fin 36.0)) (VNum (Fin 141.0)) (VNum (Fin 7.3)) (VNum (Fin 40)) true.

(** A report of the Fujian feed that carries a depth: magnitude 5.5, as in
    the test button's Fujian location, and depth 100. *)
Definition report_F1 : EewData :=
  report "fj_eew" "F1" (VNum (Fin 25.0)) (VNum (Fin 119.0)) (VNum (Fin 5.5)) (VNum (Fin 100)) false.

(** A report whose epicentre lies on the equator. *)
Definition report_equator : EewData :=
  report "sc_eew" "E2" (VNum (Fin 0)) (VNum (Fin 103.0)) (VNum (Fin 6.8)) (VNum (Fin 20)) false.

(** What the test button sends (lines 598-611): one of its locations under
    a synthesized identifier. *)
Definition report_test : EewData :=
  report "sc_eew" "test-1750000000000-k3x9q" (VNum (Fin 31.0)) (VNum (Fin 103.0))
    (VNum (Fin 6.8)) (VNum (Fin 20)) false.

Definition env_at (t : Q) : Env :=
  {| uid := "1750000000000-a1b2c"; uid_attr := "1750000000000-d3e4f"; now := Fin t |}.

Definition always_bounds (o : MapObject) : bool := true.

(** Frame times after an animation started at time 1000 (in ms). *)
Definition E1_frame_times : list Q := [1016%Q; 1033%Q].

(** E1 reported, no frame yet. *)
Definition E1_started : State :=
  run Math_log10_interp always_bounds [Snapshot report_E1 (env_at 1000)].

(** E1 reported, then one animation frame 16 ms later (frame 6 is the one
    [addEarthquake] requested). *)
Definition E1_animated : State :=
  run Math_log10_interp always_bounds
    [Snapshot report_E1 (env_at 1000); Frame 6 (Fin 1016)].

(** ... then E1 reported again. *)
Definition E1_reported_twice : State :=
  step Math_log10_interp always_bounds E1_animated (Snapshot report_E1 (env_at 5000)).

(** J1 reported, one animation frame, then J1 cancelled. *)
Definition J1_animated : State :=
  run Math_log10_interp always_bounds
    [Snapshot report_J1 (env_at 1000); Frame 6 (Fin 1016)].

Definition J1_cancelled : State :=
  step Math_log10_interp always_bounds J1_animated (Snapshot cancel_J1 (env_at 5000)).

(** E1 reported and animated, then a polling cycle in which no feed returns
    anything. *)
Definition E1_missed : State :=
  step Math_log10_interp always_bounds E1_animated
    (Poll [(None, env_at 5000); (None, env_at 5000); (None, env_at 5000); (None, env_at 5000)]).

(** What the test button sends is shown, then a polling cycle returns nothing. *)
Definition test_alert_shown : State :=
  run Math_log10_interp always_bounds [Snapshot report_test (env_at 1000)].

Definition test_alert_missed : State :=
  step Math_log10_interp always_bounds test_alert_shown
    (Poll [(None, env_at 5000); (None, env_at 5000); (None, env_at 5000); (None, env_at 5000)]).

(** ** Vocabulary of the claims *)

(** A snapshot of one of the five sources [createEewAlertElement] and
    [displayEew] know. *)
Definition knownSource (data : EewData) : bool :=
  strict_eq_str (type data) "sc_eew" || strict_eq_str (type data) "fj_eew"
  || strict_eq_str (type data) "cwa_eew" || strict_eq_str (type data) "jma_eew"
  || strict_eq_str (type data) "test_eew".

(** The maximum intensity the feed supplies, or the sentinel ['-'] when it
    supplies none (the field is absent, [null] or ['N/A'], or the feed is the
    Fujian one). *)
Definition suppliedIntensity (data : EewData) : value :=
  if strict_eq_str (type data) "fj_eew" then VStr "-"
  else
    match MaxIntensity data with
    | undefined | null => VStr "-"
    | v => if strict_eq_str v "N/A" then VStr "-" else v
    end.

(** An alert the end of a polling cycle evicts: no feed returned its
    identifier, and the identifier is not one synthesized for a test. *)
Definition evictable (received : list value) (id : string) : bool :=
  negb (received_has received id) && negb (String.prefix "test-" id).

(** Frame times that never run backwards, from [t0] on. *)
Fixpoint nondecreasing (t0 : Q) (ts : list Q) : Prop :=
  match ts with
  | [] => True
  | t :: ts' => (t0 <= t)%Q /\ nondecreasing t ts'
  end.

(** What the specification says of an opacity [o], for a wave of radius [r]
    that stops at [cap]: the initial opacity scaled by [1 - r / cap], not
    below 0, and 0 exactly when the radius is at its cap. *)
Definition opacity_decays (initial_opacity r cap : Q) (o : number) : Prop :=
  exists x : Q,
    o = Fin x
    /\ (x == Qmax 0 (initial_opacity * (1 - r / cap)))%Q
    /\ ((x == 0)%Q <-> (r == cap)%Q).

(** The radii stay finite and under their caps along any run of frames. *)
Definition wave_inv (v : WaveClosure) (t : Q) : Prop :=
  exists rp rs : Q,
    pWaveRadius v = Fin rp /\ sWaveRadius v = Fin rs /\ lastUpdateTime v = Fin t
    /\ (rp <= 6000 * 600)%Q /\ (rs <= 4000 * 600)%Q.

(** The registry copy of the view-fit timer is never anything but [null]. *)
Definition registry_timers_null (s : State) : Prop :=
  forall id a, activeWaveAnimations s !! id = Some a -> wa_fitViewTimer a = None.

(** One step of the registry of wave animations: unchanged, an entry
    deleted, an entry written with a [null] timer, or the frame identifier of
    an entry replaced. *)
Inductive waves_step (m : gmap string WaveAnimation) : gmap string WaveAnimation -> Prop :=
| waves_same : waves_step m m
| waves_delete (id : string) : waves_step m (delete id m)
| waves_insert (id : string) (a : WaveAnimation) :
    wa_fitViewTimer a = None -> waves_step m (<[id := a]> m)
| waves_alter (id : string) (f : WaveAnimation -> WaveAnimation) :
    (forall a, wa_fitViewTimer (f a) = wa_fitViewTimer a) -> waves_step m (alter f id m).

(** ** Vocabulary of the further properties *)

(** The depth [estimateIntensity] takes the logarithm of (lines 94-98). *)
Definition actualDepth (depth : number) : number :=
  if isNaN depth || (depth <=? Fin 0)%num then Fin 10 else depth.

(** The value of line 104 before it is rounded, under the arithmetic [A]. *)
Definition estimatedI_in (A : Arith) (Math_log10 : number -> number)
    (magnitude depth : number) : number :=
  fsub A (fadd A (fmul A (Fin 1.5) magnitude) (Fin 3.0))
         (fmul A (Fin 3.5) (Math_log10 (actualDepth depth))).

(** An arithmetic whose three operations, as line 104 uses them, keep the
    order of numbers: a larger factor gives no smaller product by 1.5, a
    larger term no smaller sum with 3.0, and a larger minuend no smaller
    difference, as long as the differences are numbers.  Rounding to the
    nearest double and overflowing to an infinity both keep the order. *)
Definition monotone_formula (A : Arith) : Prop :=
  (forall a b, (a <=? b)%num = true ->
               (fmul A (Fin 1.5) a <=? fmul A (Fin 1.5) b)%num = true)
  /\ (forall x y, (x <=? y)%num = true ->
                  (fadd A x (Fin 3.0) <=? fadd A y (Fin 3.0))%num = true)
  /\ (forall x y c, (x <=? y)%num = true ->
                    isNaN (fsub A x c) = false -> isNaN (fsub A y c) = false ->
                    (fsub A x c <=? fsub A y c)%num = true).

(** A result of a polling cycle that the loop hands to [displayEew] under
    the identifier [id]. *)
Definition shownAs (id : string) (r : option EewData * Env) : bool :=
  match r.1 with
  | Some data =>
      match receivedId data with
      | Some _ => String.eqb (eventId_of data (uid r.2)) id
      | None => false
      end
  | None => false
  end.

(** A result whose identifier, as the cycle records it in
    [receivedEventIdsThisCycle], is [id]. *)
Definition returnsId (id : string) (r : option EewData * Env) : bool :=
  match r.1 with
  | Some data =>
      match receivedId data with
      | Some k => strict_eq_str k id
      | None => false
      end
  | None => false
  end.

(** *** What the store keeps true in every state the page can reach *)

(** A pending expiry timer is the one the registry entry of its alert
    records, set for the banner that entry records. *)
Definition expiry_timers_current (s : State) : Prop :=
  forall t id el,
    callback <$> timers s !! t = Some (ExpireAlert id el) ->
    activeEewAlerts s !! id = Some {| element := el; timeoutId := t |}.

(** A pending view-fit timer is the one the closure of its animation holds
    in [fitViewTimer]. *)
Definition fitView_timers_current (s : State) : Prop :=
  forall t c,
    callback <$> timers s !! t = Some (FitView c) ->
    exists v, closures s !! c = Some v /\ fitViewTimer v = Some t.

(** A pending animation frame is the one the registry entry of its
    animation records, and that entry holds the overlays of the closure the
    frame will run. *)
Definition frames_current (s : State) : Prop :=
  forall f c,
    frames s !! f = Some c ->
    exists v a,
      closures s !! c = Some v
      /\ activeWaveAnimations s !! eventId v = Some a
      /\ animationFrameId a = f
      /\ wa_epicenter a = epicenter v /\ wa_pWave a = pWave v /\ wa_sWave a = sWave v.

(** An overlay on the map belongs to a registered wave animation. *)
Definition overlays_registered (s : State) : Prop :=
  forall h,
    h ∈ onMap s ->
    exists id a,
      activeWaveAnimations s !! id = Some a
      /\ (h = wa_epicenter a \/ h = wa_pWave a \/ h = wa_sWave a).

(** The banner of a registered alert is in the container, visible, with no
    listener waiting to remove it; and no two alerts share a banner. *)
Definition banners_shown (s : State) : Prop :=
  forall id e,
    activeEewAlerts s !! id = Some e ->
    element e ∈ container s
    /\ exists el, domElements s !! element e = Some el
                  /\ hidden el = false /\ transitionend_listeners el = 0.

Definition banners_distinct (s : State) : Prop :=
  forall id1 id2 e1 e2,
    activeEewAlerts s !! id1 = Some e1 -> activeEewAlerts s !! id2 = Some e2 ->
    element e1 = element e2 -> id1 = id2.

(** Handles in use were drawn from the counter. *)
Definition handles_fresh (s : State) : Prop :=
  (forall c v, closures s !! c = Some v -> c < next s)
  /\ (forall id e, activeEewAlerts s !! id = Some e -> element e < next s).

Record consistent (s : State) : Prop := {
  consistent_fresh : handles_fresh s;
  consistent_expiry : expiry_timers_current s;
  consistent_fitView : fitView_timers_current s;
  consistent_frames : frames_current s;
  consistent_overlays : overlays_registered s;
  consistent_banners : banners_shown s;
  consistent_distinct : banners_distinct s
}.

(** A banner in the container that no alert refers to and that nothing
    waits to remove. *)
Definition orphan (s : State) (h : nat) : Prop :=
  h ∈ container s /\ h < next s
  /\ (exists el, domElements s !! h = Some el /\ transitionend_listeners el = 0)
  /\ (forall id e, activeEewAlerts s !! id = Some e -> element e <> h).

(** Timer identifiers in use were drawn from the counter, and the timer an
    alert records, while it is pending, is an expiry timer. *)
Definition timers_fresh (s : State) : Prop :=
  (forall t x, timers s !! t = Some x -> t < next s)
  /\ (forall id e, activeEewAlerts s !! id = Some e -> timeoutId e < next s)
  /\ (forall id e x, activeEewAlerts s !! id = Some e ->
        timers s !! timeoutId e = Some x ->
        exists id' el', callback x = ExpireAlert id' el').

(** *** Auxiliary definitions of the further properties *)

(** The registry entry [addEarthquake] writes, for handles drawn from the
    counter at [n]. *)
Definition new_animation (n : nat) (t : number) : WaveAnimation :=
  {| wa_epicenter := n; wa_pWave := S n; wa_sWave := S (S n);
     animationFrameId := S (S (S (S n)));
     wa_lastUpdateTime := t; wa_fitViewTimer := None |}.

(** The expiry timer [displayEew] sets. *)
Definition expiry (id : string) (alertElement : nat) : Timer :=
  {| callback := ExpireAlert id alertElement; delay := Fin (10 * 60 * 1000) |}.

(** A banner hidden, with the listener that removes it once its transition
    ends (lines 357-361, 414-418 and 662-665). *)
Definition hiddenBanner (e : Element) : Element :=
  {| data_event_id := data_event_id e; innerHTML := innerHTML e; hidden := true;
     transitionend_listeners := S (transitionend_listeners e) |}.

(** Both removal blocks for one identifier, as the cancel path and the
    eviction run them. *)
Definition removeBoth (id : string) (s : State) : State :=
  let s := match activeEewAlerts s !! id with
           | Some entry => removeAlert id entry s
           | None => s
           end in
  match activeWaveAnimations s !! id with
  | Some anim => removeWaveAnimation id anim s
  | None => s
  end.

(** The registry entry of an animation with its frame identifier replaced
    (line 571). *)
Definition set_frame (frame : nat) (a : WaveAnimation) : WaveAnimation :=
  {| wa_epicenter := wa_epicenter a; wa_pWave := wa_pWave a; wa_sWave := wa_sWave a;
     animationFrameId := frame; wa_lastUpdateTime := wa_lastUpdateTime a;
     wa_fitViewTimer := wa_fitViewTimer a |}.

Definition fitViewTimeout (c : nat) : Timer := {| callback := FitView c; delay := Fin 500 |}.

(** A state in which the view-fit timer [t] of the closure [c] is pending,
    and which has what the reachable states have. *)
Definition pending_view_fit (t c : nat) (s : State) : Prop :=
  timers_fresh s /\ registry_timers_null s
  /\ callback <$> timers s !! t = Some (FitView c).

(** The overlays a registry entry of [activeWaveAnimations] holds. *)
Definition overlays_of (a : WaveAnimation) : list nat :=
  [wa_epicenter a; wa_pWave a; wa_sWave a].

(** The overlays of a registered wave animation are on the map, were drawn
    from the counter, and belong to no other animation. *)
Definition overlays_shown (s : State) : Prop :=
  (forall id a h, activeWaveAnimations s !! id = Some a -> h ∈ overlays_of a ->
                  h ∈ onMap s /\ h < next s)
  /\ (forall id1 id2 a1 a2 h,
        activeWaveAnimations s !! id1 = Some a1 -> activeWaveAnimations s !! id2 = Some a2 ->
        h ∈ overlays_of a1 -> h ∈ overlays_of a2 -> id1 = id2).

(** *** Further examples *)

(** An entry of the CENC list. *)
Definition entry_Sichuan : EqEntry :=
  {| eq_location := VStr "四川省阿坝州"; eq_magnitude := VStr "6.8"; eq_depth := VStr "20";
     eq_time := VStr "2025-06-15 08:00:00"; eq_shindo := None |}.

(** A snapshot of no known source. *)
Definition report_unknown : EewData :=
  report "xx_eew" "E9" (VNum (Fin 31.0)) (VNum (Fin 103.0)) (VNum (Fin 6.8)) (VNum (Fin 20)) false.

(** The events behind [E1_started] and [E1_animated]. *)
Definition E1_started_events : list Event := [Snapshot report_E1 (env_at 1000)].

Definition E1_animated_events : list Event :=
  [Snapshot report_E1 (env_at 1000); Frame 6 (Fin 1016)].

(** A cycle in which the four requests fail, each in its way. *)
Definition failed_outcomes : list (FetchOutcome EewData * Env) :=
  [ (Rejected, env_at 5000); (Response false None, env_at 5000);
    (Response true None, env_at 5000); (Response false (Some report_E1), env_at 5000) ].

Definition J1_animated_events : list Event :=
  [Snapshot report_J1 (env_at 1000); Frame 6 (Fin 1016)].

(** * Properties *)

(** ** Numbers *)

Lemma Qcompare_inject_Z (a b : Z) : (inject_Z a ?= inject_Z b)%Q = (a ?= b)%Z.
Proof. unfold Qcompare; simpl. now rewrite !Z.mul_1_r. Qed.

Lemma num_ltb_Fin (a b : Q) : num_ltb (Fin a) (Fin b) = true <-> (a < b)%Q.
Proof.
  unfold num_ltb. rewrite Qlt_alt. destruct (a ?= b)%Q; intuition congruence.
Qed.

Lemma num_ltb_Fin_false (a b : Q) : num_ltb (Fin a) (Fin b) = false <-> (b <= a)%Q.
Proof.
  unfold num_ltb. rewrite Qle_alt, <- Qcompare_antisym.
  destruct (b ?= a)%Q; simpl; intuition congruence.
Qed.

Lemma num_leb_Fin (a b : Q) : num_leb (Fin a) (Fin b) = true <-> (a <= b)%Q.
Proof.
  unfold num_leb. rewrite Qle_alt. destruct (a ?= b)%Q; intuition congruence.
Qed.

(** On the finite numbers, [Math.min] and [Math.max] are the rational ones. *)
Lemma Math_min_Fin (a b : Q) :
  exists r, Math_min (Fin a) (Fin b) = Fin r /\ (r == Qmin a b)%Q.
Proof.
  unfold Math_min; simpl isNaN; simpl orb.
  destruct (num_ltb (Fin a) (Fin b)) eqn:E.
  - exists a; split; [reflexivity |].
    apply num_ltb_Fin in E. symmetry. apply Q.min_l. now apply Qlt_le_weak.
  - exists b; split; [reflexivity |].
    apply num_ltb_Fin_false in E. symmetry. now apply Q.min_r.
Qed.

Lemma Math_max_Fin (a b : Q) :
  exists r, Math_max (Fin a) (Fin b) = Fin r /\ (r == Qmax a b)%Q.
Proof.
  unfold Math_max; simpl isNaN; simpl orb.
  destruct (num_ltb (Fin a) (Fin b)) eqn:E.
  - exists b; split; [reflexivity |].
    apply num_ltb_Fin in E. symmetry. apply Q.max_r. now apply Qlt_le_weak.
  - exists a; split; [reflexivity |].
    apply num_ltb_Fin_false in E. symmetry. now apply Q.max_l.
Qed.

(** [Math.round] returns an integer, within one half of its argument. *)
Lemma Math_round_Fin (q : Q) :
  exists z : Z, Math_round (Fin q) = Fin (inject_Z z)
                /\ (inject_Z z - (1 # 2) <= q)%Q /\ (q < inject_Z z + (1 # 2))%Q.
Proof.
  exists (Qfloor (q + (1 # 2))). split; [reflexivity |].
  pose proof (Qfloor_le (q + (1 # 2))) as Hl.
  pose proof (Qlt_floor (q + (1 # 2))) as Hu.
  rewrite inject_Z_plus in Hu. change (inject_Z 1) with 1%Q in Hu.
  split; lra.
Qed.

Lemma Math_round_cases (x : number) :
  Math_round x = NaN \/ Math_round x = PInf \/ Math_round x = NInf
  \/ exists z : Z, Math_round x = Fin (inject_Z z).
Proof.
  destruct x as [| | | q]; simpl; auto.
  right; right; right. eexists; reflexivity.
Qed.

(** ** The intensity estimator *)

Section EstimatorProperties.

Variable Math_log10 : number -> number.

(** The two ways of saying that the depth is unusable agree. *)
Lemma depth_default (d : number) :
  (if isNaN d || (d <=? Fin 0)%num then Fin 10 else d)
  = (if is_positive_number d then d else Fin 10).
Proof.
  unfold is_positive_number.
  destruct d as [| | | q]; simpl; try reflexivity.
  rewrite <- (Qcompare_antisym q 0). destruct (q ?= 0)%Q; reflexivity.
Qed.

(** [Math.max(0, Math.min(12, n))] clamps a rounded number to the range. *)
Lemma max_min_clamp (x : number) :
  Math_max (Fin 0) (Math_min (Fin 12) (Math_round x))
  = clamp (Fin 0) (Fin 12) (Math_round x).
Proof.
  destruct (Math_round_cases x) as [H | [H | [H | [z H]]]]; rewrite H; try reflexivity.
  unfold Math_max, Math_min, clamp.
  destruct (num_ltb (Fin 12) (Fin (inject_Z z))) eqn:A; cbn [isNaN orb];
    [change (num_ltb (Fin 0) (Fin 12)) with true; cbv iota |];
    destruct (num_ltb (Fin (inject_Z z)) (Fin 0)) eqn:B;
    destruct (num_ltb (Fin 0) (Fin (inject_Z z))) eqn:C;
    try reflexivity;
    try apply num_ltb_Fin in A; try apply num_ltb_Fin in B; try apply num_ltb_Fin in C;
    try apply num_ltb_Fin_false in A; try apply num_ltb_Fin_false in B;
    try apply num_ltb_Fin_false in C; try lra.
  assert (Hz : z = 0%Z).
  { apply Z.le_antisymm; [rewrite Zle_Qle | rewrite Zle_Qle]; assumption. }
  subst z. reflexivity.
Qed.

Lemma estimateIntensity_reference (magnitude depth : number) :
  estimateIntensity Math_log10 magnitude depth
  = estimate_reference Math_log10 magnitude depth.
Proof.
  unfold estimateIntensity, estimate_reference.
  destruct (isNaN magnitude || (magnitude <? Fin 3.0)%num); [reflexivity |].
  cbv zeta. rewrite depth_default. apply max_min_clamp.
Qed.

(** The estimate is 0 below the magnitude floor, whatever the depth. *)
Lemma estimateIntensity_floor (m : Q) (depth : number) :
  (m < 3)%Q -> estimateIntensity Math_log10 (Fin m) depth = Fin 0.
Proof.
  intros Hm. unfold estimateIntensity.
  assert (E : num_ltb (Fin m) (Fin 3.0) = true).
  { apply num_ltb_Fin. assert (3.0 == 3)%Q by reflexivity. lra. }
  simpl isNaN. now rewrite E.
Qed.

(** A depth that is not positive is read as 10 km. *)
Lemma estimateIntensity_depth_default (magnitude : number) (d : Q) :
  (d <= 0)%Q ->
  estimateIntensity Math_log10 magnitude (Fin d)
  = estimateIntensity Math_log10 magnitude (Fin 10).
Proof.
  intros Hd. unfold estimateIntensity.
  destruct (isNaN magnitude || (magnitude <? Fin 3.0)%num); [reflexivity |].
  cbv zeta.
  assert (E : num_leb (Fin d) (Fin 0) = true) by now apply num_leb_Fin.
  simpl isNaN. rewrite E. reflexivity.
Qed.

(** C3: for every magnitude and depth, [estimateIntensity] equals the
    reference definition (0 when the magnitude is not a number or is below
    3.0; otherwise the rounded formula, the depth replaced by 10 when it is
    not a positive number, clamped to the range from 0 to 12); in
    particular the estimate of (2.9, 10) is 0 and the estimate of (6.0, -5)
    is that of (6.0, 10). *)
Theorem estimateIntensity_refines_reference (magnitude depth : number) :
  estimateIntensity Math_log10 magnitude depth
  = estimate_reference Math_log10 magnitude depth
  /\ estimateIntensity Math_log10 (Fin 2.9) (Fin 10) = Fin 0
  /\ estimateIntensity Math_log10 (Fin 6.0) (Fin (-5))
     = estimateIntensity Math_log10 (Fin 6.0) (Fin 10).
Proof.
  split; [apply estimateIntensity_reference |].
  split.
  - apply estimateIntensity_floor. reflexivity.
  - apply estimateIntensity_depth_default. discriminate.
Qed.

(** At depth 10 the estimate only needs the logarithm of 10. *)
Lemma estimateIntensity_at_depth_10 (m : Q) :
  (3 <= m)%Q ->
  estimateIntensity Math_log10 (Fin m) (Fin 10)
  = Math_max (Fin 0)
      (Math_min (Fin 12)
         (Math_round (Fin 1.5 * Fin m + Fin 3.0 - Fin 3.5 * Math_log10 (Fin 10))%num)).
Proof.
  intros Hm. unfold estimateIntensity.
  assert (E : num_ltb (Fin m) (Fin 3.0) = false).
  { apply num_ltb_Fin_false. assert (3.0 == 3)%Q by reflexivity. lra. }
  simpl isNaN. rewrite E. reflexivity.
Qed.

(** C2, as amended: where the base-10 logarithm of 10 is 1, the estimate
    for magnitude 6.8 at depth 10 is 10, the value the formula gives
    (1.5 * 6.8 + 3.0 - 3.5 = 9.7, rounded). *)
Theorem estimateIntensity_68_10 :
  Math_log10 (Fin 10) = Fin 1 ->
  estimateIntensity Math_log10 (Fin 6.8) (Fin 10) = Fin 10.
Proof.
  intros Hlog. rewrite estimateIntensity_at_depth_10 by discriminate.
  rewrite Hlog. vm_compute. reflexivity.
Qed.

End EstimatorProperties.

Lemma estimateIntensity_68_10_witness :
  Math_log10_interp (Fin 10) = Fin 1
  /\ estimateIntensity Math_log10_interp (Fin 6.8) (Fin 10) = Fin 10.
Proof.
  split; [vm_compute; reflexivity |].
  apply (estimateIntensity_68_10 Math_log10_interp). vm_compute. reflexivity.
Defined.

(** C2, as stated, fails: with the logarithm of 10 equal to 1 the estimate
    for (6.8, 10) is 10, which is not the number 7. *)
Lemma estimateIntensity_68_10_is_not_7 :
  ~ (forall Math_log10 : number -> number,
        Math_log10 (Fin 10) = Fin 1 ->
        num_eqb (estimateIntensity Math_log10 (Fin 6.8) (Fin 10)) (Fin 7) = true).
Proof.
  intros H. specialize (H Math_log10_interp eq_refl).
  rewrite estimateIntensity_at_depth_10 in H by discriminate.
  vm_compute in H. discriminate H.
Qed.

(** ** The banner's intensity *)

Lemma strict_eq_str_true (v : value) (k : string) :
  strict_eq_str v k = true -> v = VStr k.
Proof.
  destruct v; simpl; try discriminate.
  intros H. apply String.eqb_eq in H. now subst.
Qed.

Section BannerProperties.

Variable Math_log10 : number -> number.

(** What [parseFields] leaves in the two variables the estimate is computed
    from, for a snapshot of one of the five sources: the parsed magnitude,
    and the parsed depth, but for a Fujian snapshot, whose [Depth] field is
    not read (lines 256-265 assign the constant 10). *)
Lemma parseFields_raw (data : EewData) :
  knownSource data = true ->
  rawMagnitudeForCalc (parseFields data) = Some (parseFloat (Magunitude data))
  /\ rawDepthForCalc (parseFields data)
     = Some (if strict_eq_str (type data) "fj_eew" then Fin 10
             else parseFloat (Depth data)).
Proof.
  unfold knownSource, parseFields.
  destruct (strict_eq_str (type data) "sc_eew") eqn:Esc.
  { apply strict_eq_str_true in Esc. rewrite Esc. intros _. split; reflexivity. }
  destruct (strict_eq_str (type data) "fj_eew") eqn:Efj.
  { intros _. split; reflexivity. }
  destruct (strict_eq_str (type data) "cwa_eew") eqn:Ecwa.
  { intros _. split; reflexivity. }
  destruct (strict_eq_str (type data) "jma_eew") eqn:Ejma.
  { intros _. split; reflexivity. }
  destruct (strict_eq_str (type data) "test_eew") eqn:Etest.
  { intros _. split; reflexivity. }
  discriminate.
Qed.

(** The intensity a feed supplies survives [parseFields], but for the
    Fujian feed, which supplies none. *)
Lemma parseFields_maxIntensity (data : EewData) :
  knownSource data = true ->
  maxIntensityDisplay (parseFields data)
  = if strict_eq_str (type data) "fj_eew" then VStr "N/A" else MaxIntensity data.
Proof.
  unfold knownSource, parseFields.
  destruct (strict_eq_str (type data) "sc_eew") eqn:Esc.
  { apply strict_eq_str_true in Esc. rewrite Esc. reflexivity. }
  destruct (strict_eq_str (type data) "fj_eew") eqn:Efj; [reflexivity |].
  destruct (strict_eq_str (type data) "cwa_eew") eqn:Ecwa; [reflexivity |].
  destruct (strict_eq_str (type data) "jma_eew") eqn:Ejma; [reflexivity |].
  destruct (strict_eq_str (type data) "test_eew") eqn:Etest; [reflexivity |].
  discriminate.
Qed.

(** C9, as the code has it: for a snapshot of one of the five sources
    other than the Fujian feed, the intensity shown is the estimate
    recomputed from the parsed magnitude and the parsed depth whenever both
    are numbers, whatever maximum intensity the feed supplies, and what the
    feed supplies, or the sentinel ['-'], is shown only when the magnitude
    or the depth does not parse.  For a snapshot of the Fujian feed the
    [Depth] field is not read: the intensity shown is the estimate from the
    parsed magnitude and the depth 10 whenever the magnitude is a number,
    whether the snapshot's depth parses or not, and the sentinel ['-']
    otherwise. *)
Theorem displayed_intensity_is_recomputed (data : EewData) :
  knownSource data = true ->
  let m := parseFloat (Magunitude data) in
  let d := parseFloat (Depth data) in
  let shown := eew_intensity (alertContent Math_log10 data) in
  if strict_eq_str (type data) "fj_eew" then
    (isNaN m = false -> shown = VNum (estimateIntensity Math_log10 m (Fin 10)))
    /\ (isNaN m = true -> shown = VStr "-")
  else
    (isNaN m = false /\ isNaN d = false ->
     shown = VNum (estimateIntensity Math_log10 m d))
    /\ (isNaN m = true \/ isNaN d = true -> shown = suppliedIntensity data)
    /\ (shown <> VNum (estimateIntensity Math_log10 m d) ->
        isNaN m = true \/ isNaN d = true).
Proof.
  intros Hk m d shown.
  destruct (parseFields_raw data Hk) as [Hm Hd].
  pose proof (parseFields_maxIntensity data Hk) as Hmax.
  assert (Hshown : shown = displayedIntensity Math_log10 (parseFields data)) by reflexivity.
  unfold displayedIntensity, estimateIntensity_call in Hshown.
  rewrite Hm, Hd, Hmax in Hshown. cbn [isNaN_nullable] in Hshown.
  fold m d in Hshown.
  unfold suppliedIntensity.
  destruct (strict_eq_str (type data) "fj_eew").
  - cbn [isNaN negb andb] in Hshown. rewrite andb_true_r in Hshown.
    split; intros Em; rewrite Em in Hshown; exact Hshown.
  - split; [| split].
    + intros [Em Ed]. rewrite Em, Ed in Hshown. exact Hshown.
    + intros Hnan.
      assert (E : negb (isNaN m) && negb (isNaN d) = false).
      { destruct Hnan as [E | E]; rewrite E; [reflexivity | apply andb_false_r]. }
      rewrite E in Hshown. exact Hshown.
    + intros Hne.
      destruct (isNaN m) eqn:Em; [now left |].
      destruct (isNaN d) eqn:Ed; [now right |].
      exfalso. apply Hne. exact Hshown.
Qed.

End BannerProperties.

Lemma displayed_intensity_is_recomputed_witness :
  knownSource report_E1 = true
  /\ MaxIntensity report_E1 = VStr "7"
  /\ eew_intensity (alertContent Math_log10_interp report_E1)
     = VNum (estimateIntensity Math_log10_interp (Fin 6.8) (Fin 20))
  /\ knownSource report_F1 = true
  /\ Depth report_F1 = VNum (Fin 100)
  /\ eew_intensity (alertContent Math_log10_interp report_F1)
     = VNum (estimateIntensity Math_log10_interp (Fin 5.5) (Fin 10)).
Proof.
  split; [reflexivity |]. split; [reflexivity |].
  split.
  { apply (displayed_intensity_is_recomputed Math_log10_interp report_E1 eq_refl).
    split; reflexivity. }
  split; [reflexivity |]. split; [reflexivity |].
  apply (displayed_intensity_is_recomputed Math_log10_interp report_F1 eq_refl).
  reflexivity.
Defined.

(** C9 as the specification words it fails on the Fujian feed: whatever
    [Math.log10] is, as long as it is exact at 10 and at 100, it is not so
    that every snapshot of the five sources whose magnitude and depth both
    parse shows the estimate from that magnitude and that depth.  The
    Fujian snapshot [report_F1] has magnitude 5.5 and depth 100, both
    numbers: its banner shows 8, the estimate at depth 10 (the rounding of
    1.5 * 5.5 + 3.0 - 3.5 * 1 = 7.75), where the estimate from its own
    depth is 4 (the rounding of 1.5 * 5.5 + 3.0 - 3.5 * 2 = 4.25). *)
Lemma displayed_intensity_ignores_the_Fujian_depth :
  ~ (forall (Math_log10 : number -> number) (data : EewData),
       Math_log10 (Fin 10) = Fin 1 ->
       Math_log10 (Fin 100) = Fin 2 ->
       knownSource data = true ->
       isNaN (parseFloat (Magunitude data)) = false ->
       isNaN (parseFloat (Depth data)) = false ->
       eew_intensity (alertContent Math_log10 data)
       = VNum (estimateIntensity Math_log10
                 (parseFloat (Magunitude data)) (parseFloat (Depth data)))).
Proof.
  intros H.
  specialize (H Math_log10_interp report_F1 eq_refl eq_refl eq_refl eq_refl eq_refl).
  vm_compute in H. discriminate H.
Qed.

(** ** The two removal blocks, field by field *)

Lemma removeAlert_fields (id : string) (entry : AlertEntry) (s : State) :
  let s' := removeAlert id entry s in
  activeEewAlerts s' = delete id (activeEewAlerts s)
  /\ activeWaveAnimations s' = activeWaveAnimations s
  /\ timers s' = delete (timeoutId entry) (timers s)
  /\ frames s' = frames s
  /\ onMap s' = onMap s
  /\ container s' = container s /\ closures s' = closures s /\ next s' = next s
  /\ viewCenter s' = viewCenter s /\ viewZoom s' = viewZoom s.
Proof. cbn. repeat split. Qed.

Lemma removeWaveAnimation_fields (id : string) (anim : WaveAnimation) (s : State) :
  let s' := removeWaveAnimation id anim s in
  activeEewAlerts s' = activeEewAlerts s
  /\ activeWaveAnimations s' = delete id (activeWaveAnimations s)
  /\ timers s' = match wa_fitViewTimer anim with
                 | Some t => delete t (timers s)
                 | None => timers s
                 end
  /\ frames s' = delete (animationFrameId anim) (frames s)
  /\ onMap s' = onMap s ∖ list_to_set [wa_epicenter anim; wa_pWave anim; wa_sWave anim]
  /\ container s' = container s /\ closures s' = closures s /\ next s' = next s
  /\ viewCenter s' = CenterAt INITIAL_MAP_CENTER /\ viewZoom s' = ZoomAt INITIAL_MAP_ZOOM.
Proof. unfold removeWaveAnimation. destruct (wa_fitViewTimer anim); cbn; repeat split. Qed.

(** ** Snapshots that are not valid *)

Lemma num_eqb_zero_falsy (n : number) :
  num_eqb n (Fin 0) = true -> num_truthy n = false.
Proof.
  destruct n as [| | | q]; simpl; try discriminate.
  intros H. now rewrite H.
Qed.

Section ValidityProperties.

Variable Math_log10 : number -> number.

Lemma parseCoordinates_cases (data : EewData) :
  parseCoordinates data
  = (Some (parseFloat (Latitude data)), Some (parseFloat (Longitude data)),
     Some (parseFloat (Magunitude data)))
  \/ parseCoordinates data = (None, None, None).
Proof.
  unfold parseCoordinates.
  destruct (strict_eq_str (type data) "sc_eew" || strict_eq_str (type data) "fj_eew"
            || strict_eq_str (type data) "cwa_eew" || strict_eq_str (type data) "test_eew");
    [now left |].
  destruct (strict_eq_str (type data) "jma_eew"); [now left | now right].
Qed.

Lemma validCoordinates_zero (lat lon magnitude : number) :
  num_eqb lat (Fin 0) = true \/ num_eqb lon (Fin 0) = true
  \/ num_eqb magnitude (Fin 0) = true ->
  validCoordinates (Some lat) (Some lon) (Some magnitude) = false.
Proof.
  unfold validCoordinates, truthy_var.
  intros [H | [H | H]]; apply num_eqb_zero_falsy in H; rewrite H;
    [reflexivity | now rewrite andb_false_r | now rewrite !andb_false_r].
Qed.

(** A snapshot that neither cancels nor ends, and whose coordinates do not
    pass the test of line 392, changes nothing. *)
Lemma displayEew_invalid (data : EewData) (env : Env) (s : State) :
  isCancel_of data || isFinal_of data = false ->
  (forall lat lon magnitude,
      parseCoordinates data = (Some lat, Some lon, Some magnitude) ->
      validCoordinates (Some lat) (Some lon) (Some magnitude) = false) ->
  displayEew Math_log10 data env s = s.
Proof.
  intros Hflags Hinvalid. unfold displayEew. rewrite Hflags.
  destruct (parseCoordinates data) as [[[lat |] [lon |]] [magnitude |]]; try reflexivity.
  now rewrite (Hinvalid lat lon magnitude eq_refl).
Qed.

(** What a cancel or final report leaves of the store: nothing is created,
    and no entry of either registry is added or changed. *)
Lemma displayEew_terminating_creates_nothing (data : EewData) (env : Env) (s : State) :
  isCancel_of data || isFinal_of data = true ->
  let s' := displayEew Math_log10 data env s in
  activeEewAlerts s' ⊆ activeEewAlerts s
  /\ activeWaveAnimations s' ⊆ activeWaveAnimations s
  /\ container s' = container s /\ closures s' = closures s /\ next s' = next s.
Proof.
  intros Hflags. unfold displayEew. rewrite Hflags.
  set (id := eventId_of data (uid env)).
  assert (H1 : forall s1 : State,
             s1 = s \/ (exists entry, s1 = removeAlert id entry s) ->
             activeEewAlerts s1 ⊆ activeEewAlerts s
             /\ activeWaveAnimations s1 = activeWaveAnimations s
             /\ container s1 = container s /\ closures s1 = closures s
             /\ next s1 = next s).
  { intros s1 [-> | [entry ->]]; [repeat split; reflexivity |].
    destruct (removeAlert_fields id entry s) as (Ha & Hw & _ & _ & _ & Hc & Hcl & Hn & _).
    rewrite Ha. repeat split; try assumption. apply delete_subseteq. }
  match goal with
  | |- context [match activeWaveAnimations ?s1 !! id with _ => _ end] =>
      destruct (H1 s1) as (Ha & Hw & Hc & Hcl & Hn);
        [destruct (activeEewAlerts s !! id); eauto |];
        destruct (activeWaveAnimations s1 !! id) as [anim |]
  end.
  - destruct (removeWaveAnimation_fields id anim
                (match activeEewAlerts s !! id with
                 | Some entry => removeAlert id entry s
                 | None => s
                 end)) as (Ha' & Hw' & _ & _ & _ & Hc' & Hcl' & Hn' & _).
    rewrite Ha', Hw', Hc', Hcl', Hn', Hw.
    repeat split; try assumption. apply delete_subseteq.
  - rewrite Hw. repeat split; try assumption; reflexivity.
Qed.

(** C10: the test of line 392 reads the parsed latitude, longitude and
    magnitude for truthiness as well as for [NaN], so a snapshot in which
    one of them is exactly 0 is not valid: it changes nothing unless it is
    a cancel or final report, and in no case is an alert created or
    updated, a banner added or a wave animation started. *)
Theorem zero_coordinate_is_invalid (data : EewData) (env : Env) (s : State) :
  num_eqb (parseFloat (Latitude data)) (Fin 0) = true
  \/ num_eqb (parseFloat (Longitude data)) (Fin 0) = true
  \/ num_eqb (parseFloat (Magunitude data)) (Fin 0) = true ->
  let s' := displayEew Math_log10 data env s in
  (isCancel_of data || isFinal_of data = false -> s' = s)
  /\ activeEewAlerts s' ⊆ activeEewAlerts s
  /\ activeWaveAnimations s' ⊆ activeWaveAnimations s
  /\ container s' = container s /\ closures s' = closures s /\ next s' = next s.
Proof.
  intros Hzero s'.
  assert (Hinvalid : isCancel_of data || isFinal_of data = false -> s' = s).
  { intros Hflags. apply displayEew_invalid; [exact Hflags |].
    intros lat lon magnitude E.
    destruct (parseCoordinates_cases data) as [E' | E']; rewrite E' in E; [| discriminate].
    injection E as <- <- <-. now apply validCoordinates_zero. }
  split; [exact Hinvalid |].
  destruct (isCancel_of data || isFinal_of data) eqn:Hflags.
  - now apply displayEew_terminating_creates_nothing.
  - rewrite (Hinvalid eq_refl). repeat split; reflexivity.
Qed.

End ValidityProperties.

Lemma zero_coordinate_is_invalid_witness :
  num_eqb (parseFloat (Latitude report_equator)) (Fin 0) = true
  /\ displayEew Math_log10_interp report_equator (env_at 5000) E1_animated = E1_animated.
Proof.
  split; [reflexivity |].
  exact (proj1 (zero_coordinate_is_invalid Math_log10_interp report_equator (env_at 5000)
                  E1_animated (or_introl eq_refl)) eq_refl).
Defined.

(** ** The wave fronts *)

Lemma num_div_Fin (x y : Q) : Qeq_bool y 0 = false -> (Fin x / Fin y)%num = Fin (x / y).
Proof. intros H. unfold num_div. now rewrite H. Qed.

Lemma pWaveMaxRadius_value : pWaveMaxRadius = Fin (6000 * (10 * 60 * 1000 / 1000)).
Proof. reflexivity. Qed.

Lemma sWaveMaxRadius_value : sWaveMaxRadius = Fin (4000 * (10 * 60 * 1000 / 1000)).
Proof. reflexivity. Qed.

(** One frame on finite radii: each radius moves by its speed times the
    elapsed seconds and stops at its cap. *)
Lemma advance_radii (v : WaveClosure) (rp rs t0 t : Q) :
  pWaveRadius v = Fin rp -> sWaveRadius v = Fin rs -> lastUpdateTime v = Fin t0 ->
  exists rp' rs' : Q,
    pWaveRadius (advance v (Fin t)) = Fin rp'
    /\ sWaveRadius (advance v (Fin t)) = Fin rs'
    /\ lastUpdateTime (advance v (Fin t)) = Fin t
    /\ (rp' == Qmin (rp + 6000 * ((t - t0) / 1000)) (6000 * 600))%Q
    /\ (rs' == Qmin (rs + 4000 * ((t - t0) / 1000)) (4000 * 600))%Q.
Proof.
  intros Hp Hs Ht.
  unfold advance, deltaTime; cbn [pWaveRadius sWaveRadius lastUpdateTime].
  rewrite Hp, Hs, Ht, pWaveMaxRadius_value, sWaveMaxRadius_value.
  unfold pWaveSpeed_m_s, sWaveSpeed_m_s, num_sub; cbn [num_opp num_add].
  rewrite num_div_Fin by reflexivity. cbn [num_mul num_add].
  destruct (Math_min_Fin (rp + 6000 * ((t + - t0) / 1000)) (6000 * (10 * 60 * 1000 / 1000)))
    as (rp' & -> & Hrp).
  destruct (Math_min_Fin (rs + 4000 * ((t + - t0) / 1000)) (4000 * (10 * 60 * 1000 / 1000)))
    as (rs' & -> & Hrs).
  exists rp', rs'. repeat split; try reflexivity.
  - rewrite Hrp. apply Q.min_compat; [unfold Qminus; reflexivity | reflexivity].
  - rewrite Hrs. apply Q.min_compat; [unfold Qminus; reflexivity | reflexivity].
Qed.

Lemma wave_inv_new (id : string) (e p w : nat) (t0 : Q) :
  wave_inv (new_closure id e p w (Fin t0)) t0.
Proof. exists 0%Q, 0%Q. repeat split; discriminate. Qed.

Lemma wave_inv_advance (v : WaveClosure) (t0 t : Q) :
  wave_inv v t0 -> wave_inv (advance v (Fin t)) t.
Proof.
  intros (rp & rs & Hp & Hs & Ht & _ & _).
  destruct (advance_radii v rp rs t0 t Hp Hs Ht) as (rp' & rs' & Hp' & Hs' & Ht' & Erp & Ers).
  exists rp', rs'. repeat split; try assumption.
  - rewrite Erp. apply Q.le_min_r.
  - rewrite Ers. apply Q.le_min_r.
Qed.

Lemma last_cons {A : Type} (l : list A) (x d : A) : List.last (x :: l) d = List.last l x.
Proof.
  revert x d. induction l as [| a l IH]; intros x d; [reflexivity |].
  change (List.last (x :: a :: l) d) with (List.last (a :: l) d).
  rewrite (IH a d). symmetry. apply (IH a x).
Qed.

Lemma wave_inv_frames (ts : list Q) (v : WaveClosure) (t0 : Q) :
  wave_inv v t0 -> wave_inv (frames_at v (map Fin ts)) (List.last ts t0).
Proof.
  revert v t0. induction ts as [| t ts IH]; intros v t0 Hv; [exact Hv |].
  change (frames_at v (map Fin (t :: ts))) with (frames_at (advance v (Fin t)) (map Fin ts)).
  rewrite last_cons. apply IH. now apply wave_inv_advance with (t0 := t0).
Qed.

Lemma nondecreasing_last (ts : list Q) (t0 t : Q) :
  nondecreasing t0 (ts ++ [t]) -> (List.last ts t0 <= t)%Q.
Proof.
  revert t0. induction ts as [| u ts IH]; intros t0 H.
  - now destruct H.
  - destruct H as [_ H]. rewrite last_cons. exact (IH u H).
Qed.

(** An opacity computed on a finite radius under its cap. *)
Lemma opacity_of_radius (i r c cap : Q) :
  (0 < i)%Q -> (0 < cap)%Q -> (c == cap)%Q -> (r <= cap)%Q ->
  opacity_decays i r cap (opacity (Fin i) (Fin r) (Fin c)).
Proof.
  intros Hi Hcap Hc Hr. unfold opacity.
  assert (Hc0 : Qeq_bool c 0 = false).
  { destruct (Qeq_bool c 0) eqn:E; [| reflexivity].
    apply Qeq_bool_eq in E. rewrite Hc in E. lra. }
  rewrite num_div_Fin by exact Hc0.
  unfold num_sub; cbn [num_opp num_add num_mul].
  destruct (Math_max_Fin 0 (i * (1 + - (r / c)))) as (x & -> & Hx).
  assert (Hd : (r / c == r / cap)%Q) by now rewrite Hc.
  assert (Hq : (r / cap <= 1)%Q).
  { apply Qle_shift_div_r; [exact Hcap | lra]. }
  assert (Hq1 : (r / cap == 1)%Q <-> (r == cap)%Q).
  { split; intros E.
    - assert (E' : (r / cap * cap == r)%Q) by (field; lra). rewrite E in E'. lra.
    - rewrite E. field. lra. }
  exists x. split; [reflexivity |]. split.
  - rewrite Hx. apply Q.max_compat; [reflexivity |]. rewrite Hd. unfold Qminus. reflexivity.
  - rewrite <- Hq1, Hx, Hd.
    destruct (Q.max_spec 0 (i * (1 + - (r / cap)))) as [[Hlt Hmax] | [Hle Hmax]];
      rewrite Hmax; split; intros E; nra.
Qed.

(** C6: along any run of frames whose times never run backwards, each wave
    radius (P at 6000 m/s, S at 4000 m/s) does not decrease from one frame to
    the next and never exceeds its speed times 600 s, and each of the four
    opacities is its initial value scaled by [1 - radius / cap], not below 0,
    so that it is 0 exactly when the radius is at its cap. *)
Theorem wave_radii_and_opacities (id : string) (e p w : nat) (t0 : Q) (ts : list Q) (t : Q) :
  nondecreasing t0 (ts ++ [t]) ->
  let v := frames_at (new_closure id e p w (Fin t0)) (map Fin ts) in
  let v' := advance v (Fin t) in
  exists rp rs rp' rs' : Q,
    pWaveRadius v = Fin rp /\ sWaveRadius v = Fin rs
    /\ pWaveRadius v' = Fin rp' /\ sWaveRadius v' = Fin rs'
    /\ (rp <= rp')%Q /\ (rs <= rs')%Q
    /\ (rp' <= 6000 * 600)%Q /\ (rs' <= 4000 * 600)%Q
    /\ opacity_decays 0.8 rp' (6000 * 600) (currentPWaveStrokeOpacity v')
    /\ opacity_decays 0.1 rp' (6000 * 600) (currentPWaveFillOpacity v')
    /\ opacity_decays 1 rs' (4000 * 600) (currentSWaveStrokeOpacity v')
    /\ opacity_decays 0.2 rs' (4000 * 600) (currentSWaveFillOpacity v').
Proof.
  intros Hts v v'.
  pose proof (nondecreasing_last ts t0 t Hts) as Hlast.
  destruct (wave_inv_frames ts _ t0 (wave_inv_new id e p w t0))
    as (rp & rs & Hp & Hs & Ht & Hpc & Hsc).
  fold v in Hp, Hs, Ht.
  destruct (advance_radii v rp rs _ t Hp Hs Ht) as (rp' & rs' & Hp' & Hs' & _ & Erp & Ers).
  fold v' in Hp', Hs'.
  assert (Hdt : (0 <= (t - List.last ts t0) / 1000)%Q).
  { apply Qle_shift_div_l; lra. }
  assert (Hrp' : (rp' <= 6000 * 600)%Q) by (rewrite Erp; apply Q.le_min_r).
  assert (Hrs' : (rs' <= 4000 * 600)%Q) by (rewrite Ers; apply Q.le_min_r).
  exists rp, rs, rp', rs'.
  repeat (split; [assumption |]).
  split; [| split; [| split; [exact Hrp' | split; [exact Hrs' |]]]].
  - rewrite Erp. apply Q.min_glb; lra.
  - rewrite Ers. apply Q.min_glb; lra.
  - unfold currentPWaveStrokeOpacity, currentPWaveFillOpacity,
      currentSWaveStrokeOpacity, currentSWaveFillOpacity.
    rewrite Hp', Hs', pWaveMaxRadius_value, sWaveMaxRadius_value.
    repeat split; apply opacity_of_radius; try reflexivity; try assumption; lra.
Qed.

Lemma wave_radii_and_opacities_witness :
  nondecreasing 1000 (E1_frame_times ++ [601000%Q])
  /\ exists rp rs rp' rs' : Q,
      pWaveRadius (frames_at (new_closure "E1" 2 3 4 (Fin 1000)) (map Fin E1_frame_times)) = Fin rp
      /\ sWaveRadius (frames_at (new_closure "E1" 2 3 4 (Fin 1000)) (map Fin E1_frame_times)) = Fin rs
      /\ pWaveRadius (advance (frames_at (new_closure "E1" 2 3 4 (Fin 1000)) (map Fin E1_frame_times))
                        (Fin 601000)) = Fin rp'
      /\ sWaveRadius (advance (frames_at (new_closure "E1" 2 3 4 (Fin 1000)) (map Fin E1_frame_times))
                        (Fin 601000)) = Fin rs'
      /\ (rp <= rp')%Q /\ (rs <= rs')%Q.
Proof.
  assert (H : nondecreasing 1000 (E1_frame_times ++ [601000%Q])).
  { simpl. repeat split; discriminate. }
  split; [exact H |].
  destruct (wave_radii_and_opacities "E1" 2 3 4 1000 E1_frame_times 601000 H)
    as (rp & rs & rp' & rs' & H1 & H2 & H3 & H4 & H5 & H6 & _).
  exists rp, rs, rp', rs'. repeat split; assumption.
Defined.

(** ** The end of a wave animation *)

Lemma num_eqb_not_ltb (a b : number) : num_eqb a b = true -> num_ltb a b = false.
Proof.
  destruct a as [| | | x], b as [| | | y]; simpl; try discriminate; try reflexivity.
  intros H. apply Qeq_bool_eq in H. apply Qeq_alt in H. now rewrite H.
Qed.

Lemma stillSpreading_at_caps (v : WaveClosure) :
  num_eqb (pWaveRadius v) pWaveMaxRadius = true ->
  num_eqb (sWaveRadius v) sWaveMaxRadius = true ->
  stillSpreading v = false.
Proof.
  intros Hp Hs. unfold stillSpreading.
  now rewrite (num_eqb_not_ltb _ _ Hp), (num_eqb_not_ltb _ _ Hs).
Qed.

(** The two cases of [scheduleFitView]. *)
Lemma scheduleFitView_cases (c : nat) (v : WaveClosure) (s : State) :
  (exists tm, fitViewTimer v = Some tm /\ scheduleFitView c v s = (v, s))
  \/ (fitViewTimer v = None
      /\ scheduleFitView c v s
         = (set_fitViewTimer (Some (next s)) v,
            upd_timers <[next s := {| callback := FitView c; delay := Fin 500 |}]>
              (fresh s).2)).
Proof.
  unfold scheduleFitView. destruct (fitViewTimer v) as [tm |].
  - left. exists tm. split; reflexivity.
  - right. split; reflexivity.
Qed.

Lemma finishWaves_fields (v : WaveClosure) (s : State) :
  let s' := finishWaves v s in
  activeEewAlerts s' = activeEewAlerts s
  /\ activeWaveAnimations s' = delete (eventId v) (activeWaveAnimations s)
  /\ timers s' = match fitViewTimer v with
                 | Some t => delete t (timers s)
                 | None => timers s
                 end
  /\ frames s' = frames s
  /\ onMap s' = onMap s ∖ list_to_set [epicenter v; pWave v; sWave v]
  /\ viewCenter s' = CenterAt INITIAL_MAP_CENTER /\ viewZoom s' = ZoomAt INITIAL_MAP_ZOOM
  /\ container s' = container s /\ closures s' = closures s
  /\ domElements s' = domElements s /\ next s' = next s.
Proof. unfold finishWaves. destruct (fitViewTimer v); repeat split. Qed.

Lemma animateWaves_unfold (c : nat) (currentTime : number) (s : State) (v : WaveClosure) :
  closures s !! c = Some v ->
  animateWaves c currentTime s
  = let v1 := advance v currentTime in
    let r := scheduleFitView c v1 (drawWaves v1 s) in
    let s2 := upd_closures <[c := r.1]> r.2 in
    if stillSpreading r.1 then continueWaves c r.1 s2 else finishWaves r.1 s2.
Proof.
  intros H. unfold animateWaves. rewrite H. cbv zeta.
  destruct (scheduleFitView c (advance v currentTime) (drawWaves (advance v currentTime) s));
    reflexivity.
Qed.

(** The frame in which both radii are at their caps, field by field. *)
Lemma last_frame_fields (frame c : nat) (currentTime : number) (s : State) (v : WaveClosure) :
  frames s !! frame = Some c ->
  closures s !! c = Some v ->
  stillSpreading (advance v currentTime) = false ->
  let s' := runFrame frame currentTime s in
  onMap s' = onMap s ∖ list_to_set [epicenter v; pWave v; sWave v]
  /\ activeWaveAnimations s' = delete (eventId v) (activeWaveAnimations s)
  /\ viewCenter s' = CenterAt INITIAL_MAP_CENTER /\ viewZoom s' = ZoomAt INITIAL_MAP_ZOOM
  /\ frames s' = delete frame (frames s)
  /\ timers s' ⊆ timers s
  /\ exists tm, fitViewTimer <$> closures s' !! c = Some (Some tm) /\ timers s' !! tm = None.
Proof.
  intros Hf Hc Hstop0 s'. subst s'. unfold runFrame. rewrite Hf.
  rewrite (animateWaves_unfold c currentTime _ v) by exact Hc.
  cbv zeta.
  set (v1 := advance v currentTime) in *.
  set (s1 := drawWaves v1 (upd_frames (delete frame) s)).
  destruct (scheduleFitView_cases c v1 s1) as [(tm & Etm & ->) | (Etm & ->)]; cbn [fst snd].
  - rewrite Hstop0.
    destruct (finishWaves_fields v1 (upd_closures <[c:=v1]> s1))
      as (_ & Hw & Ht & Hfr & Hm & Hvc & Hvz & _ & Hcl & _).
    rewrite Etm in Ht. rewrite Hw, Ht, Hfr, Hm, Hvc, Hvz, Hcl.
    repeat split; try reflexivity.
    + apply delete_subseteq.
    + exists tm. split.
      * cbn [closures upd_closures]. rewrite lookup_insert_eq, <- Etm. reflexivity.
      * apply lookup_delete_eq.
  - change (stillSpreading (set_fitViewTimer (Some (next s1)) v1)) with (stillSpreading v1).
    rewrite Hstop0.
    destruct (finishWaves_fields (set_fitViewTimer (Some (next s1)) v1)
                (upd_closures <[c:=set_fitViewTimer (Some (next s1)) v1]>
                   (upd_timers <[next s1:={| callback := FitView c; delay := Fin 500 |}]>
                      (fresh s1).2)))
      as (_ & Hw & Ht & Hfr & Hm & Hvc & Hvz & _ & Hcl & _).
    rewrite Hw, Ht, Hfr, Hm, Hvc, Hvz, Hcl.
    cbn [fitViewTimer set_fitViewTimer].
    repeat split; try reflexivity.
    + cbn [timers upd_closures upd_timers fresh snd]. rewrite delete_insert_eq.
      apply delete_subseteq.
    + exists (next s1). split.
      * cbn [closures upd_closures]. rewrite lookup_insert_eq. reflexivity.
      * apply lookup_delete_eq.
Qed.

(** C8: in the frame in which both wave fronts have reached their capped
    radius the animation stops and is torn down: the epicentre marker and the
    two circles are off the map, the registry entry of the animation is
    deleted, the view is back at its initial centre and zoom, no further frame
    is requested, and the view-fit timer the animation holds is not pending. *)
Theorem both_waves_at_cap_tears_down (frame c : nat) (currentTime : number) (s : State)
    (v : WaveClosure) :
  frames s !! frame = Some c ->
  closures s !! c = Some v ->
  num_eqb (pWaveRadius (advance v currentTime)) pWaveMaxRadius = true ->
  num_eqb (sWaveRadius (advance v currentTime)) sWaveMaxRadius = true ->
  let s' := runFrame frame currentTime s in
  (epicenter v ∉ onMap s') /\ (pWave v ∉ onMap s') /\ (sWave v ∉ onMap s')
  /\ activeWaveAnimations s' !! eventId v = None
  /\ viewCenter s' = CenterAt INITIAL_MAP_CENTER /\ viewZoom s' = ZoomAt INITIAL_MAP_ZOOM
  /\ frames s' = delete frame (frames s)
  /\ timers s' ⊆ timers s
  /\ exists tm, fitViewTimer <$> closures s' !! c = Some (Some tm) /\ timers s' !! tm = None.
Proof.
  intros Hf Hc Hp Hs s'.
  destruct (last_frame_fields frame c currentTime s v Hf Hc
              (stillSpreading_at_caps _ Hp Hs))
    as (Hm & Hw & Hvc & Hvz & Hfr & Ht & Htm).
  fold s' in Hm, Hw, Hvc, Hvz, Hfr, Ht, Htm.
  assert (Hoff : forall h, In h [epicenter v; pWave v; sWave v] -> h ∉ onMap s').
  { intros h Hin. rewrite Hm. intros [_ Hn]%elem_of_difference. apply Hn.
    apply elem_of_list_to_set. now apply list_elem_of_In. }
  rewrite Hw.
  repeat split; try assumption; try (apply Hoff; simpl; tauto).
  apply lookup_delete_eq.
Qed.

Lemma both_waves_at_cap_tears_down_witness :
  frames E1_started !! 6 = Some 5
  /\ activeWaveAnimations (runFrame 6 (Fin 601000) E1_started) !! "E1" = None
  /\ viewCenter (runFrame 6 (Fin 601000) E1_started) = CenterAt INITIAL_MAP_CENTER
  /\ viewZoom (runFrame 6 (Fin 601000) E1_started) = ZoomAt INITIAL_MAP_ZOOM.
Proof.
  assert (Hf : frames E1_started !! 6 = Some 5) by (vm_compute; reflexivity).
  assert (Hc : closures E1_started !! 5 = Some (new_closure "E1" 2 3 4 (Fin 1000)))
    by (vm_compute; reflexivity).
  split; [exact Hf |].
  destruct (both_waves_at_cap_tears_down 6 5 (Fin 601000) E1_started
              (new_closure "E1" 2 3 4 (Fin 1000)) Hf Hc eq_refl eq_refl)
    as (_ & _ & _ & Hw & Hvc & Hvz & _).
  repeat split; assumption.
Defined.

(** A frame leaves in the closure the variables [advance] computes (the
    view-fit timer apart), whether the animation goes on or ends. *)
Lemma animateWaves_closure (c : nat) (currentTime : number) (s : State) (v : WaveClosure) :
  closures s !! c = Some v ->
  exists tm, closures (animateWaves c currentTime s) !! c
             = Some (set_fitViewTimer tm (advance v currentTime)).
Proof.
  intros Hc. rewrite (animateWaves_unfold c currentTime s v Hc). cbv zeta.
  generalize (advance v currentTime). intros v1.
  assert (Hr : exists tm, (scheduleFitView c v1 (drawWaves v1 s)).1 = set_fitViewTimer tm v1).
  { destruct (scheduleFitView_cases c v1 (drawWaves v1 s)) as [(tm & Etm & ->) | (_ & ->)].
    - exists (Some tm). destruct v1; cbn in *. now subst.
    - eexists. reflexivity. }
  destruct Hr as [tm Hr].
  destruct (scheduleFitView c v1 (drawWaves v1 s)) as [v2 s2]. cbn [fst snd] in *. subst v2.
  exists tm.
  assert (E : closures (upd_closures <[c:=set_fitViewTimer tm v1]> s2)
              !! c = Some (set_fitViewTimer tm v1)) by apply lookup_insert_eq.
  destruct (stillSpreading (set_fitViewTimer tm v1)).
  - exact E.
  - destruct (finishWaves_fields (set_fitViewTimer tm v1)
                (upd_closures <[c:=set_fitViewTimer tm v1]> s2))
      as (_ & _ & _ & _ & _ & _ & _ & _ & -> & _).
    exact E.
Qed.

(** ** How the registry of wave animations evolves *)

Lemma addEarthquake_fields (lat lon magnitude : number) (id : string) (t : number) (s : State) :
  let s' := addEarthquake lat lon magnitude id t s in
  activeEewAlerts s' = activeEewAlerts s
  /\ container s' = container s
  /\ domElements s' = domElements s
  /\ timers s' = match activeWaveAnimations s !! id with
                 | Some a => match wa_fitViewTimer a with
                             | Some tm => delete tm (timers s)
                             | None => timers s
                             end
                 | None => timers s
                 end
  /\ exists a, wa_fitViewTimer a = None
               /\ activeWaveAnimations s' = <[id := a]> (activeWaveAnimations s).
Proof.
  unfold addEarthquake.
  destruct (activeWaveAnimations s !! id) as [a |]; [destruct (wa_fitViewTimer a) |];
    repeat split; eexists; (split; [| cbn; rewrite ?insert_delete_eq; reflexivity]);
    reflexivity.
Qed.

Lemma waves_step_null (s s' : State) :
  waves_step (activeWaveAnimations s) (activeWaveAnimations s') ->
  registry_timers_null s -> registry_timers_null s'.
Proof.
  unfold registry_timers_null.
  generalize (activeWaveAnimations s) (activeWaveAnimations s'). clear s s'.
  intros m m' Hstep H id a.
  destruct Hstep as [| id' | id' a' Ha' | id' f Hf].
  - apply H.
  - intros [_ Hl]%lookup_delete_Some. exact (H id a Hl).
  - intros [[_ <-] | [_ Hl]]%lookup_insert_Some; [exact Ha' | exact (H id a Hl)].
  - intros [(_ & a0 & Hl & ->) | [_ Hl]]%lookup_alter_Some.
    + rewrite Hf. exact (H id a0 Hl).
    + exact (H id a Hl).
Qed.

Lemma removeAlert_waves_step (id : string) (entry : AlertEntry) (s : State) :
  waves_step (activeWaveAnimations s) (activeWaveAnimations (removeAlert id entry s)).
Proof. apply waves_same. Qed.

Lemma removeWaveAnimation_waves_step (id : string) (anim : WaveAnimation) (s : State) :
  waves_step (activeWaveAnimations s) (activeWaveAnimations (removeWaveAnimation id anim s)).
Proof.
  destruct (removeWaveAnimation_fields id anim s) as (_ & -> & _). apply waves_delete.
Qed.

Lemma addEarthquake_waves_step (lat lon magnitude : number) (id : string) (t : number)
    (s : State) :
  waves_step (activeWaveAnimations s)
    (activeWaveAnimations (addEarthquake lat lon magnitude id t s)).
Proof.
  destruct (addEarthquake_fields lat lon magnitude id t s) as (_ & _ & _ & _ & a & Ha & ->).
  now apply waves_insert.
Qed.

Lemma registry_timers_null_same (s s' : State) :
  activeWaveAnimations s' = activeWaveAnimations s ->
  registry_timers_null s -> registry_timers_null s'.
Proof. intros E. apply waves_step_null. rewrite E. apply waves_same. Qed.

Section RegistryInvariant.

Variable Math_log10 : number -> number.
Variable getBounds : MapObject -> bool.

Lemma createEewAlertElement_eq (data : EewData) (env : Env) (s : State) :
  createEewAlertElement Math_log10 data env s
  = (next s,
     upd_container (fun children => (children ++ [next s])%list)
       (upd_elements
          <[next s := {| data_event_id := eventId_of data (uid_attr env);
                         innerHTML := alertContent Math_log10 data;
                         hidden := false;
                         transitionend_listeners := 0 |}]> (fresh s).2)).
Proof. reflexivity. Qed.

(** The update block, field by field: it appends the element
    [createEewAlertElement] builds to the container. *)
Lemma updateBanner_fields (data : EewData) (env : Env) (existing : AlertEntry) (s : State) :
  let r := updateBanner Math_log10 data env existing s in
  r.1 = element existing
  /\ container r.2 = (container s ++ [next s])%list
  /\ activeEewAlerts r.2 = activeEewAlerts s
  /\ activeWaveAnimations r.2 = activeWaveAnimations s
  /\ timers r.2 = delete (timeoutId existing) (timers s)
  /\ next r.2 = S (next s)
  /\ (is_Some (domElements s !! element existing) ->
      (innerHTML <$> (domElements r.2 !! element existing))
      = Some (alertContent Math_log10 data))
  /\ (element existing <> next s ->
      domElements r.2 !! next s
      = Some {| data_event_id := eventId_of data (uid_attr env);
                innerHTML := alertContent Math_log10 data;
                hidden := false;
                transitionend_listeners := 0 |}).
Proof.
  unfold updateBanner. cbv zeta. rewrite createEewAlertElement_eq.
  cbn [domElements upd_container upd_elements fresh snd next clearTimeout upd_timers].
  rewrite lookup_insert_eq.
  cbn [innerHTML fst snd].
  repeat split.
  - intros [e He].
    cbn [domElements classList_remove_hidden set_innerHTML upd_elements upd_container].
    rewrite !lookup_alter_eq.
    destruct (decide (next s = element existing)) as [<- | Hne].
    + rewrite lookup_insert_eq. reflexivity.
    + rewrite lookup_insert_ne by exact Hne. rewrite He. reflexivity.
  - intros Hne.
    cbn [domElements classList_remove_hidden set_innerHTML upd_elements upd_container].
    rewrite !lookup_alter_ne by exact Hne.
    apply lookup_insert_eq.
Qed.

Lemma updateBanner_waves (data : EewData) (env : Env) (existing : AlertEntry) (s : State) :
  activeWaveAnimations (updateBanner Math_log10 data env existing s).2
  = activeWaveAnimations s.
Proof. now destruct (updateBanner_fields data env existing s) as (_ & _ & _ & -> & _). Qed.

Lemma displayEew_null (data : EewData) (env : Env) (s : State) :
  registry_timers_null s -> registry_timers_null (displayEew Math_log10 data env s).
Proof.
  intros H. unfold displayEew.
  destruct (isCancel_of data || isFinal_of data).
  - set (id := eventId_of data (uid env)).
    assert (H1 : registry_timers_null
                   (match activeEewAlerts s !! id with
                    | Some entry => removeAlert id entry s
                    | None => s
                    end)).
    { destruct (activeEewAlerts s !! id); [| exact H].
      revert H. apply waves_step_null, removeAlert_waves_step. }
    destruct (activeWaveAnimations _ !! id); [| exact H1].
    revert H1. apply waves_step_null, removeWaveAnimation_waves_step.
  - destruct (parseCoordinates data) as [[[lat |] [lon |]] [magnitude |]]; try exact H.
    destruct (validCoordinates (Some lat) (Some lon) (Some magnitude)); [| exact H].
    destruct (activeEewAlerts s !! eventId_of data (uid env)) as [existing |].
    + pose proof (updateBanner_waves data env existing s) as E.
      destruct (updateBanner Math_log10 data env existing s) as [alertElement s1].
      cbn [snd] in E.
      eapply waves_step_null; [apply addEarthquake_waves_step |].
      intros id a. cbn [activeWaveAnimations setTimeout fresh upd_alerts upd_timers].
      rewrite E. apply H.
    + eapply waves_step_null; [apply addEarthquake_waves_step |]. exact H.
Qed.

Lemma drawWaves_waves (v : WaveClosure) (s : State) :
  activeWaveAnimations (drawWaves v s) = activeWaveAnimations s.
Proof. reflexivity. Qed.

Lemma scheduleFitView_waves (c : nat) (v : WaveClosure) (s : State) :
  activeWaveAnimations (scheduleFitView c v s).2 = activeWaveAnimations s.
Proof. unfold scheduleFitView. destruct (fitViewTimer v); reflexivity. Qed.

Lemma continueWaves_waves (c : nat) (v : WaveClosure) (s : State) :
  waves_step (activeWaveAnimations s) (activeWaveAnimations (continueWaves c v s)).
Proof. apply (waves_alter _ (eventId v)). reflexivity. Qed.

Lemma finishWaves_waves (v : WaveClosure) (s : State) :
  waves_step (activeWaveAnimations s) (activeWaveAnimations (finishWaves v s)).
Proof. destruct (finishWaves_fields v s) as (_ & -> & _). apply waves_delete. Qed.

Lemma animateWaves_waves_step (c : nat) (currentTime : number) (s : State) :
  waves_step (activeWaveAnimations s) (activeWaveAnimations (animateWaves c currentTime s)).
Proof.
  destruct (closures s !! c) as [v |] eqn:Hc;
    [| unfold animateWaves; rewrite Hc; apply waves_same].
  rewrite (animateWaves_unfold c currentTime s v Hc). cbv zeta.
  generalize (advance v currentTime). intros v1.
  pose proof (scheduleFitView_waves c v1 (drawWaves v1 s)) as E.
  rewrite drawWaves_waves in E.
  destruct (scheduleFitView c v1 (drawWaves v1 s)) as [v2 s2]. cbn [fst snd] in *.
  assert (E2 : activeWaveAnimations (upd_closures <[c:=v2]> s2) = activeWaveAnimations s)
    by exact E.
  rewrite <- E2.
  destruct (stillSpreading v2); [apply continueWaves_waves | apply finishWaves_waves].
Qed.

Lemma runFrame_null (frame : nat) (currentTime : number) (s : State) :
  registry_timers_null s -> registry_timers_null (runFrame frame currentTime s).
Proof.
  intros H. unfold runFrame. destruct (frames s !! frame) as [c |]; [| exact H].
  eapply waves_step_null; [apply animateWaves_waves_step |]. exact H.
Qed.

Lemma fireTimer_null (id : nat) (s : State) :
  registry_timers_null s -> registry_timers_null (fireTimer getBounds id s).
Proof.
  intros H. unfold fireTimer.
  destruct (timers s !! id) as [tm |]; [| exact H].
  destruct (callback tm) as [ev alertElement | c]; [exact H |].
  cbn [closures upd_timers].
  destruct (closures s !! c) as [v |]; [| exact H].
  match goal with
  | |- context [if ?b then _ else _] => destruct b
  end; exact H.
Qed.

Lemma transitionEnd_null (h : nat) (s : State) :
  registry_timers_null s -> registry_timers_null (transitionEnd h s).
Proof.
  intros H. unfold transitionEnd.
  destruct (domElements s !! h) as [e |]; [| exact H].
  destruct (0 <? transitionend_listeners e)%nat; exact H.
Qed.

Lemma processResults_null (results : list (option EewData * Env)) (received : list value)
    (s : State) :
  registry_timers_null s ->
  registry_timers_null (processResults Math_log10 results received s).2.
Proof.
  revert received s. induction results as [| [[data |] env] rest IH]; intros received s H.
  - exact H.
  - cbn [processResults]. destruct (receivedId data); apply IH; [| exact H].
    now apply displayEew_null.
  - cbn [processResults]. now apply IH.
Qed.

Lemma evict_null (received : list value) (s : State) (kv : string * AlertEntry) :
  registry_timers_null s -> registry_timers_null (evict received s kv).
Proof.
  intros H. destruct kv as [id entry]. unfold evict.
  destruct (negb (received_has received id) && negb (String.prefix "test-" id)); [| exact H].
  destruct (activeWaveAnimations (removeAlert id entry s) !! id); [| exact H].
  eapply waves_step_null; [apply removeWaveAnimation_waves_step |]. exact H.
Qed.

Lemma pollCycle_null (results : list (option EewData * Env)) (s : State) :
  registry_timers_null s -> registry_timers_null (pollCycle Math_log10 results s).
Proof.
  intros H. unfold pollCycle.
  pose proof (processResults_null results [] s H) as H1.
  destruct (processResults Math_log10 results [] s) as [received s1]. cbn [snd] in H1.
  generalize (map_to_list (activeEewAlerts s1)). intros l.
  revert s1 H1. induction l as [| kv l IH]; intros s1 H1; [exact H1 |].
  cbn [fold_left]. apply IH. now apply evict_null.
Qed.

Lemma step_null (s : State) (ev : Event) :
  registry_timers_null s -> registry_timers_null (step Math_log10 getBounds s ev).
Proof.
  destruct ev; cbn [step].
  - apply displayEew_null.
  - apply pollCycle_null.
  - apply runFrame_null.
  - apply fireTimer_null.
  - apply transitionEnd_null.
Qed.

(** In every state the page can reach, the registry copy of the view-fit
    timer of every wave animation is [null]: the timer a frame sets lives in
    the closure only. *)
Lemma run_null (evs : list Event) :
  registry_timers_null (run Math_log10 getBounds evs).
Proof.
  unfold run.
  assert (H : registry_timers_null initial).
  { intros id a E. change (activeWaveAnimations initial) with (∅ : gmap string WaveAnimation) in E.
    rewrite lookup_empty in E. discriminate. }
  revert H. generalize initial. induction evs as [| ev evs IH]; intros s H; [exact H |].
  cbn [fold_left]. apply IH. now apply step_null.
Qed.

(** So no path that stops or replaces a wave animation from its registry
    entry clears a timer: [addEarthquake] and the removal block leave the
    pending timers as they are. *)
Lemma addEarthquake_keeps_timers (lat lon magnitude : number) (id : string) (t : number)
    (s : State) :
  registry_timers_null s ->
  timers (addEarthquake lat lon magnitude id t s) = timers s.
Proof.
  intros H.
  destruct (addEarthquake_fields lat lon magnitude id t s) as (_ & _ & _ & -> & _).
  destruct (activeWaveAnimations s !! id) as [a |] eqn:E; [| reflexivity].
  now rewrite (H id a E).
Qed.

Lemma removeWaveAnimation_keeps_timers (id : string) (anim : WaveAnimation) (s : State) :
  registry_timers_null s ->
  activeWaveAnimations s !! id = Some anim ->
  timers (removeWaveAnimation id anim s) = timers s.
Proof.
  intros H E.
  destruct (removeWaveAnimation_fields id anim s) as (_ & _ & -> & _).
  now rewrite (H id anim E).
Qed.

End RegistryInvariant.

(** ** First reports and updates *)

Section CreationProperties.

Variable Math_log10 : number -> number.

(** A snapshot of no known source shows nothing: it is neither a cancel or
    final report nor valid. *)
Lemma displayEew_unknown_source (data : EewData) (env : Env) (s : State) :
  knownSource data = false -> displayEew Math_log10 data env s = s.
Proof.
  unfold knownSource. intros Hk.
  repeat (apply orb_false_elim in Hk; destruct Hk as [Hk ?]).
  apply displayEew_invalid.
  - unfold isCancel_of, isFinal_of.
    repeat match goal with H : strict_eq_str _ _ = false |- _ => rewrite H; clear H end.
    reflexivity.
  - intros lat lon magnitude E. unfold parseCoordinates in E.
    repeat match goal with H : strict_eq_str _ _ = false |- _ => rewrite H in E; clear H end.
    discriminate E.
Qed.

(** The first valid report of an identifier: one banner with the content of
    the snapshot, one registry entry that refers to it, an expiry timer of
    600 s, and a wave animation. *)
Lemma displayEew_create (data : EewData) (env : Env) (s : State) (lat lon magnitude : number) :
  isCancel_of data || isFinal_of data = false ->
  parseCoordinates data = (Some lat, Some lon, Some magnitude) ->
  validCoordinates (Some lat) (Some lon) (Some magnitude) = true ->
  activeEewAlerts s !! eventId_of data (uid env) = None ->
  let s' := displayEew Math_log10 data env s in
  container s' = (container s ++ [next s])%list
  /\ activeEewAlerts s' !! eventId_of data (uid env)
     = Some {| element := next s; timeoutId := S (next s) |}
  /\ domElements s' !! next s
     = Some {| data_event_id := eventId_of data (uid_attr env);
               innerHTML := alertContent Math_log10 data;
               hidden := false;
               transitionend_listeners := 0 |}
  /\ (registry_timers_null s ->
      timers s'
      = <[S (next s) := {| callback := ExpireAlert (eventId_of data (uid env)) (next s);
                           delay := Fin (10 * 60 * 1000) |}]> (timers s))
  /\ is_Some (activeWaveAnimations s' !! eventId_of data (uid env)).
Proof.
  intros Hflags Hparse Hvalid Hnew s'. subst s'.
  unfold displayEew. rewrite Hflags, Hparse, Hvalid, Hnew.
  rewrite createEewAlertElement_eq.
  cbn beta iota zeta delta [setTimeout fresh fst snd].
  match goal with
  | |- context [addEarthquake ?a ?b ?c ?d ?e ?f] => set (s2 := f)
  end.
  destruct (addEarthquake_fields lat lon magnitude (eventId_of data (uid env)) (now env) s2)
    as (Ha & Hc & Hd & _ & anim & _ & Hw).
  rewrite Ha, Hc, Hd, Hw.
  split; [reflexivity |].
  split; [apply lookup_insert_eq |].
  split; [apply lookup_insert_eq |].
  split; [| rewrite lookup_insert_eq; eauto].
  intros Hnull. rewrite addEarthquake_keeps_timers; [reflexivity |].
  now apply (registry_timers_null_same s).
Qed.

End CreationProperties.

Section UpdateProperties.

Variable Math_log10 : number -> number.

(** A valid report for an identifier that is already shown: the registry
    keeps the banner it had and that banner takes the new content, but the
    container gains the element [createEewAlertElement] built on the way. *)
Lemma displayEew_update (data : EewData) (env : Env) (s : State)
    (existing : AlertEntry) (lat lon magnitude : number) :
  isCancel_of data || isFinal_of data = false ->
  parseCoordinates data = (Some lat, Some lon, Some magnitude) ->
  validCoordinates (Some lat) (Some lon) (Some magnitude) = true ->
  activeEewAlerts s !! eventId_of data (uid env) = Some existing ->
  let s' := displayEew Math_log10 data env s in
  container s' = (container s ++ [next s])%list
  /\ (element <$> (activeEewAlerts s' !! eventId_of data (uid env))) = Some (element existing)
  /\ (is_Some (domElements s !! element existing) ->
      (innerHTML <$> (domElements s' !! element existing))
      = Some (alertContent Math_log10 data))
  /\ (element existing <> next s ->
      domElements s' !! next s
      = Some {| data_event_id := eventId_of data (uid_attr env);
                innerHTML := alertContent Math_log10 data;
                hidden := false;
                transitionend_listeners := 0 |}).
Proof.
  intros Hflags Hparse Hvalid Hactive s'. subst s'.
  unfold displayEew. rewrite Hflags, Hparse, Hvalid, Hactive.
  destruct (updateBanner_fields Math_log10 data env existing s)
    as (Hel & Hc & _ & _ & _ & _ & Hin & Hnew).
  destruct (updateBanner Math_log10 data env existing s) as [alertElement s1].
  cbn [fst snd] in *. subst alertElement.
  cbn beta iota zeta delta [setTimeout fresh].
  match goal with
  | |- context [addEarthquake ?a ?b ?c ?d ?e ?f] =>
      destruct (addEarthquake_fields a b c d e f) as (Ha & Hc' & Hd & _);
        rewrite Ha, Hc', Hd
  end.
  cbn [activeEewAlerts container domElements upd_alerts upd_timers].
  rewrite lookup_insert_eq.
  repeat split; assumption.
Qed.

End UpdateProperties.

(** ** Removal from the registry entry *)

Section RemovalProperties.

Variable Math_log10 : number -> number.

(** In a reachable state a cancel or final report clears one timer at most,
    the expiry timer of the alert. *)
Lemma displayEew_terminating_timers (data : EewData) (env : Env) (s : State) :
  registry_timers_null s ->
  isCancel_of data || isFinal_of data = true ->
  timers (displayEew Math_log10 data env s)
  = match activeEewAlerts s !! eventId_of data (uid env) with
    | Some entry => delete (timeoutId entry) (timers s)
    | None => timers s
    end.
Proof.
  intros Hnull Hflags. unfold displayEew. rewrite Hflags.
  set (id := eventId_of data (uid env)).
  destruct (activeEewAlerts s !! id) as [entry |].
  - destruct (removeAlert_fields id entry s) as (_ & Hw & Ht & _).
    destruct (activeWaveAnimations (removeAlert id entry s) !! id) as [anim |] eqn:E;
      [| exact Ht].
    rewrite removeWaveAnimation_keeps_timers; [exact Ht | | exact E].
    now apply (registry_timers_null_same s).
  - destruct (activeWaveAnimations s !! id) as [anim |] eqn:E; [| reflexivity].
    now apply removeWaveAnimation_keeps_timers.
Qed.

(** *** Eviction at the end of a polling cycle *)

Lemma evict_registries (received : list value) (s : State) (id : string) (entry : AlertEntry) :
  let s' := evict received s (id, entry) in
  activeEewAlerts s'
  = (if evictable received id then delete id (activeEewAlerts s) else activeEewAlerts s)
  /\ activeWaveAnimations s'
     = (if evictable received id then delete id (activeWaveAnimations s)
        else activeWaveAnimations s).
Proof.
  unfold evict, evictable.
  destruct (negb (received_has received id) && negb (String.prefix "test-" id));
    [| split; reflexivity].
  destruct (removeAlert_fields id entry s) as (Ha & Hw & _).
  destruct (activeWaveAnimations (removeAlert id entry s) !! id) as [anim |] eqn:E.
  - destruct (removeWaveAnimation_fields id anim (removeAlert id entry s)) as (Ha' & Hw' & _).
    now rewrite Ha', Hw', Ha, Hw.
  - rewrite Ha. split; [reflexivity |].
    rewrite Hw in E |- *. symmetry. now apply delete_id.
Qed.

Lemma fold_evict_registries (received : list value) (l : list (string * AlertEntry))
    (s : State) (id : string) :
  let s' := fold_left (evict received) l s in
  (evictable received id = true -> id ∈ l.*1 ->
   activeEewAlerts s' !! id = None /\ activeWaveAnimations s' !! id = None)
  /\ (evictable received id = false ->
      activeEewAlerts s' !! id = activeEewAlerts s !! id
      /\ activeWaveAnimations s' !! id = activeWaveAnimations s !! id).
Proof.
  cbv zeta. revert s. induction l as [| [id0 entry0] l IH]; intros s.
  - split; [intros _ H; now apply elem_of_nil in H | intros _; split; reflexivity].
  - cbn [fold_left].
    destruct (IH (evict received s (id0, entry0))) as [IH1 IH2].
    destruct (evict_registries received s id0 entry0) as [Ha Hw].
    split.
    + intros Hev Hin.
      destruct (decide (id ∈ l.*1)) as [Hl | Hl]; [now apply IH1 |].
      assert (id = id0) as -> by (cbn in Hin; apply elem_of_cons in Hin; tauto).
      assert (Heq : activeEewAlerts (fold_left (evict received) l (evict received s (id0, entry0)))
                    !! id0 = None
                    /\ activeWaveAnimations
                         (fold_left (evict received) l (evict received s (id0, entry0)))
                       !! id0 = None).
      { clear IH IH1 IH2 Hin.
        assert (H0 : activeEewAlerts (evict received s (id0, entry0)) !! id0 = None
                     /\ activeWaveAnimations (evict received s (id0, entry0)) !! id0 = None).
        { rewrite Ha, Hw, Hev. split; apply lookup_delete_eq. }
        revert H0. generalize (evict received s (id0, entry0)). clear Ha Hw Hl.
        induction l as [| [id1 entry1] l IHl]; intros s1 H0; [exact H0 |].
        cbn [fold_left]. apply IHl.
        destruct (evict_registries received s1 id1 entry1) as [Ha1 Hw1].
        rewrite Ha1, Hw1.
        destruct (evictable received id1); [| exact H0].
        destruct H0 as [H0a H0w].
        split; apply lookup_delete_None; now right. }
      exact Heq.
    + intros Hev. destruct (IH2 Hev) as [-> ->]. rewrite Ha, Hw.
      destruct (evictable received id0) eqn:Hev0; [| split; reflexivity].
      assert (id0 <> id) by (intros ->; congruence).
      split; now apply lookup_delete_ne.
Qed.

(** What the end of a polling cycle does with the registries: an alert
    whose identifier no feed returned and which is not a test alert is removed
    with its wave animation, and a test alert, or one a feed returned, is left
    as it was. *)
Lemma pollCycle_evicts (results : list (option EewData * Env)) (s : State) (id : string) :
  let r := processResults Math_log10 results [] s in
  let s' := pollCycle Math_log10 results s in
  (is_Some (activeEewAlerts r.2 !! id) ->
   received_has r.1 id = false -> String.prefix "test-" id = false ->
   activeEewAlerts s' !! id = None /\ activeWaveAnimations s' !! id = None)
  /\ (String.prefix "test-" id = true \/ received_has r.1 id = true ->
      activeEewAlerts s' !! id = activeEewAlerts r.2 !! id
      /\ activeWaveAnimations s' !! id = activeWaveAnimations r.2 !! id).
Proof.
  cbv zeta. unfold pollCycle.
  destruct (processResults Math_log10 results [] s) as [received s1]. cbn [fst snd].
  destruct (fold_evict_registries received (map_to_list (activeEewAlerts s1)) s1 id)
    as [H1 H2].
  split.
  - intros [entry Hentry] Hrec Htest. apply H1.
    + unfold evictable. now rewrite Hrec, Htest.
    + apply list_elem_of_fmap. exists (id, entry). split; [reflexivity |].
      now apply elem_of_map_to_list.
  - intros Hkeep. apply H2. unfold evictable.
    destruct Hkeep as [-> | ->]; [apply andb_false_r | reflexivity].
Qed.

End RemovalProperties.

(** What a view-fit timer does when it fires, whatever became of its
    animation: where a circle still answers [getBounds()], the view is fitted
    to the three overlays of the closure, on the map or not. *)
Lemma fireTimer_fits_the_view (getBounds : MapObject -> bool) (tm c : nat) (ms : number)
    (s : State) (v : WaveClosure) (o : MapObject) :
  timers s !! tm = Some {| callback := FitView c; delay := ms |} ->
  closures s !! c = Some v ->
  mapObjects s !! pWave v = Some o -> getBounds o = true ->
  let s' := fireTimer getBounds tm s in
  viewCenter s' = CenterFitted [epicenter v; pWave v; sWave v]
  /\ viewZoom s' = ZoomFitted [epicenter v; pWave v; sWave v]
  /\ timers s' = delete tm (timers s).
Proof.
  intros Ht Hc Ho Hb. unfold fireTimer. rewrite Ht.
  cbn [callback closures mapObjects upd_timers]. rewrite Hc, Ho, Hb.
  repeat split.
Qed.

(** ** The scenarios, evaluated *)

(** C1, at its failing input: after a first report of E1 the container
    holds one banner for E1, the one the registry refers to; after a second
    report of E1 the registry still has its one entry with the same banner,
    but the container holds a second, visible banner for E1, which
    [createEewAlertElement] appended while the update was computing the new
    content. *)
Theorem second_report_adds_a_banner :
  activeEewAlerts E1_animated !! "E1" = Some {| element := 0; timeoutId := 1 |}
  /\ banners_of "E1" E1_animated = [0]
  /\ activeEewAlerts E1_reported_twice !! "E1" = Some {| element := 0; timeoutId := 10 |}
  /\ size (activeEewAlerts E1_reported_twice) = 1
  /\ banners_of "E1" E1_reported_twice = [0; 9]
  /\ (hidden <$> (domElements E1_reported_twice !! 9)) = Some false.
Proof. vm_compute. repeat split. Qed.

(** C4, at its failing input: J1 is reported, a frame of its animation
    schedules the view-fit timer 7, and J1 is cancelled.  The alert, its
    expiry timer, the animation's registry entry, its frame and its overlays
    are gone and the view is back at its initial state, but the view-fit timer
    is still pending: the registry entry held [null] for it, not the timer the
    closure had set. *)
Theorem cancel_leaves_the_view_fit_timer :
  (fitViewTimer <$> (closures J1_animated !! 5)) = Some (Some 7)
  /\ (wa_fitViewTimer <$> (activeWaveAnimations J1_animated !! "J1")) = Some None
  /\ activeEewAlerts J1_cancelled !! "J1" = None
  /\ activeWaveAnimations J1_cancelled !! "J1" = None
  /\ timers J1_cancelled !! 1 = None
  /\ map_to_list (frames J1_cancelled) = []
  /\ elements (onMap J1_cancelled) = []
  /\ viewCenter J1_cancelled = CenterAt INITIAL_MAP_CENTER
  /\ viewZoom J1_cancelled = ZoomAt INITIAL_MAP_ZOOM
  /\ timers J1_cancelled !! 7 = Some {| callback := FitView 5; delay := Fin 500 |}.
Proof. vm_compute. repeat split. Qed.

(** C5, at its failing input: E1 is reported and animated, then a polling
    cycle returns no snapshot.  E1 is evicted (registry entries, expiry timer,
    frame, overlays, view), and an alert with a test identifier is left alone
    by such a cycle; but the view-fit timer of E1's animation is still
    pending. *)
Theorem missed_cycle_leaves_the_view_fit_timer :
  (fitViewTimer <$> (closures E1_animated !! 5)) = Some (Some 7)
  /\ activeEewAlerts E1_missed !! "E1" = None
  /\ activeWaveAnimations E1_missed !! "E1" = None
  /\ timers E1_missed !! 1 = None
  /\ (hidden <$> (domElements E1_missed !! 0)) = Some true
  /\ map_to_list (frames E1_missed) = []
  /\ elements (onMap E1_missed) = []
  /\ viewCenter E1_missed = CenterAt INITIAL_MAP_CENTER
  /\ viewZoom E1_missed = ZoomAt INITIAL_MAP_ZOOM
  /\ timers E1_missed !! 7 = Some {| callback := FitView 5; delay := Fin 500 |}
  /\ test_alert_missed = test_alert_shown.
Proof. vm_compute. repeat split. Qed.

(** C7, at its failing input: E1 is reported, a frame of its animation
    schedules the view-fit timer 7, and E1 is reported again.  The frame and
    the overlays of the first animation are gone and a new animation runs from
    radius 0, but the view-fit timer of the first animation is still
    pending. *)
Theorem retrigger_leaves_the_old_view_fit_timer :
  (fitViewTimer <$> (closures E1_animated !! 5)) = Some (Some 7)
  /\ (animationFrameId <$> (activeWaveAnimations E1_animated !! "E1")) = Some 8
  /\ frames E1_reported_twice !! 8 = None
  /\ elements (onMap E1_reported_twice) = [12; 13; 11]
  /\ (animationFrameId <$> (activeWaveAnimations E1_reported_twice !! "E1")) = Some 15
  /\ frames E1_reported_twice !! 15 = Some 14
  /\ (pWaveRadius <$> (closures E1_reported_twice !! 14)) = Some (Fin 0)
  /\ (sWaveRadius <$> (closures E1_reported_twice !! 14)) = Some (Fin 0)
  /\ timers E1_reported_twice !! 7 = Some {| callback := FitView 5; delay := Fin 500 |}.
Proof. vm_compute. repeat split. Qed.

(** * Further properties of the program *)

(** ** The range and the monotonicity of the estimate

    These properties are stated of [estimateIntensity_in]: they hold
    whatever the three operations of line 104 are, rounded and overflowing
    as the doubles of JavaScript or exact as in [estimateIntensity]. *)

Lemma estimateIntensity_in_exact (Math_log10 : number -> number) (magnitude depth : number) :
  estimateIntensity_in exact Math_log10 magnitude depth
  = estimateIntensity Math_log10 magnitude depth.
Proof. reflexivity. Qed.

Lemma displayedIntensity_in_exact (Math_log10 : number -> number) (f : AlertFields) :
  displayedIntensity_in exact Math_log10 f = displayedIntensity Math_log10 f.
Proof. reflexivity. Qed.

(** The estimator, by its guard (line 90). *)
Lemma estimateIntensity_in_guard (A : Arith) (Math_log10 : number -> number)
    (magnitude depth : number) :
  estimateIntensity_in A Math_log10 magnitude depth
  = if isNaN magnitude || (magnitude <? Fin 3.0)%num then Fin 0
    else Math_max (Fin 0)
           (Math_min (Fin 12) (Math_round (estimatedI_in A Math_log10 magnitude depth))).
Proof. reflexivity. Qed.

Lemma num_ltb_inject_Z (a b : Z) :
  num_ltb (Fin (inject_Z a)) (Fin (inject_Z b)) = (a <? b)%Z.
Proof.
  unfold num_ltb, Z.ltb. rewrite Qcompare_inject_Z. reflexivity.
Qed.

(** [Math.max(0, Math.min(12, n))] on an integer. *)
Lemma max_min_inject_Z (z : Z) :
  Math_max (Fin 0) (Math_min (Fin 12) (Fin (inject_Z z)))
  = Fin (inject_Z (Z.max 0 (Z.min 12 z))).
Proof.
  unfold Math_max, Math_min. cbn [isNaN orb].
  change (Fin 12) with (Fin (inject_Z 12)). change (Fin 0) with (Fin (inject_Z 0)).
  rewrite num_ltb_inject_Z.
  destruct (Z.ltb_spec 12 z) as [H | H]; cbn [isNaN orb]; rewrite num_ltb_inject_Z.
  - change (0 <? 12)%Z with true. cbv iota. do 2 f_equal. lia.
  - destruct (Z.ltb_spec 0 z) as [H0 | H0]; do 2 f_equal; lia.
Qed.

(** Lines 107-110 on a finite number. *)
Lemma clamp_round_Fin (q : Q) :
  Math_max (Fin 0) (Math_min (Fin 12) (Math_round (Fin q)))
  = Fin (inject_Z (Z.max 0 (Z.min 12 (Qfloor (q + (1 # 2)))))).
Proof. cbn [Math_round]. apply max_min_inject_Z. Qed.

(** Lines 107-110 on any number: [NaN] stays [NaN], plus infinity gives 12,
    minus infinity gives 0, and a finite number gives an integer of the
    scale. *)
Lemma clamp_round_cases (x : number) :
  (x = NaN /\ Math_max (Fin 0) (Math_min (Fin 12) (Math_round x)) = NaN)
  \/ (isNaN x = false
      /\ exists z : Z,
          (0 <= z <= 12)%Z
          /\ Math_max (Fin 0) (Math_min (Fin 12) (Math_round x)) = Fin (inject_Z z)).
Proof.
  destruct x as [| | | q].
  - left. split; reflexivity.
  - right. split; [reflexivity |]. exists 12%Z. split; [lia | reflexivity].
  - right. split; [reflexivity |]. exists 0%Z. split; [lia | reflexivity].
  - right. split; [reflexivity |]. eexists. split; [| apply clamp_round_Fin]. lia.
Qed.

Lemma clamp_round_monotone (x y : number) :
  (x <=? y)%num = true ->
  (Math_max (Fin 0) (Math_min (Fin 12) (Math_round x))
   <=? Math_max (Fin 0) (Math_min (Fin 12) (Math_round y)))%num = true.
Proof.
  intros H.
  destruct x as [| | | p], y as [| | | q]; cbn [num_leb] in H; try discriminate H;
    try reflexivity.
  - change (Math_max (Fin 0) (Math_min (Fin 12) (Math_round NInf))) with (Fin (inject_Z 0)).
    rewrite clamp_round_Fin. apply num_leb_Fin. rewrite <- Zle_Qle. lia.
  - change (Math_max (Fin 0) (Math_min (Fin 12) (Math_round PInf))) with (Fin (inject_Z 12)).
    rewrite clamp_round_Fin. apply num_leb_Fin. rewrite <- Zle_Qle. lia.
  - rewrite !clamp_round_Fin. apply num_leb_Fin. rewrite <- Zle_Qle.
    assert (Hpq : (p <= q)%Q) by (apply num_leb_Fin; exact H).
    assert (Qfloor (p + (1 # 2)) <= Qfloor (q + (1 # 2)))%Z by (apply Qfloor_resp_le; lra).
    lia.
Qed.

(** What [estimateIntensity] returns, under any arithmetic: [NaN] when the
    formula was applied and gave [NaN], else an integer from 0 to 12. *)
Lemma estimateIntensity_in_cases (A : Arith) (Math_log10 : number -> number)
    (magnitude depth : number) :
  (estimateIntensity_in A Math_log10 magnitude depth = NaN
   /\ isNaN magnitude || (magnitude <? Fin 3.0)%num = false
   /\ estimatedI_in A Math_log10 magnitude depth = NaN)
  \/ (exists z : Z,
        (0 <= z <= 12)%Z
        /\ estimateIntensity_in A Math_log10 magnitude depth = Fin (inject_Z z)).
Proof.
  rewrite estimateIntensity_in_guard.
  destruct (isNaN magnitude || (magnitude <? Fin 3.0)%num) eqn:G.
  - right. exists 0%Z. split; [lia | reflexivity].
  - destruct (clamp_round_cases (estimatedI_in A Math_log10 magnitude depth))
      as [[Ex Er] | [_ (z & Hz & Er)]].
    + left. repeat split; assumption.
    + right. exists z. split; assumption.
Qed.

(** X1: whatever the arithmetic of line 104 (exact, or rounding and
    overflowing as doubles do), whatever [Math.log10] returns, and for every
    magnitude and depth ([NaN], zero, negative and infinite included),
    [estimateIntensity] returns an integer from 0 to 12 or [NaN]; and it
    returns [NaN] only when the magnitude passed the guard of line 90 and
    the formula of line 104 itself evaluated to [NaN] (as it does in doubles
    at the magnitude 1.5e308 and an infinite depth, infinity minus
    infinity). *)
Theorem estimateIntensity_range (A : Arith) (Math_log10 : number -> number)
    (magnitude depth : number) :
  let r := estimateIntensity_in A Math_log10 magnitude depth in
  (r = NaN
   /\ isNaN magnitude || (magnitude <? Fin 3.0)%num = false
   /\ estimatedI_in A Math_log10 magnitude depth = NaN)
  \/ (exists z : Z, (0 <= z <= 12)%Z /\ r = Fin (inject_Z z)).
Proof. exact (estimateIntensity_in_cases A Math_log10 magnitude depth). Qed.

(** The exact arithmetic keeps the order of numbers. *)
Lemma exact_monotone_formula : monotone_formula exact.
Proof.
  split; [| split]; cbn [exact fmul fadd fsub].
  - intros a b H.
    destruct a as [| | | p], b as [| | | q]; cbn [num_leb] in H; try discriminate H;
      try reflexivity.
    cbn [num_mul]. apply num_leb_Fin. apply num_leb_Fin in H.
    assert (1.5 == 3 # 2)%Q by reflexivity. nra.
  - intros x y H.
    destruct x as [| | | p], y as [| | | q]; cbn [num_leb] in H; try discriminate H;
      try reflexivity.
    cbn [num_add]. apply num_leb_Fin. apply num_leb_Fin in H. lra.
  - intros x y c H Hx Hy.
    destruct x as [| | | p], y as [| | | q], c as [| | | r];
      cbn [num_leb] in H; try discriminate H;
      cbn in Hx, Hy; try discriminate Hx; try discriminate Hy; try reflexivity.
    unfold num_sub. cbn [num_opp num_add]. apply num_leb_Fin. apply num_leb_Fin in H. lra.
Qed.

(** X2: at a given depth, a larger magnitude never gives a smaller
    estimate, under every arithmetic whose operations keep the order of
    numbers (as the exact ones do, and as rounding to the nearest double
    does), as long as the formula of line 104 evaluates to a number at both
    magnitudes. *)
Theorem estimateIntensity_monotone (A : Arith) (Math_log10 : number -> number)
    (m1 m2 depth : number) :
  monotone_formula A ->
  (m1 <=? m2)%num = true ->
  isNaN (estimatedI_in A Math_log10 m1 depth) = false ->
  isNaN (estimatedI_in A Math_log10 m2 depth) = false ->
  (estimateIntensity_in A Math_log10 m1 depth
   <=? estimateIntensity_in A Math_log10 m2 depth)%num = true.
Proof.
  intros (Hmul & Hadd & Hsub) Hm H1 H2.
  rewrite !estimateIntensity_in_guard.
  destruct (isNaN m1 || (m1 <? Fin 3.0)%num) eqn:G1.
  - destruct (isNaN m2 || (m2 <? Fin 3.0)%num) eqn:G2; [reflexivity |].
    destruct (clamp_round_cases (estimatedI_in A Math_log10 m2 depth))
      as [[E _] | [_ (z & Hz & ->)]].
    + rewrite E in H2. discriminate H2.
    + apply num_leb_Fin. change 0%Q with (inject_Z 0). rewrite <- Zle_Qle. lia.
  - assert (G2 : isNaN m2 || (m2 <? Fin 3.0)%num = false).
    { destruct m1 as [| | | p], m2 as [| | | q]; cbn [num_leb] in Hm; try discriminate Hm;
        cbn [isNaN orb num_ltb] in G1; try discriminate G1; try reflexivity.
      cbn [isNaN orb]. apply num_ltb_Fin_false. apply num_ltb_Fin_false in G1.
      apply num_leb_Fin in Hm. lra. }
    rewrite G2. apply clamp_round_monotone.
    unfold estimatedI_in in *. apply Hsub; [| exact H1 | exact H2].
    apply Hadd, Hmul, Hm.
Qed.

Lemma estimateIntensity_monotone_witness :
  monotone_formula exact
  /\ (Fin 5.5 <=? Fin 6.8)%num = true
  /\ (estimateIntensity Math_log10_interp (Fin 5.5) (Fin 20)
      <=? estimateIntensity Math_log10_interp (Fin 6.8) (Fin 20))%num = true.
Proof.
  split; [exact exact_monotone_formula |].
  split; [reflexivity |].
  exact (estimateIntensity_monotone exact Math_log10_interp (Fin 5.5) (Fin 6.8) (Fin 20)
           exact_monotone_formula eq_refl eq_refl eq_refl).
Defined.

(** ** Every estimate has its colour *)

(** The colour [intColor] holds for an integer of the scale is the entry at
    that position of the table. *)
Lemma intColor_of_integer (z : Z) :
  (0 <= z <= 12)%Z ->
  exists k c, intColor !! Z.to_nat z = Some (k, c)
              /\ intColor_bkcolor (VNum (Fin (inject_Z z))) = Some c.
Proof.
  intros Hz.
  assert (H : (z = 0 \/ z = 1 \/ z = 2 \/ z = 3 \/ z = 4 \/ z = 5 \/ z = 6 \/ z = 7
               \/ z = 8 \/ z = 9 \/ z = 10 \/ z = 11 \/ z = 12)%Z) by lia.
  repeat (destruct H as [H | H]); subst z;
    eexists; eexists; split; vm_compute; reflexivity.
Qed.

Lemma intensityBgColor_of_integer (z : Z) :
  (0 <= z <= 12)%Z ->
  exists k, intColor !! Z.to_nat z = Some (k, intensityBgColor (VNum (Fin (inject_Z z)))).
Proof.
  intros Hz. destruct (intColor_of_integer z Hz) as (k & c & Hk & Hc).
  exists k. unfold intensityBgColor. cbn [strict_eq_str negb]. now rewrite Hc.
Qed.

(** X3: when a banner shows the estimate (the guard of line 298 holds of
    the two variables the estimate is computed from), then, under any
    arithmetic, what it shows is an integer from 0 to 12 on the colour
    [intColor] holds at that position, or it is [NaN] on the default colour
    (the formula overflowed to infinity minus infinity): but for [NaN], the
    lookup of line 311 never falls back to the default. *)
Theorem banner_estimate_has_its_colour (A : Arith) (Math_log10 : number -> number)
    (f : AlertFields) :
  negb (isNaN_nullable (rawMagnitudeForCalc f))
  && negb (isNaN_nullable (rawDepthForCalc f)) = true ->
  let shown := displayedIntensity_in A Math_log10 f in
  (shown = VNum NaN /\ intensityBgColor shown = "#444444")
  \/ (exists (z : Z) (k : string),
        (0 <= z <= 12)%Z
        /\ shown = VNum (Fin (inject_Z z))
        /\ intColor !! Z.to_nat z = Some (k, intensityBgColor shown)).
Proof.
  intros G shown. subst shown. unfold displayedIntensity_in. rewrite G.
  unfold estimateIntensity_call_in.
  destruct (estimateIntensity_in_cases A Math_log10
              (match rawMagnitudeForCalc f with Some n => n | None => Fin 0 end)
              (match rawDepthForCalc f with Some n => n | None => NaN end))
    as [(-> & _) | (z & Hz & ->)].
  - left. split; reflexivity.
  - right. destruct (intensityBgColor_of_integer z Hz) as [k Hk].
    exists z, k. repeat split; try assumption; apply Hz.
Qed.

Lemma banner_estimate_has_its_colour_witness :
  exists (z : Z) (k : string),
    (0 <= z <= 12)%Z
    /\ eew_intensity (alertContent Math_log10_interp report_E1) = VNum (Fin (inject_Z z))
    /\ intColor !! Z.to_nat z
       = Some (k, eew_intensity_bg (alertContent Math_log10_interp report_E1)).
Proof.
  destruct (banner_estimate_has_its_colour exact Math_log10_interp (parseFields report_E1)
              eq_refl) as [[H _] | H].
  - vm_compute in H. discriminate H.
  - exact H.
Defined.

(** ** The test button's Fujian location

    The Fujian entry of [testLocations] carries the depth 15, which the
    banner does not read: whatever [Math.log10] is, as long as it is exact
    at 10 and gives at 15 a number from 1.08 to 1.35 (the logarithm is
    1.176...), the banner of a test alert at that location shows 8, the
    estimate at depth 10, where the estimate from the magnitude 5.5 and the
    depth 15 is 7. *)
Lemma Fujian_test_location_shows_the_estimate_at_depth_10 (Math_log10 : number -> number)
    (l : Q) (r0 r1 r2 r3 : number) (synth : string) :
  Math_log10 (Fin 10) = Fin 1 ->
  Math_log10 (Fin 15) = Fin l ->
  (1.08 <= l <= 1.35)%Q ->
  let data := testEewData r0 r1 r2 r3 1 synth in
  type data = VStr "fj_eew"
  /\ parseFloat (Magunitude data) = Fin 5.5 /\ parseFloat (Depth data) = Fin 15
  /\ eew_intensity (alertContent Math_log10 data) = VNum (Fin 8)
  /\ estimateIntensity Math_log10 (parseFloat (Magunitude data)) (parseFloat (Depth data))
     = Fin 7.
Proof.
  intros H10 H15 Hl data. subst data.
  split; [reflexivity |]. split; [reflexivity |]. split; [reflexivity |].
  split.
  - change (eew_intensity (alertContent Math_log10 (testEewData r0 r1 r2 r3 1 synth)))
      with (VNum (estimateIntensity_in exact Math_log10 (Fin 5.5) (Fin 10))).
    rewrite estimateIntensity_in_guard.
    change (isNaN (Fin 5.5) || (Fin 5.5 <? Fin 3.0)%num) with false. cbv iota.
    unfold estimatedI_in.
    change (actualDepth (Fin 10)) with (Fin 10). rewrite H10. reflexivity.
  - change (estimateIntensity Math_log10
              (parseFloat (Magunitude (testEewData r0 r1 r2 r3 1 synth)))
              (parseFloat (Depth (testEewData r0 r1 r2 r3 1 synth))))
      with (estimateIntensity_in exact Math_log10 (Fin 5.5) (Fin 15)).
    rewrite estimateIntensity_in_guard.
    change (isNaN (Fin 5.5) || (Fin 5.5 <? Fin 3.0)%num) with false. cbv iota.
    unfold estimatedI_in.
    change (actualDepth (Fin 15)) with (Fin 15). rewrite H15.
    cbn [exact fmul fadd fsub num_mul num_add num_sub num_opp].
    rewrite clamp_round_Fin.
    assert (E : Qfloor (1.5 * 5.5 + 3.0 + - (3.5 * l) + (1 # 2)) = 7%Z).
    { set (x := (1.5 * 5.5 + 3.0 + - (3.5 * l) + (1 # 2))%Q).
      pose proof (Qfloor_le x) as Hlo. pose proof (Qlt_floor x) as Hhi.
      assert (Hx : (7 <= x /\ x < 8)%Q).
      { unfold x.
        assert (1.5 == 3 # 2)%Q by reflexivity. assert (5.5 == 11 # 2)%Q by reflexivity.
        assert (3.0 == 3)%Q by reflexivity. assert (3.5 == 7 # 2)%Q by reflexivity.
        assert (1.08 == 27 # 25)%Q by reflexivity. assert (1.35 == 27 # 20)%Q by reflexivity.
        split; nra. }
      assert (Qfloor x < 8)%Z.
      { rewrite Zlt_Qlt. change (inject_Z 8) with 8%Q. lra. }
      assert (7 < Qfloor x + 1)%Z.
      { rewrite Zlt_Qlt. change (inject_Z 7) with 7%Q. lra. }
      lia. }
    rewrite E. reflexivity.
Qed.

(** ** The earthquake list *)

Lemma appendRows_eq (item : EqEntry -> ListItem) (data : gmap string EqEntry)
    (children : list ListItem) :
  appendRows item data children
  = (children ++ (item <$> omap (fun i => data !! No i) (seq 1 50)))%list.
Proof.
  unfold appendRows. generalize (seq 1 50). intros l. revert children.
  induction l as [| i l IH]; intros children; cbn [fold_left omap list_omap fmap list_fmap].
  - now rewrite app_nil_r.
  - rewrite IH. destruct (data !! No i) as [eq |]; [| reflexivity].
    cbn [fmap list_fmap]. now rewrite <- app_assoc.
Qed.

Lemma length_omap_le {A B : Type} (f : A -> option B) (l : list A) :
  (length (omap f l) <= length l)%nat.
Proof.
  induction l as [| a l IH]; [reflexivity |].
  cbn [omap list_omap]. destruct (f a); cbn [length]; lia.
Qed.

Lemma elem_of_omap_seq {A : Type} (f : nat -> option A) (start len : nat) (x : A) :
  x ∈ omap f (seq start len) <-> exists i, start <= i < start + len /\ f i = Some x.
Proof.
  rewrite list_elem_of_omap. split.
  - intros (i & Hi & Hf). exists i. split; [| exact Hf].
    apply list_elem_of_In, in_seq in Hi. lia.
  - intros (i & Hi & Hf). exists i. split; [| exact Hf].
    apply list_elem_of_In, in_seq. lia.
Qed.

(** X4: [displayEqList] replaces the rows of the list element, whatever
    they were, by one row for each entry present under the keys [No1], ...,
    [No50], in that order (rows of the CENC kind or of the JMA kind, by the
    data type): so at most 50 rows, none for any other key of the data, and
    nothing accumulates from one refresh to the next. *)
Theorem displayEqList_rows (A : Arith) (Math_log10 : number -> number)
    (data : gmap string EqEntry) (old : list ListItem) :
  let entries := omap (fun i => data !! No i) (seq 1 50) in
  displayEqList A Math_log10 (Some data) (VStr "cenc_eqlist") (Some old)
  = Some (cencListItem A Math_log10 <$> entries)
  /\ displayEqList A Math_log10 (Some data) (VStr "jma_eqlist") (Some old)
     = Some (jmaListItem A Math_log10 <$> entries)
  /\ (length entries <= 50)%nat
  /\ (forall eq, eq ∈ entries <-> exists i, 1 <= i <= 50 /\ data !! No i = Some eq).
Proof.
  cbv zeta. cbn [displayEqList strict_eq_str].
  change (String.eqb "cenc_eqlist" "cenc_eqlist") with true.
  change (String.eqb "jma_eqlist" "cenc_eqlist") with false.
  change (String.eqb "jma_eqlist" "jma_eqlist") with true.
  cbv iota. rewrite !appendRows_eq. cbn [app].
  repeat split.
  - etransitivity; [apply length_omap_le |]. rewrite length_seq. reflexivity.
  - intros H. apply elem_of_omap_seq in H. destruct H as (i & Hi & Hf).
    exists i. split; [lia | exact Hf].
  - intros (i & Hi & Hf). apply elem_of_omap_seq. exists i. split; [lia | exact Hf].
Qed.

(** X5: a row of the CENC list always shows the estimate from the parsed
    magnitude and depth of its entry; under any arithmetic this is an
    integer from 0 to 12 on the colour [intColor] holds at that position, or
    [NaN] on the default colour. *)
Theorem cencListItem_estimate_and_colour (A : Arith) (Math_log10 : number -> number)
    (eq : EqEntry) :
  let row := cencListItem A Math_log10 eq in
  let r := estimateIntensity_in A Math_log10
             (parseFloat (eq_magnitude eq)) (parseFloat (eq_depth eq)) in
  eq_intensity_small row = VNum r
  /\ ((r = NaN /\ eq_intensity_small_bg row = "#444444")
      \/ (exists (z : Z) (k : string),
            (0 <= z <= 12)%Z
            /\ r = Fin (inject_Z z)
            /\ intColor !! Z.to_nat z = Some (k, eq_intensity_small_bg row))).
Proof.
  cbv zeta. cbn [cencListItem eq_intensity_small eq_intensity_small_bg].
  split; [reflexivity |].
  destruct (estimateIntensity_in_cases A Math_log10
              (parseFloat (eq_magnitude eq)) (parseFloat (eq_depth eq)))
    as [(-> & _) | (z & Hz & ->)].
  - left. split; reflexivity.
  - right. destruct (intColor_of_integer z Hz) as (k & c & Hk & Hc).
    exists z, k. rewrite Hc. repeat split; try assumption; apply Hz.
Qed.

(** X6: what a list source gives when its request fails, and when its URL
    names neither kind of list: a rejected request, a response that is not
    [ok] and a body that does not parse all leave the rows as they are,
    while a list fetched from a URL with neither [cenc_eqlist] nor
    [jma_eqlist] in it empties the rows (they are cleared at line 159, before
    the type is looked at). *)
Theorem loadEqList_failure_and_unknown_type (A : Arith) (Math_log10 : number -> number)
    (url : string) (eqList : option (list ListItem)) (json : option (gmap string EqEntry))
    (data : gmap string EqEntry) (old : list ListItem) :
  loadEqList A Math_log10 url Rejected eqList = eqList
  /\ loadEqList A Math_log10 url (Response false json) eqList = eqList
  /\ loadEqList A Math_log10 url (Response true None) eqList = eqList
  /\ (includes url "cenc_eqlist" = false -> includes url "jma_eqlist" = false ->
      loadEqList A Math_log10 url (Response true (Some data)) (Some old) = Some []).
Proof.
  repeat split.
  intros H1 H2. unfold loadEqList. cbn [fetchData negb]. rewrite H1, H2. reflexivity.
Qed.

(** ** [addEarthquake], field by field *)

Lemma addEarthquake_state (lat lon magnitude : number) (id : string) (t : number) (s : State) :
  let n := next s in
  let s' := addEarthquake lat lon magnitude id t s in
  next s' = S (S (S (S (S n))))
  /\ activeWaveAnimations s' = <[id := new_animation n t]> (activeWaveAnimations s)
  /\ closures s' = <[S (S (S n)) := new_closure id n (S n) (S (S n)) t]> (closures s)
  /\ frames s'
     = <[S (S (S (S n))) := S (S (S n))]>
         (match activeWaveAnimations s !! id with
          | Some a => delete (animationFrameId a) (frames s)
          | None => frames s
          end)
  /\ onMap s'
     = {[S (S n)]} ∪ ({[S n]} ∪ ({[n]} ∪
         (match activeWaveAnimations s !! id with
          | Some a => onMap s ∖ list_to_set [wa_epicenter a; wa_pWave a; wa_sWave a]
          | None => onMap s
          end)))
  /\ mapObjects s'
     = <[S (S n) := Circle (lon, lat) (Fin 0) (Fin 1) (Fin 0.2)]>
         (<[S n := Circle (lon, lat) (Fin 0) (Fin 0.8) (Fin 0.1)]>
            (<[n := Marker (lon, lat) magnitude]> (mapObjects s)))
  /\ viewCenter s' = CenterAt (lon, lat) /\ viewZoom s' = ZoomAt (Fin 8).
Proof.
  unfold addEarthquake.
  destruct (activeWaveAnimations s !! id) as [a |]; [destruct (wa_fitViewTimer a) |];
    cbn; rewrite ?insert_delete_eq; repeat split.
Qed.

(** ** A snapshot, field by field *)

Section Reports.

Variable Math_log10 : number -> number.

Lemma updateBanner_rest (data : EewData) (env : Env) (existing : AlertEntry) (s : State) :
  let r := updateBanner Math_log10 data env existing s in
  closures r.2 = closures s /\ frames r.2 = frames s /\ onMap r.2 = onMap s
  /\ mapObjects r.2 = mapObjects s
  /\ viewCenter r.2 = viewCenter s /\ viewZoom r.2 = viewZoom s
  /\ (forall h, h <> element existing -> h <> next s ->
      domElements r.2 !! h = domElements s !! h)
  /\ (forall e, domElements s !! element existing = Some e -> element existing <> next s ->
      domElements r.2 !! element existing
      = Some {| data_event_id := data_event_id e;
                innerHTML := alertContent Math_log10 data;
                hidden := false;
                transitionend_listeners := transitionend_listeners e |}).
Proof.
  unfold updateBanner. cbv zeta. rewrite createEewAlertElement_eq.
  cbn [domElements upd_container upd_elements fresh snd next clearTimeout upd_timers].
  rewrite lookup_insert_eq. cbn [innerHTML fst snd].
  repeat split.
  - intros h H1 H2.
    cbn [domElements classList_remove_hidden set_innerHTML upd_elements upd_container].
    rewrite !lookup_alter_ne by congruence. now rewrite lookup_insert_ne by congruence.
  - intros e He Hne.
    cbn [domElements classList_remove_hidden set_innerHTML upd_elements upd_container].
    rewrite !lookup_alter_eq, lookup_insert_ne by congruence. rewrite He. reflexivity.
Qed.

(** A valid report, field by field: [el] is the banner of the alert (the
    one it had, or the new element), and the handles are drawn from the
    counter in the order the program draws them. *)
Lemma displayEew_valid_state (data : EewData) (env : Env) (s : State)
    (lat lon magnitude : number) :
  isCancel_of data || isFinal_of data = false ->
  parseCoordinates data = (Some lat, Some lon, Some magnitude) ->
  validCoordinates (Some lat) (Some lon) (Some magnitude) = true ->
  let id := eventId_of data (uid env) in
  let n := next s in
  let el := match activeEewAlerts s !! id with
            | Some existing => element existing
            | None => n
            end in
  let s' := displayEew Math_log10 data env s in
  next s' = S (S (S (S (S (S (S n))))))
  /\ container s' = (container s ++ [n])%list
  /\ activeEewAlerts s' = <[id := {| element := el; timeoutId := S n |}]> (activeEewAlerts s)
  /\ activeWaveAnimations s'
     = <[id := new_animation (S (S n)) (now env)]> (activeWaveAnimations s)
  /\ closures s'
     = <[S (S (S (S (S n)))) :=
           new_closure id (S (S n)) (S (S (S n))) (S (S (S (S n)))) (now env)]> (closures s)
  /\ frames s'
     = <[S (S (S (S (S (S n))))) := S (S (S (S (S n))))]>
         (match activeWaveAnimations s !! id with
          | Some a => delete (animationFrameId a) (frames s)
          | None => frames s
          end)
  /\ timers s'
     = (match activeWaveAnimations s !! id with
        | Some a => match wa_fitViewTimer a with
                    | Some tm => delete tm
                    | None => fun m => m
                    end
        | None => fun m => m
        end)
         (<[S n := expiry id el]>
            (match activeEewAlerts s !! id with
             | Some existing => delete (timeoutId existing) (timers s)
             | None => timers s
             end))
  /\ onMap s'
     = {[S (S (S (S n)))]} ∪ ({[S (S (S n))]} ∪ ({[S (S n)]} ∪
         (match activeWaveAnimations s !! id with
          | Some a => onMap s ∖ list_to_set [wa_epicenter a; wa_pWave a; wa_sWave a]
          | None => onMap s
          end)))
  /\ viewCenter s' = CenterAt (lon, lat) /\ viewZoom s' = ZoomAt (Fin 8).
Proof.
  intros Hflags Hparse Hvalid id n el s'. subst s'.
  unfold displayEew. rewrite Hflags, Hparse, Hvalid. fold id.
  destruct (activeEewAlerts s !! id) as [existing |] eqn:Hex.
  - destruct (updateBanner_fields Math_log10 data env existing s)
      as (Hel & Hc & Ha & Hw & Ht & Hn & _).
    destruct (updateBanner_rest data env existing s) as (Hcl & Hfr & Hm & _).
    destruct (updateBanner Math_log10 data env existing s) as [alertElement s1].
    cbn [fst snd] in *. subst alertElement.
    cbn beta iota zeta delta [setTimeout fresh].
    match goal with
    | |- context [addEarthquake ?a ?b ?c ?d ?e ?f] =>
        set (s2 := f);
          destruct (addEarthquake_fields a b c d e s2) as (Ha' & Hc' & _ & Ht' & _);
          destruct (addEarthquake_state a b c d e s2) as (Hn2 & Hw2 & Hcl2 & Hfr2 & Hm2 & _ & Hv);
          rewrite Ha', Hc', Ht', Hn2, Hw2, Hcl2, Hfr2, Hm2
    end.
    subst s2.
    cbn [next activeEewAlerts activeWaveAnimations closures frames timers onMap container
           upd_alerts upd_timers].
    rewrite Hn, Hc, Ha, Hw, Hcl, Hfr, Ht, Hm.
    repeat split; try apply Hv.
    destruct (activeWaveAnimations s !! id) as [a |]; [destruct (wa_fitViewTimer a) |];
      reflexivity.
  - rewrite createEewAlertElement_eq.
    cbn beta iota zeta delta [setTimeout fresh fst snd].
    match goal with
    | |- context [addEarthquake ?a ?b ?c ?d ?e ?f] =>
        set (s2 := f);
          destruct (addEarthquake_fields a b c d e s2) as (Ha' & Hc' & _ & Ht' & _);
          destruct (addEarthquake_state a b c d e s2) as (Hn2 & Hw2 & Hcl2 & Hfr2 & Hm2 & _ & Hv);
          rewrite Ha', Hc', Ht', Hn2, Hw2, Hcl2, Hfr2, Hm2
    end.
    subst s2.
    cbn [next activeEewAlerts activeWaveAnimations closures frames timers onMap container
           upd_alerts upd_timers upd_elements upd_container].
    repeat split; try apply Hv.
    destruct (activeWaveAnimations s !! id) as [a |]; [destruct (wa_fitViewTimer a) |];
      reflexivity.
Qed.

Lemma displayEew_valid_elements (data : EewData) (env : Env) (s : State)
    (lat lon magnitude : number) :
  isCancel_of data || isFinal_of data = false ->
  parseCoordinates data = (Some lat, Some lon, Some magnitude) ->
  validCoordinates (Some lat) (Some lon) (Some magnitude) = true ->
  let id := eventId_of data (uid env) in
  let n := next s in
  let s' := displayEew Math_log10 data env s in
  let created := {| data_event_id := eventId_of data (uid_attr env);
                    innerHTML := alertContent Math_log10 data;
                    hidden := false;
                    transitionend_listeners := 0 |} in
  match activeEewAlerts s !! id with
  | None => domElements s' = <[n := created]> (domElements s)
  | Some existing =>
      (forall h, h <> element existing -> h <> n -> domElements s' !! h = domElements s !! h)
      /\ (element existing <> n -> domElements s' !! n = Some created)
      /\ (forall e, domElements s !! element existing = Some e -> element existing <> n ->
          domElements s' !! element existing
          = Some {| data_event_id := data_event_id e;
                    innerHTML := alertContent Math_log10 data;
                    hidden := false;
                    transitionend_listeners := transitionend_listeners e |})
  end.
Proof.
  intros Hflags Hparse Hvalid id n s' created. subst s'.
  unfold displayEew. rewrite Hflags, Hparse, Hvalid. fold id.
  destruct (activeEewAlerts s !! id) as [existing |] eqn:Hex.
  - destruct (updateBanner_fields Math_log10 data env existing s)
      as (Hel & _ & _ & _ & _ & _ & _ & Hnew).
    destruct (updateBanner_rest data env existing s) as (_ & _ & _ & _ & _ & _ & Hoth & Hsame).
    destruct (updateBanner Math_log10 data env existing s) as [alertElement s1].
    cbn [fst snd] in *. subst alertElement.
    cbn beta iota zeta delta [setTimeout fresh].
    match goal with
    | |- context [addEarthquake ?a ?b ?c ?d ?e ?f] =>
        destruct (addEarthquake_fields a b c d e f) as (_ & _ & Hd & _); rewrite Hd
    end.
    cbn [domElements upd_alerts upd_timers].
    split; [exact Hoth | split; [exact Hnew | exact Hsame]].
  - rewrite createEewAlertElement_eq.
    cbn beta iota zeta delta [setTimeout fresh fst snd].
    match goal with
    | |- context [addEarthquake ?a ?b ?c ?d ?e ?f] =>
        destruct (addEarthquake_fields a b c d e f) as (_ & _ & Hd & _); rewrite Hd
    end.
    reflexivity.
Qed.

Lemma hide_and_listen (h : nat) (s : State) :
  domElements (remove_on_transitionend h (classList_add_hidden h s))
  = alter hiddenBanner h (domElements s).
Proof.
  cbn [domElements remove_on_transitionend classList_add_hidden upd_elements].
  rewrite alter_alter_eq. now apply alter_ext.
Qed.

Lemma removeAlert_elements (id : string) (entry : AlertEntry) (s : State) :
  domElements (removeAlert id entry s) = alter hiddenBanner (element entry) (domElements s)
  /\ mapObjects (removeAlert id entry s) = mapObjects s.
Proof.
  split; [| reflexivity].
  unfold removeAlert. cbv zeta.
  change (domElements (upd_alerts (delete id) ?x)) with (domElements x).
  rewrite hide_and_listen. reflexivity.
Qed.

Lemma removeWaveAnimation_elements (id : string) (anim : WaveAnimation) (s : State) :
  domElements (removeWaveAnimation id anim s) = domElements s
  /\ mapObjects (removeWaveAnimation id anim s) = mapObjects s.
Proof. unfold removeWaveAnimation. destruct (wa_fitViewTimer anim); split; reflexivity. Qed.

Lemma removeBoth_state (id : string) (s : State) :
  let s' := removeBoth id s in
  activeEewAlerts s' = delete id (activeEewAlerts s)
  /\ activeWaveAnimations s' = delete id (activeWaveAnimations s)
  /\ timers s'
     = (match activeWaveAnimations s !! id with
        | Some a => match wa_fitViewTimer a with
                    | Some tm => delete tm
                    | None => fun m => m
                    end
        | None => fun m => m
        end)
         (match activeEewAlerts s !! id with
          | Some entry => delete (timeoutId entry) (timers s)
          | None => timers s
          end)
  /\ frames s' = match activeWaveAnimations s !! id with
                 | Some a => delete (animationFrameId a) (frames s)
                 | None => frames s
                 end
  /\ onMap s' = match activeWaveAnimations s !! id with
                | Some a => onMap s ∖ list_to_set [wa_epicenter a; wa_pWave a; wa_sWave a]
                | None => onMap s
                end
  /\ viewCenter s' = match activeWaveAnimations s !! id with
                     | Some _ => CenterAt INITIAL_MAP_CENTER
                     | None => viewCenter s
                     end
  /\ viewZoom s' = match activeWaveAnimations s !! id with
                   | Some _ => ZoomAt INITIAL_MAP_ZOOM
                   | None => viewZoom s
                   end
  /\ domElements s' = match activeEewAlerts s !! id with
                      | Some entry => alter hiddenBanner (element entry) (domElements s)
                      | None => domElements s
                      end
  /\ container s' = container s /\ closures s' = closures s /\ next s' = next s
  /\ mapObjects s' = mapObjects s.
Proof.
  unfold removeBoth. cbv zeta.
  set (s1 := match activeEewAlerts s !! id with
             | Some entry => removeAlert id entry s
             | None => s
             end).
  assert (H1 : activeEewAlerts s1 = delete id (activeEewAlerts s)
               /\ activeWaveAnimations s1 = activeWaveAnimations s
               /\ timers s1 = match activeEewAlerts s !! id with
                              | Some entry => delete (timeoutId entry) (timers s)
                              | None => timers s
                              end
               /\ frames s1 = frames s /\ onMap s1 = onMap s
               /\ viewCenter s1 = viewCenter s /\ viewZoom s1 = viewZoom s
               /\ domElements s1 = match activeEewAlerts s !! id with
                                   | Some entry =>
                                       alter hiddenBanner (element entry) (domElements s)
                                   | None => domElements s
                                   end
               /\ container s1 = container s /\ closures s1 = closures s
               /\ next s1 = next s /\ mapObjects s1 = mapObjects s).
  { subst s1. destruct (activeEewAlerts s !! id) as [entry |] eqn:E.
    - destruct (removeAlert_fields id entry s)
        as (Ha & Hw & Ht & Hf & Hm & Hc & Hcl & Hn & Hvc & Hvz).
      destruct (removeAlert_elements id entry s) as [Hd Ho].
      repeat split; assumption.
    - repeat split. symmetry. now apply delete_id. }
  destruct H1 as (Ha & Hw & Ht & Hf & Hm & Hvc & Hvz & Hd & Hc & Hcl & Hn & Ho).
  rewrite Hw.
  destruct (activeWaveAnimations s !! id) as [anim |] eqn:E.
  - destruct (removeWaveAnimation_fields id anim s1)
      as (Ha' & Hw' & Ht' & Hf' & Hm' & Hc' & Hcl' & Hn' & Hvc' & Hvz').
    destruct (removeWaveAnimation_elements id anim s1) as [Hd' Ho'].
    rewrite Ha', Hw', Ht', Hf', Hm', Hc', Hcl', Hn', Hvc', Hvz', Hd', Ho'.
    rewrite Ha, Hw, Ht, Hf, Hm, Hd, Hc, Hcl, Hn, Ho.
    repeat split. destruct (wa_fitViewTimer anim); reflexivity.
  - rewrite Ha, Hw, Ht, Hf, Hm, Hd, Hc, Hcl, Hn, Ho, Hvc, Hvz.
    repeat split. symmetry. now apply delete_id.
Qed.

Lemma displayEew_terminating (data : EewData) (env : Env) (s : State) :
  isCancel_of data || isFinal_of data = true ->
  displayEew Math_log10 data env s = removeBoth (eventId_of data (uid env)) s.
Proof. intros Hflags. unfold displayEew. now rewrite Hflags. Qed.

Lemma evict_removeBoth (received : list value) (s : State) (id : string) (entry : AlertEntry) :
  activeEewAlerts s !! id = Some entry ->
  evict received s (id, entry)
  = if evictable received id then removeBoth id s else s.
Proof.
  intros E. unfold evict, evictable, removeBoth. rewrite E.
  destruct (negb (received_has received id) && negb (String.prefix "test-" id)); reflexivity.
Qed.

(** The three things [displayEew] can do. *)
Lemma displayEew_cases (data : EewData) (env : Env) (s : State) :
  displayEew Math_log10 data env s = s
  \/ (isCancel_of data || isFinal_of data = true
      /\ displayEew Math_log10 data env s = removeBoth (eventId_of data (uid env)) s)
  \/ (exists lat lon magnitude,
        isCancel_of data || isFinal_of data = false
        /\ parseCoordinates data = (Some lat, Some lon, Some magnitude)
        /\ validCoordinates (Some lat) (Some lon) (Some magnitude) = true).
Proof.
  destruct (isCancel_of data || isFinal_of data) eqn:Hflags.
  - right; left. split; [reflexivity | now apply displayEew_terminating].
  - destruct (parseCoordinates data) as [[[lat |] [lon |]] [magnitude |]] eqn:Hparse;
      try (left; unfold displayEew; rewrite Hflags, Hparse; reflexivity).
    destruct (validCoordinates (Some lat) (Some lon) (Some magnitude)) eqn:Hvalid.
    + right; right. exists lat, lon, magnitude. repeat split; assumption.
    + left. unfold displayEew. now rewrite Hflags, Hparse, Hvalid.
Qed.

(** [displayEew] reads and writes the two registries at the identifier of
    its snapshot only. *)
Lemma displayEew_other (data : EewData) (env : Env) (s : State) (id' : string) :
  id' <> eventId_of data (uid env) ->
  activeEewAlerts (displayEew Math_log10 data env s) !! id' = activeEewAlerts s !! id'
  /\ activeWaveAnimations (displayEew Math_log10 data env s) !! id'
     = activeWaveAnimations s !! id'.
Proof.
  intros Hne.
  destruct (displayEew_cases data env s)
    as [-> | [[_ ->] | (lat & lon & magnitude & Hflags & Hparse & Hvalid)]].
  - split; reflexivity.
  - destruct (removeBoth_state (eventId_of data (uid env)) s) as (-> & -> & _).
    split; apply lookup_delete_ne; congruence.
  - destruct (displayEew_valid_state data env s lat lon magnitude Hflags Hparse Hvalid)
      as (_ & _ & -> & -> & _).
    split; apply lookup_insert_ne; congruence.
Qed.

(** X8: the first valid report of an identifier, in full: one new banner
    with the content of the snapshot at the end of the container, the registry
    entry that refers to it, its expiry timer of 600 s, and a wave animation
    that starts at radius 0 at the time of the report (its three overlays on
    the map, its first frame requested), with the view centred on the
    epicentre at zoom 8. *)
Theorem first_report_in_full (data : EewData) (env : Env) (s : State)
    (lat lon magnitude : number) :
  isCancel_of data || isFinal_of data = false ->
  parseCoordinates data = (Some lat, Some lon, Some magnitude) ->
  validCoordinates (Some lat) (Some lon) (Some magnitude) = true ->
  activeEewAlerts s !! eventId_of data (uid env) = None ->
  registry_timers_null s ->
  let id := eventId_of data (uid env) in
  let n := next s in
  let s' := displayEew Math_log10 data env s in
  container s' = (container s ++ [n])%list
  /\ domElements s' !! n
     = Some {| data_event_id := eventId_of data (uid_attr env);
               innerHTML := alertContent Math_log10 data;
               hidden := false;
               transitionend_listeners := 0 |}
  /\ activeEewAlerts s' !! id = Some {| element := n; timeoutId := S n |}
  /\ timers s' = <[S n := expiry id n]> (timers s)
  /\ activeWaveAnimations s' !! id = Some (new_animation (S (S n)) (now env))
  /\ closures s' !! S (S (S (S (S n))))
     = Some (new_closure id (S (S n)) (S (S (S n))) (S (S (S (S n)))) (now env))
  /\ frames s' !! S (S (S (S (S (S n))))) = Some (S (S (S (S (S n)))))
  /\ S (S n) ∈ onMap s' /\ S (S (S n)) ∈ onMap s' /\ S (S (S (S n))) ∈ onMap s'
  /\ viewCenter s' = CenterAt (lon, lat) /\ viewZoom s' = ZoomAt (Fin 8).
Proof.
  intros Hflags Hparse Hvalid Hnew Hnull id n s'.
  destruct (displayEew_valid_state data env s lat lon magnitude Hflags Hparse Hvalid)
    as (_ & Hc & Ha & Hw & Hcl & Hfr & Ht & Hm & Hvc & Hvz).
  pose proof (displayEew_valid_elements data env s lat lon magnitude Hflags Hparse Hvalid)
    as Hd.
  cbv zeta in *. fold id n s' in Hc, Ha, Hw, Hcl, Hfr, Ht, Hm, Hvc, Hvz, Hd, Hnew.
  rewrite Hnew in Ha, Ht, Hd.
  assert (Ht' : timers s' = <[S n := expiry id n]> (timers s)).
  { rewrite Ht. destruct (activeWaveAnimations s !! id) as [a |] eqn:E; [| reflexivity].
    now rewrite (Hnull id a E). }
  rewrite Hc, Hd, Ha, Hw, Hcl, Hfr, Hm, Hvc, Hvz.
  repeat split; try apply lookup_insert_eq; try exact Ht'; set_solver.
Qed.

(** X9: a valid report of an identifier that is already shown restarts
    everything but the banner: the registry keeps the banner, which takes the
    new content and is made visible; the old expiry timer is cleared and a new
    one of 600 s set; and the wave animation starts again at radius 0 at the
    time of the report, with new overlays, the old overlays off the map and
    the old frame cancelled. *)
Theorem update_report_in_full (data : EewData) (env : Env) (s : State)
    (existing : AlertEntry) (lat lon magnitude : number) :
  isCancel_of data || isFinal_of data = false ->
  parseCoordinates data = (Some lat, Some lon, Some magnitude) ->
  validCoordinates (Some lat) (Some lon) (Some magnitude) = true ->
  activeEewAlerts s !! eventId_of data (uid env) = Some existing ->
  registry_timers_null s ->
  let id := eventId_of data (uid env) in
  let n := next s in
  let s' := displayEew Math_log10 data env s in
  activeEewAlerts s' !! id = Some {| element := element existing; timeoutId := S n |}
  /\ timers s' = <[S n := expiry id (element existing)]> (delete (timeoutId existing) (timers s))
  /\ (forall e, domElements s !! element existing = Some e -> element existing <> n ->
      domElements s' !! element existing
      = Some {| data_event_id := data_event_id e;
                innerHTML := alertContent Math_log10 data;
                hidden := false;
                transitionend_listeners := transitionend_listeners e |})
  /\ activeWaveAnimations s' !! id = Some (new_animation (S (S n)) (now env))
  /\ closures s' !! S (S (S (S (S n))))
     = Some (new_closure id (S (S n)) (S (S (S n))) (S (S (S (S n)))) (now env))
  /\ (forall a, activeWaveAnimations s !! id = Some a ->
      frames s'
      = <[S (S (S (S (S (S n))))) := S (S (S (S (S n))))]> (delete (animationFrameId a) (frames s))
      /\ onMap s'
         = {[S (S (S (S n)))]} ∪ ({[S (S (S n))]} ∪ ({[S (S n)]} ∪
             (onMap s ∖ list_to_set [wa_epicenter a; wa_pWave a; wa_sWave a])))).
Proof.
  intros Hflags Hparse Hvalid Hex Hnull id n s'.
  destruct (displayEew_valid_state data env s lat lon magnitude Hflags Hparse Hvalid)
    as (_ & Hc & Ha & Hw & Hcl & Hfr & Ht & Hm & Hvc & Hvz).
  pose proof (displayEew_valid_elements data env s lat lon magnitude Hflags Hparse Hvalid)
    as Hd.
  cbv zeta in *. fold id n s' in Hc, Ha, Hw, Hcl, Hfr, Ht, Hm, Hvc, Hvz, Hd, Hex.
  rewrite Hex in Ha, Ht, Hd. destruct Hd as (_ & _ & Hd).
  assert (Ht' : timers s'
                = <[S n := expiry id (element existing)]>
                    (delete (timeoutId existing) (timers s))).
  { rewrite Ht. destruct (activeWaveAnimations s !! id) as [a |] eqn:E; [| reflexivity].
    now rewrite (Hnull id a E). }
  rewrite Ha, Hw, Hcl.
  repeat split; try apply lookup_insert_eq; try assumption.
  - rewrite Hfr, H. reflexivity.
  - rewrite Hm, H. reflexivity.
Qed.

(** X10: a cancel report (JMA) or a final report (JMA, Fujian) removes what
    the registries hold for its identifier and nothing else: both entries are
    deleted, the expiry timer is cleared, the banner is hidden and set to
    leave the container when its transition ends, the pending frame is
    cancelled, the three overlays are taken off the map and the view goes
    back to its initial centre and zoom; where there is no wave animation the
    view stays, and where there is neither entry nothing changes at all. *)
Theorem cancel_or_final_report_in_full (data : EewData) (env : Env) (s : State) :
  isCancel_of data || isFinal_of data = true ->
  registry_timers_null s ->
  let id := eventId_of data (uid env) in
  let s' := displayEew Math_log10 data env s in
  activeEewAlerts s' = delete id (activeEewAlerts s)
  /\ activeWaveAnimations s' = delete id (activeWaveAnimations s)
  /\ container s' = container s /\ closures s' = closures s /\ next s' = next s
  /\ match activeEewAlerts s !! id with
     | Some entry =>
         timers s' = delete (timeoutId entry) (timers s)
         /\ domElements s' = alter hiddenBanner (element entry) (domElements s)
     | None => timers s' = timers s /\ domElements s' = domElements s
     end
  /\ match activeWaveAnimations s !! id with
     | Some a =>
         frames s' = delete (animationFrameId a) (frames s)
         /\ onMap s' = onMap s ∖ list_to_set [wa_epicenter a; wa_pWave a; wa_sWave a]
         /\ viewCenter s' = CenterAt INITIAL_MAP_CENTER /\ viewZoom s' = ZoomAt INITIAL_MAP_ZOOM
     | None =>
         frames s' = frames s /\ onMap s' = onMap s
         /\ viewCenter s' = viewCenter s /\ viewZoom s' = viewZoom s
     end
  /\ (activeEewAlerts s !! id = None -> activeWaveAnimations s !! id = None -> s' = s).
Proof.
  intros Hflags Hnull id s'. subst s'. rewrite displayEew_terminating by exact Hflags.
  fold id.
  destruct (removeBoth_state id s)
    as (Ha & Hw & Ht & Hf & Hm & Hvc & Hvz & Hd & Hc & Hcl & Hn & Ho).
  cbv zeta in *.
  assert (Ht' : timers (removeBoth id s)
                = match activeEewAlerts s !! id with
                  | Some entry => delete (timeoutId entry) (timers s)
                  | None => timers s
                  end).
  { rewrite Ht. destruct (activeWaveAnimations s !! id) as [a |] eqn:E; [| reflexivity].
    now rewrite (Hnull id a E). }
  repeat (split; [assumption |]).
  split; [destruct (activeEewAlerts s !! id); split; assumption |].
  split; [destruct (activeWaveAnimations s !! id); repeat split; assumption |].
  intros E1 E2. unfold removeBoth. now rewrite E1, E2.
Qed.

(** X11: a snapshot, whatever it is, touches the registries at its own
    identifier only: the alert and the wave animation of every other
    identifier are what they were. *)
Theorem snapshot_leaves_other_alerts (data : EewData) (env : Env) (s : State) (id' : string) :
  id' <> eventId_of data (uid env) ->
  let s' := displayEew Math_log10 data env s in
  activeEewAlerts s' !! id' = activeEewAlerts s !! id'
  /\ activeWaveAnimations s' !! id' = activeWaveAnimations s !! id'.
Proof. intros Hne. now apply displayEew_other. Qed.

(** X12: a snapshot that neither cancels nor ends is ignored altogether, the
    store left as it is, when it is of no known source type or when its
    latitude, longitude or magnitude does not parse to a number. *)
Theorem unparsable_snapshot_is_ignored (data : EewData) (env : Env) (s : State) :
  isCancel_of data || isFinal_of data = false ->
  knownSource data = false
  \/ isNaN (parseFloat (Latitude data)) = true
  \/ isNaN (parseFloat (Longitude data)) = true
  \/ isNaN (parseFloat (Magunitude data)) = true ->
  displayEew Math_log10 data env s = s.
Proof.
  intros Hflags [Hk | Hnan]; [now apply displayEew_unknown_source |].
  apply displayEew_invalid; [exact Hflags |].
  intros lat lon magnitude E.
  destruct (parseCoordinates_cases data) as [E' | E']; rewrite E' in E; [| discriminate].
  injection E as <- <- <-. unfold validCoordinates, isNaN_var.
  destruct Hnan as [H | [H | H]]; rewrite H; cbn [negb];
    rewrite ?andb_false_r; reflexivity.
Qed.

End Reports.

(** ** The polling cycle, from the state it starts in *)

Section Cycle.

Variable Math_log10 : number -> number.

Lemma processResults_received (results : list (option EewData * Env)) (received : list value)
    (s : State) (id : string) :
  received_has (processResults Math_log10 results received s).1 id
  = received_has received id || existsb (returnsId id) results.
Proof.
  revert received s. induction results as [| [[data |] env] rest IH]; intros received s.
  - cbn. now rewrite orb_false_r.
  - cbn [processResults existsb]. unfold returnsId at 1. cbn [fst snd].
    destruct (receivedId data) as [k |].
    + rewrite IH. unfold received_has. rewrite existsb_app. cbn [existsb].
      rewrite orb_false_r. now rewrite orb_assoc.
    + rewrite IH. reflexivity.
  - cbn [processResults existsb]. rewrite IH. reflexivity.
Qed.

Lemma processResults_other (results : list (option EewData * Env)) (received : list value)
    (s : State) (id : string) :
  existsb (shownAs id) results = false ->
  activeEewAlerts (processResults Math_log10 results received s).2 !! id
  = activeEewAlerts s !! id
  /\ activeWaveAnimations (processResults Math_log10 results received s).2 !! id
     = activeWaveAnimations s !! id.
Proof.
  revert received s. induction results as [| [[data |] env] rest IH]; intros received s H.
  - split; reflexivity.
  - cbn [existsb] in H. apply orb_false_elim in H. destruct H as [H1 H2].
    cbn [processResults]. unfold shownAs in H1. cbn [fst snd] in H1.
    destruct (receivedId data) as [k |]; [| now apply IH].
    destruct (IH (received ++ [k])%list (displayEew Math_log10 data env s) H2) as [-> ->].
    apply displayEew_other. intros ->. now rewrite String.eqb_refl in H1.
  - cbn [existsb] in H. cbn [processResults]. now apply IH.
Qed.

(** A synthesized identifier starts with [test-]. *)
Lemma prefix_test (synth : string) : String.prefix "test-" ("test-" ++ synth) = true.
Proof. destruct synth; reflexivity. Qed.

(** For an identifier that is not one synthesized for a test, a result the
    loop shows under it is a result that returns it. *)
Lemma shownAs_returnsId (id : string) (r : option EewData * Env) :
  String.prefix "test-" id = false -> shownAs id r = true -> returnsId id r = true.
Proof.
  intros Htest. unfold shownAs, returnsId, receivedId, eventId_of.
  destruct r as [[data |] env]; cbn [fst snd]; [| discriminate].
  destruct (id_or (EventID data) (ID data)) as [k |].
  - intros H. cbn [strict_eq_str]. exact H.
  - destruct (truthy (Serial data)); [| discriminate].
    intros H. apply String.eqb_eq in H. subst id. now rewrite prefix_test in Htest.
Qed.

Lemma existsb_shownAs_returnsId (id : string) (results : list (option EewData * Env)) :
  String.prefix "test-" id = false ->
  existsb (returnsId id) results = false -> existsb (shownAs id) results = false.
Proof.
  intros Htest. induction results as [| r rest IH]; [reflexivity |].
  cbn [existsb]. intros [H1 H2]%orb_false_elim. rewrite (IH H2), orb_false_r.
  destruct (shownAs id r) eqn:E; [| reflexivity].
  now rewrite (shownAs_returnsId id r Htest E) in H1.
Qed.

(** An alert that no result of the cycle is shown under, and which is a
    test alert or one whose identifier a feed returned, goes through the
    cycle unchanged. *)
Lemma pollCycle_on_alert (results : list (option EewData * Env)) (s : State) (id : string) :
  let s' := pollCycle Math_log10 results s in
  existsb (shownAs id) results = false ->
  String.prefix "test-" id = true \/ existsb (returnsId id) results = true ->
  activeEewAlerts s' !! id = activeEewAlerts s !! id
  /\ activeWaveAnimations s' !! id = activeWaveAnimations s !! id.
Proof.
  cbv zeta. intros Hshown Hcase.
  destruct (pollCycle_evicts Math_log10 results s id) as [_ Hkeep]. cbv zeta in Hkeep.
  pose proof (processResults_received results [] s id) as Hrec.
  cbn [received_has existsb orb] in Hrec.
  destruct (processResults_other results [] s id Hshown) as [Ea Ew].
  rewrite <- Ea, <- Ew. apply Hkeep.
  destruct Hcase as [Ht | Hr]; [now left | right; now rewrite Hrec].
Qed.

(** X13: what a polling cycle may do to the alert of an identifier, seen
    from the state the cycle starts in.  An alert that no feed's snapshot is
    shown under in the cycle, and whose identifier starts with [test-] or
    was returned by a feed, is left with its wave animation exactly as it
    was.  And an alert the registry held before the cycle and no longer
    holds after it is one a feed's snapshot was shown under (a cancel or
    final report removes it), or one that is not a test alert and whose
    identifier no feed returned.  (Both hold of a cycle that is cut short as
    well: they say what is kept, not what is removed.) *)
Theorem polling_cycle_removes_only_what_no_feed_returned
    (results : list (option EewData * Env)) (s : State) (id : string) :
  let s' := pollCycle Math_log10 results s in
  (existsb (shownAs id) results = false ->
   String.prefix "test-" id = true \/ existsb (returnsId id) results = true ->
   activeEewAlerts s' !! id = activeEewAlerts s !! id
   /\ activeWaveAnimations s' !! id = activeWaveAnimations s !! id)
  /\ (is_Some (activeEewAlerts s !! id) -> activeEewAlerts s' !! id = None ->
      existsb (shownAs id) results = true
      \/ (String.prefix "test-" id = false /\ existsb (returnsId id) results = false)).
Proof.
  pose proof (pollCycle_on_alert results s id) as H. cbv zeta in *.
  split; [exact H |].
  intros [e He] Hnone.
  destruct (existsb (shownAs id) results) eqn:Hshown; [now left | right].
  destruct (String.prefix "test-" id) eqn:Htest.
  { destruct (H eq_refl (or_introl eq_refl)) as [Ha _]. congruence. }
  destruct (existsb (returnsId id) results) eqn:Hret.
  { destruct (H eq_refl (or_intror eq_refl)) as [Ha _]. congruence. }
  split; reflexivity.
Qed.

Lemma failed_requests (outcomes : list (FetchOutcome EewData * Env)) (id : string) :
  (forall oe, oe ∈ outcomes -> fetchData oe.1 = None) ->
  existsb (returnsId id) (map (fun oe => (fetchData oe.1, oe.2)) outcomes) = false
  /\ existsb (shownAs id) (map (fun oe => (fetchData oe.1, oe.2)) outcomes) = false.
Proof.
  induction outcomes as [| oe rest IH]; intros H; [split; reflexivity |].
  cbn [map existsb]. unfold returnsId at 1, shownAs at 1. cbn [fst snd].
  rewrite (H oe) by left.
  apply IH. intros oe' Hin. apply H. now right.
Qed.

(** The loop over the results of a cycle in which every request failed
    shows nothing and records no identifier. *)
Lemma processResults_failed (outcomes : list (FetchOutcome EewData * Env))
    (received : list value) (s : State) :
  (forall oe, oe ∈ outcomes -> fetchData oe.1 = None) ->
  processResults Math_log10 (map (fun oe => (fetchData oe.1, oe.2)) outcomes) received s
  = (received, s).
Proof.
  induction outcomes as [| oe rest IH]; intros H; [reflexivity |].
  cbn [map processResults]. rewrite (H oe) by left.
  apply IH. intros oe' Hin. apply H. now right.
Qed.

(** The eviction of one entry appends no banner and draws no handle. *)
Lemma evict_container (received : list value) (s : State) (kv : string * AlertEntry) :
  container (evict received s kv) = container s /\ next (evict received s kv) = next s.
Proof.
  destruct kv as [id entry]. unfold evict.
  destruct (negb (received_has received id) && negb (String.prefix "test-" id));
    [| split; reflexivity].
  destruct (removeAlert_fields id entry s) as (_ & _ & _ & _ & _ & Hc & _ & Hn & _).
  destruct (activeWaveAnimations (removeAlert id entry s) !! id) as [anim |].
  - destruct (removeWaveAnimation_fields id anim (removeAlert id entry s))
      as (_ & _ & _ & _ & _ & Hc' & _ & Hn' & _).
    now rewrite Hc', Hn', Hc, Hn.
  - split; assumption.
Qed.

(** The eviction loop only removes: every alert and every wave animation is
    left as it was or removed, and no banner is appended. *)
Lemma fold_evict_shrinks (received : list value) (l : list (string * AlertEntry))
    (s : State) (id : string) :
  let s' := fold_left (evict received) l s in
  (activeEewAlerts s' !! id = activeEewAlerts s !! id \/ activeEewAlerts s' !! id = None)
  /\ (activeWaveAnimations s' !! id = activeWaveAnimations s !! id
      \/ activeWaveAnimations s' !! id = None)
  /\ container s' = container s /\ next s' = next s.
Proof.
  cbv zeta. revert s. induction l as [| [id0 e0] l IH]; intros s.
  - cbn [fold_left]. repeat split; now left.
  - cbn [fold_left].
    destruct (IH (evict received s (id0, e0))) as (Ha & Hw & Hc & Hn).
    destruct (evict_registries received s id0 e0) as [Ea Ew]. cbv zeta in Ea, Ew.
    destruct (evict_container received s (id0, e0)) as [Ec En].
    rewrite Ea in Ha. rewrite Ew in Hw. rewrite Ec in Hc. rewrite En in Hn.
    repeat split; [| | exact Hc | exact Hn].
    + destruct Ha as [Ha | Ha]; [| now right]. rewrite Ha.
      destruct (evictable received id0); [| now left].
      destruct (decide (id0 = id)) as [-> | Hne].
      * right. apply lookup_delete_eq.
      * left. now apply lookup_delete_ne.
    + destruct Hw as [Hw | Hw]; [| now right]. rewrite Hw.
      destruct (evictable received id0); [| now left].
      destruct (decide (id0 = id)) as [-> | Hne].
      * right. apply lookup_delete_eq.
      * left. now apply lookup_delete_ne.
Qed.

(** X14: a cycle in which every request fails (it is rejected, the response
    is not [ok], or the body does not parse) shows nothing new: every alert
    and every wave animation is left exactly as it was or is removed, no
    banner is appended to the container and no handle is drawn, and the
    test alerts and their wave animations are left as they were. *)
Theorem outage_only_removes (outcomes : list (FetchOutcome EewData * Env))
    (s : State) (id : string) :
  (forall oe, oe ∈ outcomes -> fetchData oe.1 = None) ->
  let s' := pollFeeds Math_log10 outcomes s in
  (activeEewAlerts s' !! id = activeEewAlerts s !! id \/ activeEewAlerts s' !! id = None)
  /\ (activeWaveAnimations s' !! id = activeWaveAnimations s !! id
      \/ activeWaveAnimations s' !! id = None)
  /\ container s' = container s /\ next s' = next s
  /\ (String.prefix "test-" id = true ->
      activeEewAlerts s' !! id = activeEewAlerts s !! id
      /\ activeWaveAnimations s' !! id = activeWaveAnimations s !! id).
Proof.
  intros Hfail s'. subst s'. unfold pollFeeds.
  destruct (failed_requests outcomes id Hfail) as [_ Hshown].
  pose proof (pollCycle_on_alert (map (fun oe => (fetchData oe.1, oe.2)) outcomes) s id Hshown)
    as Htest. cbv zeta in Htest.
  assert (Hs : pollCycle Math_log10 (map (fun oe => (fetchData oe.1, oe.2)) outcomes) s
               = fold_left (evict []) (map_to_list (activeEewAlerts s)) s).
  { unfold pollCycle. now rewrite (processResults_failed outcomes [] s Hfail). }
  destruct (fold_evict_shrinks [] (map_to_list (activeEewAlerts s)) s id)
    as (Ha & Hw & Hc & Hn). cbv zeta in Ha, Hw, Hc, Hn.
  rewrite <- Hs in Ha, Hw, Hc, Hn.
  repeat split; try assumption.
  - apply Htest. now left.
  - apply Htest. now left.
Qed.

End Cycle.

(** ** The test button *)

Section TestButton.

Variable Math_log10 : number -> number.

Lemma testEewData_valid (r0 r1 r2 r3 : number) (k : nat) (synth : string) :
  (k < 4)%nat ->
  exists lat lon magnitude,
    isCancel_of (testEewData r0 r1 r2 r3 k synth)
    || isFinal_of (testEewData r0 r1 r2 r3 k synth) = false
    /\ parseCoordinates (testEewData r0 r1 r2 r3 k synth) = (Some lat, Some lon, Some magnitude)
    /\ validCoordinates (Some lat) (Some lon) (Some magnitude) = true.
Proof.
  intros Hk.
  destruct k as [| [| [| [| k]]]]; [| | | | lia];
    do 3 eexists; repeat split; reflexivity.
Qed.

Lemma testEewData_eventId (r0 r1 r2 r3 : number) (k : nat) (synth uid : string) :
  eventId_of (testEewData r0 r1 r2 r3 k synth) uid = "test-" ++ synth.
Proof. reflexivity. Qed.

(** X15: whatever the random choices of a click on the test button (the
    location, the report numbers, the identifier), the snapshot it builds is a
    valid report, never a cancel or final one: an alert with a new banner and
    a wave animation are registered under the identifier [test-...], and, that
    identifier being exempt from eviction, they get through every polling
    cycle in which no feed returns a snapshot under that very identifier. *)
Theorem test_click_shows_an_exempt_alert (r0 r1 r2 r3 : number) (k : nat) (synth : string)
    (env : Env) (s : State) (results : list (option EewData * Env)) :
  (k < 4)%nat ->
  activeEewAlerts s !! ("test-" ++ synth) = None ->
  existsb (shownAs ("test-" ++ synth)) results = false ->
  let id := "test-" ++ synth in
  let s' := clickTest Math_log10 r0 r1 r2 r3 k synth env s in
  let s'' := pollCycle Math_log10 results s' in
  container s' = (container s ++ [next s])%list
  /\ activeEewAlerts s' !! id = Some {| element := next s; timeoutId := S (next s) |}
  /\ activeWaveAnimations s' !! id = Some (new_animation (S (S (next s))) (now env))
  /\ activeEewAlerts s'' !! id = Some {| element := next s; timeoutId := S (next s) |}
  /\ activeWaveAnimations s'' !! id = Some (new_animation (S (S (next s))) (now env)).
Proof.
  intros Hk Hnew Hshown id s' s''.
  destruct (testEewData_valid r0 r1 r2 r3 k synth Hk)
    as (lat & lon & magnitude & Hflags & Hparse & Hvalid).
  destruct (displayEew_valid_state Math_log10 (testEewData r0 r1 r2 r3 k synth) env s
              lat lon magnitude Hflags Hparse Hvalid) as (_ & Hc & Ha & Hw & _).
  cbv zeta in Hc, Ha, Hw. rewrite testEewData_eventId in Ha, Hw. fold id in Ha, Hw, Hnew.
  rewrite Hnew in Ha.
  fold (clickTest Math_log10 r0 r1 r2 r3 k synth env s) in Hc, Ha, Hw. fold s' in Hc, Ha, Hw.
  assert (Ea : activeEewAlerts s' !! id = Some {| element := next s; timeoutId := S (next s) |})
    by (rewrite Ha; apply lookup_insert_eq).
  assert (Ew : activeWaveAnimations s' !! id = Some (new_animation (S (S (next s))) (now env)))
    by (rewrite Hw; apply lookup_insert_eq).
  destruct (pollCycle_on_alert Math_log10 results s' id Hshown
              (or_introl (prefix_test synth))) as [Ea' Ew'].
  fold s'' in Ea', Ew'. rewrite Ea', Ew'.
  repeat split; assumption.
Qed.

End TestButton.

(** ** The callbacks, field by field *)

Lemma runFrame_state (f c : nat) (t : number) (s : State) (v : WaveClosure) :
  frames s !! f = Some c ->
  closures s !! c = Some v ->
  let s' := runFrame f t s in
  let n := next s in
  let v1 := advance v t in
  let v2 := match fitViewTimer v with
            | None => set_fitViewTimer (Some n) v1
            | Some _ => v1
            end in
  let timers1 := match fitViewTimer v with
                 | None => <[n := fitViewTimeout c]> (timers s)
                 | Some _ => timers s
                 end in
  let n1 := match fitViewTimer v with
            | None => S n
            | Some _ => n
            end in
  closures s' = <[c := v2]> (closures s)
  /\ activeEewAlerts s' = activeEewAlerts s
  /\ domElements s' = domElements s /\ container s' = container s
  /\ if stillSpreading v1 then
       frames s' = <[n1 := c]> (delete f (frames s))
       /\ activeWaveAnimations s' = alter (set_frame n1) (eventId v) (activeWaveAnimations s)
       /\ timers s' = timers1 /\ onMap s' = onMap s /\ next s' = S n1
     else
       frames s' = delete f (frames s)
       /\ activeWaveAnimations s' = delete (eventId v) (activeWaveAnimations s)
       /\ timers s' = match fitViewTimer v2 with
                      | Some tm => delete tm timers1
                      | None => timers1
                      end
       /\ onMap s' = onMap s ∖ list_to_set [epicenter v; pWave v; sWave v]
       /\ next s' = n1.
Proof.
  intros Hf Hc. cbv zeta. unfold runFrame. rewrite Hf.
  rewrite (animateWaves_unfold c t _ v) by exact Hc. cbv zeta.
  unfold scheduleFitView. cbn [advance fitViewTimer].
  destruct (fitViewTimer v) as [tm |] eqn:Etm.
  - cbn [fst snd]. destruct (stillSpreading (advance v t)) eqn:Esp.
    + repeat split.
    + unfold finishWaves. cbn [advance fitViewTimer]. rewrite Etm. repeat split.
  - cbn [setTimeout fresh fst snd].
    change (stillSpreading (set_fitViewTimer ?x (advance v t)))
      with (stillSpreading (advance v t)).
    destruct (stillSpreading (advance v t)) eqn:Esp; [repeat split |].
    unfold finishWaves. cbn [set_fitViewTimer fitViewTimer]. repeat split.
Qed.

Lemma fireTimer_state (getBounds : MapObject -> bool) (t : nat) (s : State) (tm : Timer) :
  timers s !! t = Some tm ->
  let s' := fireTimer getBounds t s in
  timers s' = delete t (timers s)
  /\ activeWaveAnimations s' = activeWaveAnimations s
  /\ frames s' = frames s /\ onMap s' = onMap s /\ container s' = container s
  /\ next s' = next s
  /\ match callback tm with
     | ExpireAlert id el =>
         activeEewAlerts s' = delete id (activeEewAlerts s)
         /\ domElements s' = alter hiddenBanner el (domElements s)
         /\ closures s' = closures s
     | FitView c =>
         activeEewAlerts s' = activeEewAlerts s
         /\ domElements s' = domElements s
         /\ closures s' = match closures s !! c with
                          | Some v => <[c := set_fitViewTimer None v]> (closures s)
                          | None => closures s
                          end
     end.
Proof.
  intros Ht. cbv zeta. unfold fireTimer. rewrite Ht.
  destruct (callback tm) as [id el | c].
  - repeat split.
    change (domElements (upd_alerts (delete id) ?x)) with (domElements x).
    now rewrite hide_and_listen.
  - cbn [closures upd_timers].
    destruct (closures s !! c) as [v |]; [| repeat split].
    match goal with
    | |- context [if ?b then _ else _] => destruct b
    end; repeat split.
Qed.

Lemma transitionEnd_state (h : nat) (s : State) :
  let s' := transitionEnd h s in
  activeEewAlerts s' = activeEewAlerts s
  /\ activeWaveAnimations s' = activeWaveAnimations s
  /\ timers s' = timers s /\ frames s' = frames s /\ closures s' = closures s
  /\ onMap s' = onMap s /\ next s' = next s
  /\ (forall h', h' <> h -> domElements s' !! h' = domElements s !! h')
  /\ (forall h', h' <> h -> h' ∈ container s -> h' ∈ container s')
  /\ (forall e, domElements s !! h = Some e -> transitionend_listeners e = 0 -> s' = s).
Proof.
  cbv zeta. unfold transitionEnd.
  destruct (domElements s !! h) as [e |] eqn:E; [| repeat split; congruence].
  destruct (0 <? transitionend_listeners e)%nat eqn:El.
  - repeat split.
    + intros h' Hne. cbn [domElements upd_elements upd_container].
      now rewrite lookup_alter_ne by congruence.
    + intros h' Hne Hin. cbn [container upd_elements upd_container].
      apply list_elem_of_In. apply filter_In. split; [now apply list_elem_of_In |].
      apply negb_true_iff. now apply Nat.eqb_neq.
    + intros e' He' H0. injection He' as <-. rewrite H0 in El. discriminate.
  - repeat split; congruence.
Qed.

(** ** What every reachable state keeps true *)

Lemma lookup_delete_timers (F : gmap nat Timer -> gmap nat Timer) (m : gmap nat Timer)
    (t : nat) (x : Timer) :
  (F = (fun m => m) \/ exists tm, F = delete tm) ->
  F m !! t = Some x -> m !! t = Some x.
Proof.
  intros [-> | [tm ->]] H; [exact H |].
  apply lookup_delete_Some in H. tauto.
Qed.

Lemma removeBoth_timers (id : string) (s : State) (t : nat) (x : Timer) :
  timers (removeBoth id s) !! t = Some x ->
  timers s !! t = Some x
  /\ (forall entry, activeEewAlerts s !! id = Some entry -> t <> timeoutId entry).
Proof.
  destruct (removeBoth_state id s) as (_ & _ & Ht & _). cbv zeta in Ht. rewrite Ht. clear Ht.
  intros H. apply lookup_delete_timers in H.
  2:{ destruct (activeWaveAnimations s !! id) as [a |]; [| now left].
      destruct (wa_fitViewTimer a) as [tm |]; [right; eauto | now left]. }
  destruct (activeEewAlerts s !! id) as [entry |].
  - apply lookup_delete_Some in H. destruct H as [Hne H]. split; [exact H |].
    intros entry' [= <-]. congruence.
  - split; [exact H | discriminate].
Qed.

Lemma removeBoth_frames (id : string) (s : State) (f c : nat) :
  frames (removeBoth id s) !! f = Some c ->
  frames s !! f = Some c
  /\ (forall a, activeWaveAnimations s !! id = Some a -> f <> animationFrameId a).
Proof.
  destruct (removeBoth_state id s) as (_ & _ & _ & Hf & _). cbv zeta in Hf. rewrite Hf. clear Hf.
  destruct (activeWaveAnimations s !! id) as [a |].
  - intros [Hne H]%lookup_delete_Some. split; [exact H |]. intros a' [= <-]. congruence.
  - intros H. split; [exact H | discriminate].
Qed.

Lemma removeBoth_onMap (id : string) (s : State) (h : nat) :
  h ∈ onMap (removeBoth id s) ->
  h ∈ onMap s
  /\ (forall a, activeWaveAnimations s !! id = Some a ->
      h <> wa_epicenter a /\ h <> wa_pWave a /\ h <> wa_sWave a).
Proof.
  destruct (removeBoth_state id s) as (_ & _ & _ & _ & Hm & _). cbv zeta in Hm. rewrite Hm.
  clear Hm.
  destruct (activeWaveAnimations s !! id) as [a |].
  - intros [Hin Hn]%elem_of_difference. split; [exact Hin |]. intros a' [= <-].
    repeat split; intros ->; apply Hn; set_solver.
  - intros H. split; [exact H | discriminate].
Qed.

Lemma removeBoth_consistent (id : string) (s : State) :
  consistent s -> consistent (removeBoth id s).
Proof.
  intros [[Hfc Hfe] Hexp Hfit Hfr Hov Hban Hdis].
  destruct (removeBoth_state id s)
    as (Ha & Hw & _ & _ & _ & _ & _ & Hd & Hc & Hcl & Hn & _).
  cbv zeta in *.
  constructor.
  - split.
    + intros c v. rewrite Hcl, Hn. apply Hfc.
    + intros id0 e. rewrite Ha, Hn. intros [_ H]%lookup_delete_Some. eapply Hfe, H.
  - intros t id0 el H. apply fmap_Some in H. destruct H as (x & Hx & Hcb).
    apply removeBoth_timers in Hx. destruct Hx as [Hx Hne].
    assert (Hal : activeEewAlerts s !! id0 = Some {| element := el; timeoutId := t |}).
    { apply Hexp. rewrite Hx. cbn. now rewrite Hcb. }
    rewrite Ha. rewrite lookup_delete_ne; [exact Hal |].
    intros ->. now apply (Hne _ Hal).
  - intros t c H. apply fmap_Some in H. destruct H as (x & Hx & Hcb).
    apply removeBoth_timers in Hx. destruct Hx as [Hx _].
    rewrite Hcl. apply Hfit. rewrite Hx. cbn. now rewrite Hcb.
  - intros f c H. apply removeBoth_frames in H. destruct H as [H Hne].
    destruct (Hfr f c H) as (v & a & Hv & Hwa & Hfa & Hov3).
    exists v, a. rewrite Hcl, Hw. repeat split; try assumption; try apply Hov3.
    rewrite lookup_delete_ne; [exact Hwa |].
    intros E. rewrite <- E in Hwa. now apply (Hne _ Hwa).
  - intros h H. apply removeBoth_onMap in H. destruct H as [H Hne].
    destruct (Hov h H) as (id0 & a & Hwa & Hh).
    exists id0, a. split; [| exact Hh]. rewrite Hw.
    rewrite lookup_delete_ne; [exact Hwa |].
    intros E. rewrite <- E in Hwa. destruct (Hne _ Hwa) as (? & ? & ?).
    destruct Hh as [? | [? | ?]]; contradiction.
  - intros id0 e. rewrite Ha. intros [Hne H]%lookup_delete_Some.
    destruct (Hban id0 e H) as (Hin & el & Hel & Hh & Hl).
    rewrite Hc. split; [exact Hin |]. exists el. rewrite Hd.
    repeat split; try assumption.
    destruct (activeEewAlerts s !! id) as [entry |] eqn:E; [| exact Hel].
    rewrite lookup_alter_ne; [exact Hel |].
    intros El. apply Hne. now apply (Hdis id id0 entry e).
  - intros id1 id2 e1 e2. rewrite Ha.
    intros [_ H1]%lookup_delete_Some [_ H2]%lookup_delete_Some. now apply Hdis.
Qed.

Section Preservation.

Variable Math_log10 : number -> number.
Variable getBounds : MapObject -> bool.

Lemma valid_report_consistent (data : EewData) (env : Env) (s : State)
    (lat lon magnitude : number) :
  isCancel_of data || isFinal_of data = false ->
  parseCoordinates data = (Some lat, Some lon, Some magnitude) ->
  validCoordinates (Some lat) (Some lon) (Some magnitude) = true ->
  consistent s -> consistent (displayEew Math_log10 data env s).
Proof.
  intros Hflags Hparse Hvalid [[Hfc Hfe] Hexp Hfit Hfr Hov Hban Hdis].
  destruct (displayEew_valid_state Math_log10 data env s lat lon magnitude Hflags Hparse Hvalid)
    as (Hn & Hc & Ha & Hw & Hcl & Hf & Ht & Hm & _).
  pose proof (displayEew_valid_elements Math_log10 data env s lat lon magnitude
                Hflags Hparse Hvalid) as Hd.
  cbv zeta in *.
  set (id := eventId_of data (uid env)) in *.
  set (n := next s) in *.
  set (s' := displayEew Math_log10 data env s) in *.
  set (el := match activeEewAlerts s !! id with
             | Some existing => element existing
             | None => n
             end) in *.
  assert (Hel : el <= n).
  { subst el. destruct (activeEewAlerts s !! id) as [existing |] eqn:E; [| lia].
    apply Nat.lt_le_incl. eapply Hfe, E. }
  assert (Htimers : forall t x, timers s' !! t = Some x ->
            (t = S n /\ x = expiry id el)
            \/ (t <> S n /\ timers s !! t = Some x
                /\ forall existing, activeEewAlerts s !! id = Some existing ->
                                    t <> timeoutId existing)).
  { intros t x H. rewrite Ht in H. apply lookup_delete_timers in H.
    2:{ destruct (activeWaveAnimations s !! id) as [a |]; [| now left].
        destruct (wa_fitViewTimer a) as [tm |]; [right; eauto | now left]. }
    apply lookup_insert_Some in H. destruct H as [[<- <-] | [Hne H]]; [now left |].
    right. split; [congruence |].
    destruct (activeEewAlerts s !! id) as [existing |].
    - apply lookup_delete_Some in H. destruct H as [Hne' H]. split; [exact H |].
      intros ? [= <-]. congruence.
    - split; [exact H | discriminate]. }
  assert (Hframes : forall f c, frames s' !! f = Some c ->
            (f = S (S (S (S (S (S n))))) /\ c = S (S (S (S (S n)))))
            \/ (frames s !! f = Some c
                /\ forall a, activeWaveAnimations s !! id = Some a ->
                             f <> animationFrameId a)).
  { intros f c H. rewrite Hf in H.
    apply lookup_insert_Some in H. destruct H as [[<- <-] | [Hne H]]; [now left |].
    right. destruct (activeWaveAnimations s !! id) as [a |].
    - apply lookup_delete_Some in H. destruct H as [Hne' H]. split; [exact H |].
      intros ? [= <-]. congruence.
    - split; [exact H | discriminate]. }
  assert (HonMap : forall h, h ∈ onMap s' ->
            (h = S (S n) \/ h = S (S (S n)) \/ h = S (S (S (S n))))
            \/ (h ∈ onMap s
                /\ forall a, activeWaveAnimations s !! id = Some a ->
                             h <> wa_epicenter a /\ h <> wa_pWave a /\ h <> wa_sWave a)).
  { intros h H. rewrite Hm in H.
    apply elem_of_union in H. destruct H as [H | H]; [left; set_solver |].
    apply elem_of_union in H. destruct H as [H | H]; [left; set_solver |].
    apply elem_of_union in H. destruct H as [H | H]; [left; set_solver |].
    right. destruct (activeWaveAnimations s !! id) as [a |].
    - apply elem_of_difference in H. destruct H as [Hin Hnot]. split; [exact Hin |].
      intros ? [= <-]. repeat split; intros ->; apply Hnot; set_solver.
    - split; [exact H | discriminate]. }
  constructor.
  - split.
    + intros c v. rewrite Hcl, Hn. intros [[<- _] | [_ H]]%lookup_insert_Some; [lia |].
      apply Hfc in H. lia.
    + intros id0 e. rewrite Ha, Hn. intros [[_ <-] | [_ H]]%lookup_insert_Some.
      * cbn. lia.
      * apply Hfe in H. lia.
  - intros t id0 el0 H. apply fmap_Some in H. destruct H as (x & Hx & Hcb).
    rewrite Ha.
    destruct (Htimers t x Hx) as [[-> ->] | (Hne & Hx' & Hold)].
    + cbn in Hcb. injection Hcb as -> ->. apply lookup_insert_eq.
    + assert (Hal : activeEewAlerts s !! id0 = Some {| element := el0; timeoutId := t |}).
      { apply Hexp. rewrite Hx'. cbn. now rewrite Hcb. }
      rewrite lookup_insert_ne; [exact Hal |].
      intros ->. now apply (Hold _ Hal).
  - intros t c H. apply fmap_Some in H. destruct H as (x & Hx & Hcb).
    destruct (Htimers t x Hx) as [[-> ->] | (Hne & Hx' & _)]; [discriminate Hcb |].
    destruct (Hfit t c) as (v & Hv & Htv); [rewrite Hx'; cbn; now rewrite Hcb |].
    exists v. split; [| exact Htv]. rewrite Hcl.
    rewrite lookup_insert_ne; [exact Hv |]. apply Hfc in Hv. fold n in Hv. lia.
  - intros f c H.
    destruct (Hframes f c H) as [[-> ->] | [H' Hold]].
    + exists (new_closure id (S (S n)) (S (S (S n))) (S (S (S (S n)))) (now env)),
        (new_animation (S (S n)) (now env)).
      rewrite Hcl, Hw. cbn [eventId new_closure].
      repeat split; apply lookup_insert_eq.
    + destruct (Hfr f c H') as (v & a & Hv & Hwa & Hfa & Hov3).
      exists v, a. rewrite Hcl, Hw. repeat split; try assumption; try apply Hov3.
      * rewrite lookup_insert_ne; [exact Hv |]. apply Hfc in Hv. fold n in Hv. lia.
      * rewrite lookup_insert_ne; [exact Hwa |].
        intros E. rewrite <- E in Hwa. now apply (Hold _ Hwa).
  - intros h H.
    destruct (HonMap h H) as [Hnew | [H' Hold]].
    + exists id, (new_animation (S (S n)) (now env)). rewrite Hw.
      split; [apply lookup_insert_eq | exact Hnew].
    + destruct (Hov h H') as (id0 & a & Hwa & Hh).
      exists id0, a. split; [| exact Hh]. rewrite Hw.
      rewrite lookup_insert_ne; [exact Hwa |].
      intros E. rewrite E in Hold. destruct (Hold _ Hwa) as (? & ? & ?).
      destruct Hh as [? | [? | ?]]; contradiction.
  - intros id0 e. rewrite Ha, Hc.
    intros [[<- <-] | [Hne H]]%lookup_insert_Some.
    + cbn [element]. subst el.
      destruct (activeEewAlerts s !! id) as [existing |] eqn:E.
      * destruct (Hban id existing E) as (Hin & el0 & Hel0 & Hh & Hl).
        destruct Hd as (_ & _ & Hsame).
        assert (Hfresh : element existing <> n) by (apply Hfe in E; fold n in E; lia).
        split; [apply elem_of_app; now left |].
        eexists. split; [apply (Hsame el0 Hel0 Hfresh) |]. split; [reflexivity | exact Hl].
      * split; [apply elem_of_app; right; set_solver |].
        eexists. rewrite Hd, lookup_insert_eq. split; [reflexivity |]. split; reflexivity.
    + destruct (Hban id0 e H) as (Hin & el0 & Hel0 & Hh & Hl).
      split; [apply elem_of_app; now left |].
      exists el0. repeat split; try assumption.
      assert (Hfresh : element e <> n) by (apply Hfe in H; fold n in H; lia).
      destruct (activeEewAlerts s !! id) as [existing |] eqn:E.
      * destruct Hd as (Hoth & _). rewrite Hoth; [exact Hel0 | | exact Hfresh].
        intros El. apply Hne. now apply (Hdis id id0 existing e).
      * rewrite Hd, lookup_insert_ne by congruence. exact Hel0.
  - intros id1 id2 e1 e2. rewrite Ha.
    intros [[<- <-] | [Hne1 H1]]%lookup_insert_Some
           [[<- <-] | [Hne2 H2]]%lookup_insert_Some; try reflexivity; cbn [element]; subst el.
    + destruct (activeEewAlerts s !! id) as [existing |] eqn:E.
      * intros El. now apply (Hdis id id2 existing e2).
      * intros El. apply Hfe in H2. fold n in H2. lia.
    + destruct (activeEewAlerts s !! id) as [existing |] eqn:E.
      * intros El. symmetry. now apply (Hdis id id1 existing e1).
      * intros El. apply Hfe in H1. fold n in H1. lia.
    + now apply Hdis.
Qed.

Lemma displayEew_consistent (data : EewData) (env : Env) (s : State) :
  consistent s -> consistent (displayEew Math_log10 data env s).
Proof.
  intros H.
  destruct (displayEew_cases Math_log10 data env s)
    as [-> | [[_ ->] | (lat & lon & magnitude & Hflags & Hparse & Hvalid)]].
  - exact H.
  - now apply removeBoth_consistent.
  - now apply (valid_report_consistent data env s lat lon magnitude).
Qed.

Lemma runFrame_consistent (f : nat) (t : number) (s : State) :
  consistent s -> consistent (runFrame f t s).
Proof.
  intros Hs. destruct (frames s !! f) as [c |] eqn:Hf;
    [| unfold runFrame; rewrite Hf; exact Hs].
  destruct Hs as [[Hfc Hfe] Hexp Hfit Hfr Hov Hban Hdis].
  destruct (Hfr f c Hf) as (v & a & Hv & Hwa & Hfa & Hov1 & Hov2 & Hov3).
  destruct (runFrame_state f c t s v Hf Hv) as (Hcl & Ha & Hd & Hc & Hrest).
  cbv zeta in *.
  set (s' := runFrame f t s) in *.
  set (n := next s) in *.
  set (v2 := match fitViewTimer v with
             | Some _ => advance v t
             | None => set_fitViewTimer (Some n) (advance v t)
             end) in *.
  set (timers1 := match fitViewTimer v with
                  | Some _ => timers s
                  | None => <[n := fitViewTimeout c]> (timers s)
                  end) in *.
  set (n1 := match fitViewTimer v with
             | Some _ => n
             | None => S n
             end) in *.
  assert (Hv2 : eventId v2 = eventId v /\ epicenter v2 = epicenter v
                /\ pWave v2 = pWave v /\ sWave v2 = sWave v).
  { subst v2. destruct (fitViewTimer v); repeat split. }
  assert (Hn1 : n <= n1) by (subst n1; destruct (fitViewTimer v); lia).
  assert (Hcn : c < n) by (apply Hfc in Hv; exact Hv).
  assert (Hnext : n1 <= next s').
  { destruct (stillSpreading (advance v t));
      [destruct Hrest as (_ & _ & _ & _ & ->) | destruct Hrest as (_ & _ & _ & _ & ->)]; lia. }
  assert (Htimers : forall t0 x, timers s' !! t0 = Some x -> timers1 !! t0 = Some x).
  { intros t0 x. destruct (stillSpreading (advance v t)).
    - destruct Hrest as (_ & _ & -> & _). tauto.
    - destruct Hrest as (_ & _ & -> & _).
      destruct (fitViewTimer v2); [| tauto]. intros H%lookup_delete_Some. tauto. }
  assert (Hfit1 : forall t0 c0, callback <$> timers1 !! t0 = Some (FitView c0) ->
                    exists v0, closures s' !! c0 = Some v0 /\ fitViewTimer v0 = Some t0).
  { intros t0 c0 H. rewrite Hcl.
    assert (Hold : callback <$> timers s !! t0 = Some (FitView c0) ->
                   exists v0, <[c := v2]> (closures s) !! c0 = Some v0
                              /\ fitViewTimer v0 = Some t0).
    { intros H0. destruct (Hfit t0 c0 H0) as (v0 & Hv0 & Ht0).
      destruct (decide (c0 = c)) as [-> | Hne].
      - rewrite Hv in Hv0. injection Hv0 as <-.
        exists v2. split; [apply lookup_insert_eq |].
        subst v2. rewrite Ht0. exact Ht0.
      - exists v0. split; [now rewrite lookup_insert_ne by congruence | exact Ht0]. }
    subst timers1 v2. destruct (fitViewTimer v) as [tm |] eqn:Etm; [now apply Hold |].
    destruct (decide (t0 = n)) as [-> | Hne].
    - rewrite lookup_insert_eq in H. cbn in H. injection H as <-.
      eexists. split; [apply lookup_insert_eq | reflexivity].
    - rewrite lookup_insert_ne in H by congruence. now apply Hold. }
  assert (Hexp1 : forall t0 id0 el0, callback <$> timers1 !! t0 = Some (ExpireAlert id0 el0) ->
                    callback <$> timers s !! t0 = Some (ExpireAlert id0 el0)).
  { intros t0 id0 el0. subst timers1. destruct (fitViewTimer v); [tauto |].
    destruct (decide (t0 = n)) as [-> | Hne].
    - rewrite lookup_insert_eq. discriminate.
    - now rewrite lookup_insert_ne by congruence. }
  assert (Hother : forall f2 c2, f2 <> f -> frames s !! f2 = Some c2 ->
                     exists v0 a0,
                       closures s !! c2 = Some v0
                       /\ activeWaveAnimations s !! eventId v0 = Some a0
                       /\ animationFrameId a0 = f2
                       /\ wa_epicenter a0 = epicenter v0 /\ wa_pWave a0 = pWave v0
                       /\ wa_sWave a0 = sWave v0
                       /\ c2 <> c /\ eventId v0 <> eventId v).
  { intros f2 c2 Hne H2.
    destruct (Hfr f2 c2 H2) as (v0 & a0 & Hv0 & Hwa0 & Hfa0 & Hov0).
    exists v0, a0. repeat split; try assumption; try apply Hov0.
    - intros ->. rewrite Hv in Hv0. injection Hv0 as <-. congruence.
    - intros E. rewrite E in Hwa0. congruence. }
  constructor.
  - split.
    + intros c0 v0. rewrite Hcl. intros [[<- _] | [_ H]]%lookup_insert_Some; [lia |].
      apply Hfc in H. fold n in H. lia.
    + intros id0 e. rewrite Ha. intros H. apply Hfe in H. fold n in H. lia.
  - intros t0 id0 el0 H. apply fmap_Some in H. destruct H as (x & Hx & Hcb).
    rewrite Ha. apply Hexp, Hexp1. rewrite (Htimers _ _ Hx). cbn. now rewrite Hcb.
  - intros t0 c0 H. apply fmap_Some in H. destruct H as (x & Hx & Hcb).
    apply Hfit1. rewrite (Htimers _ _ Hx). cbn. now rewrite Hcb.
  - intros f2 c2 H2. rewrite Hcl.
    destruct (stillSpreading (advance v t)).
    + destruct Hrest as (Hfr' & Hw' & _). rewrite Hfr' in H2. rewrite Hw'.
      apply lookup_insert_Some in H2. destruct H2 as [[<- <-] | [Hne H2]].
      * exists v2, (set_frame n1 a). destruct Hv2 as (-> & -> & -> & ->).
        split; [apply lookup_insert_eq |].
        split; [rewrite lookup_alter_eq, Hwa; reflexivity |].
        repeat split; assumption.
      * apply lookup_delete_Some in H2. destruct H2 as [Hnef H2].
        destruct (Hother f2 c2 ltac:(congruence) H2)
          as (v0 & a0 & Hv0 & Hwa0 & Hfa0 & Ho1 & Ho2 & Ho3 & Hc2 & Hid).
        exists v0, a0.
        split; [now rewrite lookup_insert_ne by congruence |].
        split; [now rewrite lookup_alter_ne by congruence |].
        repeat split; assumption.
    + destruct Hrest as (Hfr' & Hw' & _). rewrite Hfr' in H2. rewrite Hw'.
      apply lookup_delete_Some in H2. destruct H2 as [Hnef H2].
      destruct (Hother f2 c2 ltac:(congruence) H2)
        as (v0 & a0 & Hv0 & Hwa0 & Hfa0 & Ho1 & Ho2 & Ho3 & Hc2 & Hid).
      exists v0, a0.
      split; [now rewrite lookup_insert_ne by congruence |].
      split; [now rewrite lookup_delete_ne by congruence |].
      repeat split; assumption.
  - intros h H.
    destruct (stillSpreading (advance v t)).
    + destruct Hrest as (_ & Hw' & _ & Hm' & _). rewrite Hm' in H. rewrite Hw'.
      destruct (Hov h H) as (id0 & a0 & Hwa0 & Hh).
      destruct (decide (id0 = eventId v)) as [-> | Hne].
      * exists (eventId v), (set_frame n1 a0).
        split; [rewrite lookup_alter_eq, Hwa0; reflexivity | exact Hh].
      * exists id0, a0. split; [now rewrite lookup_alter_ne by congruence | exact Hh].
    + destruct Hrest as (_ & Hw' & _ & Hm' & _). rewrite Hm' in H. rewrite Hw'.
      apply elem_of_difference in H. destruct H as [H Hnot].
      destruct (Hov h H) as (id0 & a0 & Hwa0 & Hh).
      exists id0, a0. split; [| exact Hh].
      rewrite lookup_delete_ne; [exact Hwa0 |].
      intros E. rewrite <- E in Hwa0. rewrite Hwa in Hwa0. injection Hwa0 as <-.
      apply Hnot. rewrite <- Hov1, <- Hov2, <- Hov3.
      destruct Hh as [-> | [-> | ->]]; set_solver.
  - intros id0 e. rewrite Ha, Hc, Hd. apply Hban.
  - intros id1 id2 e1 e2. rewrite Ha. apply Hdis.
Qed.

Lemma fireTimer_consistent (t : nat) (s : State) :
  consistent s -> consistent (fireTimer getBounds t s).
Proof.
  intros Hs. destruct (timers s !! t) as [tm |] eqn:Htm;
    [| unfold fireTimer; rewrite Htm; exact Hs].
  destruct Hs as [[Hfc Hfe] Hexp Hfit Hfr Hov Hban Hdis].
  destruct (fireTimer_state getBounds t s tm Htm) as (Ht & Hw & Hf & Hm & Hc & Hn & Hcb).
  cbv zeta in *.
  set (s' := fireTimer getBounds t s) in *.
  assert (Htimers : forall t0 x, timers s' !! t0 = Some x -> t0 <> t /\ timers s !! t0 = Some x).
  { intros t0 x. rewrite Ht. now intros H%lookup_delete_Some. }
  destruct (callback tm) as [id el | c] eqn:Ecb.
  - destruct Hcb as (Ha & Hd & Hcl).
    assert (Hal : activeEewAlerts s !! id = Some {| element := el; timeoutId := t |}).
    { apply Hexp. rewrite Htm. cbn. now rewrite Ecb. }
    constructor.
    + split.
      * intros c v. rewrite Hcl, Hn. apply Hfc.
      * intros id0 e. rewrite Ha, Hn. intros [_ H]%lookup_delete_Some. eapply Hfe, H.
    + intros t0 id0 el0 H. apply fmap_Some in H. destruct H as (x & Hx & Hcb).
      apply Htimers in Hx. destruct Hx as [Hne Hx]. rewrite Ha.
      assert (Hal0 : activeEewAlerts s !! id0 = Some {| element := el0; timeoutId := t0 |}).
      { apply Hexp. rewrite Hx. cbn. now rewrite Hcb. }
      rewrite lookup_delete_ne; [exact Hal0 |].
      intros ->. rewrite Hal in Hal0. injection Hal0 as _ E. congruence.
    + intros t0 c H. apply fmap_Some in H. destruct H as (x & Hx & Hcb).
      apply Htimers in Hx. destruct Hx as [_ Hx].
      rewrite Hcl. apply Hfit. rewrite Hx. cbn. now rewrite Hcb.
    + intros f c. rewrite Hf, Hcl, Hw. apply Hfr.
    + intros h. rewrite Hm, Hw. apply Hov.
    + intros id0 e. rewrite Ha. intros [Hne H]%lookup_delete_Some.
      destruct (Hban id0 e H) as (Hin & el0 & Hel0 & Hh & Hl).
      rewrite Hc. split; [exact Hin |]. exists el0. rewrite Hd.
      repeat split; try assumption.
      rewrite lookup_alter_ne; [exact Hel0 |].
      intros El. apply Hne. now apply (Hdis id id0 _ e Hal H).
    + intros id1 id2 e1 e2. rewrite Ha.
      intros [_ H1]%lookup_delete_Some [_ H2]%lookup_delete_Some. now apply Hdis.
  - destruct Hcb as (Ha & Hd & Hcl).
    destruct (Hfit t c) as (v & Hv & Htv); [rewrite Htm; cbn; now rewrite Ecb |].
    rewrite Hv in Hcl.
    constructor.
    + split.
      * intros c0 v0. rewrite Hcl, Hn.
        intros [[<- _] | [_ H]]%lookup_insert_Some; [eapply Hfc, Hv | eapply Hfc, H].
      * intros id0 e. rewrite Ha, Hn. apply Hfe.
    + intros t0 id0 el0 H. apply fmap_Some in H. destruct H as (x & Hx & Hcb).
      apply Htimers in Hx. destruct Hx as [_ Hx].
      rewrite Ha. apply Hexp. rewrite Hx. cbn. now rewrite Hcb.
    + intros t0 c0 H. apply fmap_Some in H. destruct H as (x & Hx & Hcb).
      apply Htimers in Hx. destruct Hx as [Hne Hx].
      destruct (Hfit t0 c0) as (v0 & Hv0 & Htv0); [rewrite Hx; cbn; now rewrite Hcb |].
      exists v0. split; [| exact Htv0]. rewrite Hcl.
      rewrite lookup_insert_ne; [exact Hv0 |].
      intros ->. rewrite Hv in Hv0. injection Hv0 as <-. congruence.
    + intros f c0 H. rewrite Hf in H.
      destruct (Hfr f c0 H) as (v0 & a0 & Hv0 & Hrest).
      rewrite Hcl, Hw.
      destruct (decide (c0 = c)) as [-> | Hne].
      * rewrite Hv in Hv0. injection Hv0 as <-.
        exists (set_fitViewTimer None v), a0.
        split; [apply lookup_insert_eq | exact Hrest].
      * exists v0, a0. split; [now rewrite lookup_insert_ne by congruence | exact Hrest].
    + intros h. rewrite Hm, Hw. apply Hov.
    + intros id0 e. rewrite Ha, Hc, Hd. apply Hban.
    + intros id1 id2 e1 e2. rewrite Ha. apply Hdis.
Qed.

Lemma transitionEnd_consistent (h : nat) (s : State) :
  consistent s -> consistent (transitionEnd h s).
Proof.
  intros Hs.
  destruct (transitionEnd_state h s)
    as (Ha & Hw & Ht & Hf & Hcl & Hm & Hn & Hd & Hc & Hid).
  cbv zeta in *.
  destruct (domElements s !! h) as [e |] eqn:E.
  2:{ unfold transitionEnd. rewrite E. exact Hs. }
  destruct (Nat.eq_dec (transitionend_listeners e) 0) as [H0 | H0].
  { rewrite (Hid e eq_refl H0). exact Hs. }
  destruct Hs as [[Hfc Hfe] Hexp Hfit Hfr Hov Hban Hdis].
  constructor.
  - split.
    + intros c v. rewrite Hcl, Hn. apply Hfc.
    + intros id0 e0. rewrite Ha, Hn. apply Hfe.
  - intros t id0 el0. rewrite Ht, Ha. apply Hexp.
  - intros t c. rewrite Ht, Hcl. apply Hfit.
  - intros f c. rewrite Hf, Hcl, Hw. apply Hfr.
  - intros h0. rewrite Hm, Hw. apply Hov.
  - intros id0 e0. rewrite Ha. intros H.
    destruct (Hban id0 e0 H) as (Hin & el0 & Hel0 & Hh & Hl).
    assert (Hne : element e0 <> h).
    { intros El. rewrite El, E in Hel0. injection Hel0 as <-. contradiction. }
    split; [now apply Hc |]. exists el0. rewrite Hd by exact Hne. repeat split; assumption.
  - intros id1 id2 e1 e2. rewrite Ha. apply Hdis.
Qed.

Lemma fold_evict_preserves (P : State -> Prop) (received : list value)
    (l : list (string * AlertEntry)) (s : State) :
  (forall id s, P s -> P (removeBoth id s)) ->
  NoDup l.*1 ->
  (forall id e, (id, e) ∈ l -> activeEewAlerts s !! id = Some e) ->
  P s -> P (fold_left (evict received) l s).
Proof.
  intros HP. revert s. induction l as [| [id0 e0] l IH]; intros s Hnd Hl Hs; [exact Hs |].
  cbn [fold_left]. cbn in Hnd. apply NoDup_cons in Hnd. destruct Hnd as [Hnotin Hnd].
  assert (E0 : activeEewAlerts s !! id0 = Some e0) by (apply Hl; left).
  rewrite (evict_removeBoth received s id0 e0 E0).
  apply IH; [exact Hnd | |].
  - intros id e Hin.
    assert (Hne : id <> id0).
    { intros ->. apply Hnotin. apply list_elem_of_fmap. exists (id0, e). now split. }
    destruct (evictable received id0).
    + destruct (removeBoth_state id0 s) as (-> & _).
      rewrite lookup_delete_ne by congruence. apply Hl. now right.
    + apply Hl. now right.
  - destruct (evictable received id0); [now apply HP | exact Hs].
Qed.

Lemma pollCycle_preserves (P : State -> Prop) (results : list (option EewData * Env))
    (s : State) :
  (forall id s, P s -> P (removeBoth id s)) ->
  (forall data env s, P s -> P (displayEew Math_log10 data env s)) ->
  P s -> P (pollCycle Math_log10 results s).
Proof.
  intros HP1 HP2 H. unfold pollCycle.
  assert (H1 : forall received, P (processResults Math_log10 results received s).2).
  { revert s H. induction results as [| [[data |] env] rest IH]; intros s H received.
    - exact H.
    - cbn [processResults]. destruct (receivedId data); apply IH; [| exact H].
      now apply HP2.
    - cbn [processResults]. now apply IH. }
  specialize (H1 []).
  destruct (processResults Math_log10 results [] s) as [received s1]. cbn [snd] in H1.
  apply fold_evict_preserves; [exact HP1 | apply NoDup_fst_map_to_list | | exact H1].
  intros id e Hin. now apply elem_of_map_to_list.
Qed.

Lemma pollCycle_consistent (results : list (option EewData * Env)) (s : State) :
  consistent s -> consistent (pollCycle Math_log10 results s).
Proof.
  apply pollCycle_preserves.
  - intros id s0. apply removeBoth_consistent.
  - intros data env s0. apply displayEew_consistent.
Qed.

Lemma step_consistent (s : State) (ev : Event) :
  consistent s -> consistent (step Math_log10 getBounds s ev).
Proof.
  destruct ev; cbn [step].
  - apply displayEew_consistent.
  - apply pollCycle_consistent.
  - apply runFrame_consistent.
  - apply fireTimer_consistent.
  - apply transitionEnd_consistent.
Qed.

Lemma initial_consistent : consistent initial.
Proof.
  constructor; [split |..]; cbn; intros *; rewrite ?lookup_empty; discriminate.
Qed.

Lemma run_consistent (evs : list Event) : consistent (run Math_log10 getBounds evs).
Proof.
  unfold run. generalize initial_consistent. generalize initial.
  induction evs as [| ev evs IH]; intros s H; [exact H |].
  cbn [fold_left]. apply IH. now apply step_consistent.
Qed.

End Preservation.

(** ** Banners that stay *)

Section Orphans.

Variable Math_log10 : number -> number.
Variable getBounds : MapObject -> bool.

Lemma removeBoth_orphan (h : nat) (id : string) (s : State) :
  orphan s h -> orphan (removeBoth id s) h.
Proof.
  intros (Hin & Hlt & (el & Hel & Hl) & Hreg).
  destruct (removeBoth_state id s)
    as (Ha & _ & _ & _ & _ & _ & _ & Hd & Hc & _ & Hn & _).
  cbv zeta in *. unfold orphan. rewrite Ha, Hd, Hc, Hn.
  repeat split; try assumption.
  - exists el. split; [| exact Hl].
    destruct (activeEewAlerts s !! id) as [entry |] eqn:E; [| exact Hel].
    rewrite lookup_alter_ne; [exact Hel |]. now apply (Hreg id).
  - intros id0 e [_ H]%lookup_delete_Some. now apply (Hreg id0).
Qed.

Lemma displayEew_orphan (h : nat) (data : EewData) (env : Env) (s : State) :
  orphan s h -> orphan (displayEew Math_log10 data env s) h.
Proof.
  intros Ho.
  destruct (displayEew_cases Math_log10 data env s)
    as [-> | [[_ ->] | (lat & lon & magnitude & Hflags & Hparse & Hvalid)]].
  - exact Ho.
  - now apply removeBoth_orphan.
  - destruct Ho as (Hin & Hlt & (el & Hel & Hl) & Hreg).
    destruct (displayEew_valid_state Math_log10 data env s lat lon magnitude
                Hflags Hparse Hvalid) as (Hn & Hc & Ha & _).
    pose proof (displayEew_valid_elements Math_log10 data env s lat lon magnitude
                  Hflags Hparse Hvalid) as Hd.
    cbv zeta in *. unfold orphan. rewrite Hn, Hc, Ha.
    split; [apply elem_of_app; now left |]. split; [lia |]. split.
    + exists el. split; [| exact Hl].
      destruct (activeEewAlerts s !! eventId_of data (uid env)) as [existing |] eqn:E.
      * destruct Hd as (Hoth & _). rewrite Hoth; [exact Hel | | lia].
        intros ->. now apply (Hreg _ _ E).
      * rewrite Hd, lookup_insert_ne by lia. exact Hel.
    + intros id0 e [[_ <-] | [_ H]]%lookup_insert_Some; [| now apply (Hreg id0)].
      cbn [element].
      destruct (activeEewAlerts s !! eventId_of data (uid env)) as [existing |] eqn:E;
        [now apply (Hreg _ _ E) | lia].
Qed.

Lemma runFrame_orphan (h f : nat) (t : number) (s : State) :
  orphan s h -> orphan (runFrame f t s) h.
Proof.
  intros Ho. destruct (frames s !! f) as [c |] eqn:Hf;
    [| unfold runFrame; rewrite Hf; exact Ho].
  destruct (closures s !! c) as [v |] eqn:Hv.
  - destruct (runFrame_state f c t s v Hf Hv) as (_ & Ha & Hd & Hc & Hrest).
    cbv zeta in *.
    destruct Ho as (Hin & Hlt & Hel & Hreg).
    unfold orphan. rewrite Ha, Hd, Hc. repeat split; try assumption.
    destruct (stillSpreading (advance v t));
      destruct Hrest as (_ & _ & _ & _ & ->); destruct (fitViewTimer v); lia.
  - unfold runFrame, animateWaves. rewrite Hf.
    change (closures (upd_frames (delete f) s)) with (closures s). rewrite Hv. exact Ho.
Qed.

Lemma fireTimer_orphan (h t : nat) (s : State) :
  consistent s -> orphan s h -> orphan (fireTimer getBounds t s) h.
Proof.
  intros Hs Ho. destruct (timers s !! t) as [tm |] eqn:Htm;
    [| unfold fireTimer; rewrite Htm; exact Ho].
  destruct (fireTimer_state getBounds t s tm Htm) as (_ & _ & _ & _ & Hc & Hn & Hcb).
  cbv zeta in *.
  destruct Ho as (Hin & Hlt & (el0 & Hel & Hl) & Hreg).
  unfold orphan. rewrite Hc, Hn.
  destruct (callback tm) as [id el | c] eqn:Ecb; destruct Hcb as (Ha & Hd & _);
    rewrite Ha, Hd.
  - assert (Hal : activeEewAlerts s !! id = Some {| element := el; timeoutId := t |}).
    { apply (consistent_expiry s Hs). rewrite Htm. cbn. now rewrite Ecb. }
    repeat split; try assumption.
    + exists el0. split; [| exact Hl]. rewrite lookup_alter_ne; [exact Hel |].
      apply (Hreg _ _ Hal).
    + intros id0 e [_ H]%lookup_delete_Some. now apply (Hreg id0).
  - repeat split; try assumption. exists el0. now split.
Qed.

Lemma transitionEnd_orphan (h h0 : nat) (s : State) :
  orphan s h -> orphan (transitionEnd h0 s) h.
Proof.
  intros Ho.
  destruct (transitionEnd_state h0 s) as (Ha & _ & _ & _ & _ & _ & Hn & Hd & Hc & Hid).
  cbv zeta in *.
  destruct Ho as (Hin & Hlt & (el & Hel & Hl) & Hreg).
  destruct (decide (h = h0)) as [<- | Hne].
  - rewrite (Hid el Hel Hl). unfold orphan. repeat split; try assumption. now exists el.
  - unfold orphan. rewrite Ha, Hn, Hd by exact Hne.
    repeat split; try assumption; [now apply Hc | now exists el].
Qed.

Lemma step_orphan (h : nat) (s : State) (ev : Event) :
  consistent s -> orphan s h -> orphan (step Math_log10 getBounds s ev) h.
Proof.
  intros Hs Ho. destruct ev; cbn [step].
  - now apply displayEew_orphan.
  - apply pollCycle_preserves; [| | exact Ho].
    + intros id s0. apply removeBoth_orphan.
    + intros data env s0. apply displayEew_orphan.
  - now apply runFrame_orphan.
  - now apply fireTimer_orphan.
  - now apply transitionEnd_orphan.
Qed.

Lemma run_from_orphan (h : nat) (evs : list Event) (s : State) :
  consistent s -> orphan s h ->
  orphan (fold_left (step Math_log10 getBounds) evs s) h.
Proof.
  revert s. induction evs as [| ev evs IH]; intros s Hs Ho; [exact Ho |].
  cbn [fold_left]. apply IH; [now apply step_consistent | now apply step_orphan].
Qed.

(** X22: the banner that an update report appends to the container stays
    there for ever.  In any state the page can reach, the element
    [createEewAlertElement] builds on the way of an update is in the
    container, no alert refers to it and nothing waits to remove it; and it is
    so after any further events, whatever they are (reports, cancellations,
    polling cycles, timers, frames, ends of transitions). *)
Theorem banner_appended_by_an_update_is_never_removed (evs evs' : list Event)
    (data : EewData) (env : Env) (existing : AlertEntry) (lat lon magnitude : number) :
  let s := run Math_log10 getBounds evs in
  isCancel_of data || isFinal_of data = false ->
  parseCoordinates data = (Some lat, Some lon, Some magnitude) ->
  validCoordinates (Some lat) (Some lon) (Some magnitude) = true ->
  activeEewAlerts s !! eventId_of data (uid env) = Some existing ->
  let s' := displayEew Math_log10 data env s in
  orphan s' (next s)
  /\ orphan (fold_left (step Math_log10 getBounds) evs' s') (next s).
Proof.
  intros s Hflags Hparse Hvalid Hex s'.
  pose proof (run_consistent Math_log10 getBounds evs) as Hs. fold s in Hs.
  assert (Ho : orphan s' (next s)).
  { destruct (displayEew_valid_state Math_log10 data env s lat lon magnitude
                Hflags Hparse Hvalid) as (Hn & Hc & Ha & _).
    pose proof (displayEew_valid_elements Math_log10 data env s lat lon magnitude
                  Hflags Hparse Hvalid) as Hd.
    cbv zeta in *. fold s' in Hn, Hc, Ha, Hd. rewrite Hex in Ha, Hd.
    destruct Hd as (_ & Hnew & _).
    destruct Hs as [[_ Hfe] _ _ _ _ _ _].
    assert (Hfresh : element existing <> next s) by (apply Hfe in Hex; lia).
    unfold orphan. rewrite Hn, Hc, Ha.
    split; [apply elem_of_app; right; set_solver |]. split; [lia |]. split.
    - eexists. split; [apply (Hnew Hfresh) | reflexivity].
    - intros id0 e [[_ <-] | [_ H]]%lookup_insert_Some; [exact Hfresh |].
      apply Hfe in H. lia. }
  split; [exact Ho |].
  apply run_from_orphan; [| exact Ho].
  now apply displayEew_consistent.
Qed.

End Orphans.

(** ** In every state the page can reach *)

Section Reachable.

Variable Math_log10 : number -> number.
Variable getBounds : MapObject -> bool.

(** X16: a pending expiry timer is never stale.  In any reachable state it
    is the timer that the registry entry of its alert records, for the banner
    that entry records, a banner that is in the container and visible; so
    when it fires it removes that alert from the registry and hides that
    banner, and it leaves the wave animation of the earthquake running (its
    registry entry, its pending frame and its overlays are untouched). *)
Theorem expiry_timer_hides_its_own_alert (evs : list Event) (t : nat) (id : string)
    (el : nat) :
  let s := run Math_log10 getBounds evs in
  callback <$> timers s !! t = Some (ExpireAlert id el) ->
  let s' := fireTimer getBounds t s in
  activeEewAlerts s !! id = Some {| element := el; timeoutId := t |}
  /\ el ∈ container s
  /\ hidden <$> domElements s !! el = Some false
  /\ activeEewAlerts s' = delete id (activeEewAlerts s)
  /\ hidden <$> domElements s' !! el = Some true
  /\ timers s' = delete t (timers s)
  /\ activeWaveAnimations s' = activeWaveAnimations s
  /\ frames s' = frames s /\ onMap s' = onMap s.
Proof.
  intros s Ht s'.
  pose proof (run_consistent Math_log10 getBounds evs) as Hs. fold s in Hs.
  pose proof (consistent_expiry s Hs t id el Ht) as Hal.
  destruct (consistent_banners s Hs id _ Hal) as (Hin & e & He & Hh & _).
  cbn [element] in Hin, He.
  apply fmap_Some in Ht. destruct Ht as (tm & Htm & Hcb).
  destruct (fireTimer_state getBounds t s tm Htm) as (Ht' & Hw & Hf & Hm & _ & _ & Hrest).
  cbv zeta in *. fold s' in Ht', Hw, Hf, Hm, Hrest. rewrite <- Hcb in Hrest.
  destruct Hrest as (Ha & Hd & _).
  repeat split; try assumption.
  - rewrite He. cbn. now rewrite Hh.
  - rewrite Hd, lookup_alter_eq, He. reflexivity.
Qed.

(** X17: the rate limit of the view fit holds.  In any reachable state a
    pending view-fit timer is the one the closure of its animation holds in
    [fitViewTimer], so no animation has two view-fit timers pending at once. *)
Theorem one_view_fit_timer_per_animation (evs : list Event) (t t' c : nat) :
  let s := run Math_log10 getBounds evs in
  callback <$> timers s !! t = Some (FitView c) ->
  callback <$> timers s !! t' = Some (FitView c) ->
  t' = t /\ fitViewTimer <$> closures s !! c = Some (Some t).
Proof.
  intros s Ht Ht'.
  pose proof (run_consistent Math_log10 getBounds evs) as Hs. fold s in Hs.
  destruct (consistent_fitView s Hs t c Ht) as (v & Hv & Htv).
  destruct (consistent_fitView s Hs t' c Ht') as (v' & Hv' & Htv').
  rewrite Hv in Hv'. injection Hv' as <-.
  split; [congruence |]. rewrite Hv. cbn. now rewrite Htv.
Qed.

(** X18: no earthquake is animated twice at once.  In any reachable state a
    pending animation frame is the one the registry entry of its earthquake
    records, an entry that exists (the dereference of line 571 cannot fail)
    and that holds the three overlays of the closure the frame will run; so
    two pending frames are never for the same identifier. *)
Theorem one_pending_frame_per_animation (evs : list Event) (f c : nat) :
  let s := run Math_log10 getBounds evs in
  frames s !! f = Some c ->
  (exists v a,
      closures s !! c = Some v
      /\ activeWaveAnimations s !! eventId v = Some a
      /\ animationFrameId a = f
      /\ wa_epicenter a = epicenter v /\ wa_pWave a = pWave v /\ wa_sWave a = sWave v)
  /\ (forall f' c' v v',
         frames s !! f' = Some c' ->
         closures s !! c = Some v -> closures s !! c' = Some v' ->
         eventId v' = eventId v -> f' = f).
Proof.
  intros s Hf.
  pose proof (run_consistent Math_log10 getBounds evs) as Hs. fold s in Hs.
  split; [exact (consistent_frames s Hs f c Hf) |].
  intros f' c' v v' Hf' Hv Hv' Hid.
  destruct (consistent_frames s Hs f c Hf) as (v0 & a & Hv0 & Ha & Hfa & _).
  destruct (consistent_frames s Hs f' c' Hf') as (v0' & a' & Hv0' & Ha' & Hfa' & _).
  rewrite Hv in Hv0. injection Hv0 as <-.
  rewrite Hv' in Hv0'. injection Hv0' as <-.
  rewrite Hid, Ha in Ha'. injection Ha' as <-. congruence.
Qed.

(** X19: no overlay is left behind on the map.  In any reachable state
    every overlay on the map is the epicentre marker or one of the two circles
    of a wave animation that is registered. *)
Theorem overlay_on_the_map_is_registered (evs : list Event) (h : nat) :
  let s := run Math_log10 getBounds evs in
  h ∈ onMap s ->
  exists id a,
    activeWaveAnimations s !! id = Some a
    /\ (h = wa_epicenter a \/ h = wa_pWave a \/ h = wa_sWave a).
Proof.
  intros s Hh. exact (consistent_overlays s (run_consistent Math_log10 getBounds evs) h Hh).
Qed.

(** X20: in any reachable state the banner of a registered alert is in the
    container, is visible and has no listener waiting to remove it, and no
    other alert refers to the same banner. *)
Theorem registered_alert_has_its_visible_banner (evs : list Event) (id : string)
    (e : AlertEntry) :
  let s := run Math_log10 getBounds evs in
  activeEewAlerts s !! id = Some e ->
  element e ∈ container s
  /\ (exists el, domElements s !! element e = Some el
                 /\ hidden el = false /\ transitionend_listeners el = 0)
  /\ (forall id' e', activeEewAlerts s !! id' = Some e' -> element e' = element e -> id' = id).
Proof.
  intros s He.
  pose proof (run_consistent Math_log10 getBounds evs) as Hs. fold s in Hs.
  destruct (consistent_banners s Hs id e He) as [Hin Hel].
  repeat split; try assumption.
  intros id' e' He' El. exact (consistent_distinct s Hs id' id e' e He' He El).
Qed.

(** X21: in any reachable state the [fitViewTimer] field of a registry entry
    of [activeWaveAnimations] is [null]: the entry is built once with the
    value the variable has at line 589, and the timer the frames set later
    lives in the closure only; so the [clearTimeout] of lines 368, 446 and 672
    never runs. *)
Theorem registry_never_records_the_view_fit_timer (evs : list Event) (id : string)
    (a : WaveAnimation) :
  activeWaveAnimations (run Math_log10 getBounds evs) !! id = Some a ->
  wa_fitViewTimer a = None.
Proof. apply (run_null Math_log10 getBounds evs). Qed.

End Reachable.

(** ** A frame in which a wave still spreads *)

Lemma drawWaves_circles (v : WaveClosure) (s : State) (cp cs : number * number)
    (rp sop fop rs sos fos : number) :
  pWave v <> sWave v ->
  mapObjects s !! pWave v = Some (Circle cp rp sop fop) ->
  mapObjects s !! sWave v = Some (Circle cs rs sos fos) ->
  mapObjects (drawWaves v s) !! pWave v
  = Some (Circle cp (pWaveRadius v) (currentPWaveStrokeOpacity v) (currentPWaveFillOpacity v))
  /\ mapObjects (drawWaves v s) !! sWave v
     = Some (Circle cs (sWaveRadius v) (currentSWaveStrokeOpacity v)
               (currentSWaveFillOpacity v)).
Proof.
  intros Hne Hp Hs. unfold drawWaves, circle_setOptions, circle_setRadius.
  cbn [mapObjects upd_mapObjects]. split.
  - rewrite lookup_alter_ne by congruence. rewrite lookup_alter_eq.
    rewrite lookup_alter_ne by congruence. rewrite lookup_alter_eq, Hp. reflexivity.
  - rewrite lookup_alter_eq. rewrite lookup_alter_ne by congruence.
    rewrite lookup_alter_eq. rewrite lookup_alter_ne by congruence. rewrite Hs. reflexivity.
Qed.

Lemma runFrame_mapObjects (f c : nat) (t : number) (s : State) (v : WaveClosure) :
  frames s !! f = Some c ->
  closures s !! c = Some v ->
  mapObjects (runFrame f t s) = mapObjects (drawWaves (advance v t) s)
  /\ (stillSpreading (advance v t) = true ->
      viewCenter (runFrame f t s) = viewCenter s /\ viewZoom (runFrame f t s) = viewZoom s).
Proof.
  intros Hf Hc. unfold runFrame. rewrite Hf.
  rewrite (animateWaves_unfold c t _ v) by exact Hc. cbv zeta.
  unfold scheduleFitView. cbn [advance fitViewTimer].
  destruct (fitViewTimer v) as [tm |] eqn:Etm.
  - cbn [fst snd]. destruct (stillSpreading (advance v t)) eqn:Esp.
    + repeat split.
    + unfold finishWaves. cbn [advance fitViewTimer]. rewrite Etm.
      split; [reflexivity | discriminate].
  - cbn [setTimeout fresh fst snd].
    change (stillSpreading (set_fitViewTimer ?x (advance v t)))
      with (stillSpreading (advance v t)).
    destruct (stillSpreading (advance v t)) eqn:Esp; [repeat split |].
    unfold finishWaves. cbn [set_fitViewTimer fitViewTimer]. split; [reflexivity | discriminate].
Qed.

(** X23: a frame in which a wave front is still under its cap keeps the
    animation going: the closure holds the advanced radii, the two circles are
    redrawn with those radii and the opacities computed from them, the frame
    that ran is replaced by one new pending frame for the same closure, whose
    identifier the registry entry records, a view fit is scheduled 500 ms
    ahead unless one is pending, and nothing is removed from the map, whose
    view stays. *)
Theorem frame_keeps_the_animation_going (f c : nat) (t : number) (s : State)
    (v : WaveClosure) (a : WaveAnimation) (cp cs : number * number)
    (rp sop fop rs sos fos : number) :
  frames s !! f = Some c ->
  closures s !! c = Some v ->
  activeWaveAnimations s !! eventId v = Some a ->
  pWave v <> sWave v ->
  mapObjects s !! pWave v = Some (Circle cp rp sop fop) ->
  mapObjects s !! sWave v = Some (Circle cs rs sos fos) ->
  stillSpreading (advance v t) = true ->
  let s' := runFrame f t s in
  let v1 := advance v t in
  let frame := match fitViewTimer v with
               | Some _ => next s
               | None => S (next s)
               end in
  frames s' = <[frame := c]> (delete f (frames s))
  /\ activeWaveAnimations s' !! eventId v = Some (set_frame frame a)
  /\ closures s' !! c
     = Some (match fitViewTimer v with
             | Some _ => v1
             | None => set_fitViewTimer (Some (next s)) v1
             end)
  /\ timers s' = match fitViewTimer v with
                 | Some _ => timers s
                 | None => <[next s := fitViewTimeout c]> (timers s)
                 end
  /\ mapObjects s' !! pWave v
     = Some (Circle cp (pWaveRadius v1) (currentPWaveStrokeOpacity v1)
               (currentPWaveFillOpacity v1))
  /\ mapObjects s' !! sWave v
     = Some (Circle cs (sWaveRadius v1) (currentSWaveStrokeOpacity v1)
               (currentSWaveFillOpacity v1))
  /\ onMap s' = onMap s /\ viewCenter s' = viewCenter s /\ viewZoom s' = viewZoom s.
Proof.
  intros Hf Hc Ha Hne Hp Hs Hsp s' v1 frame.
  destruct (runFrame_state f c t s v Hf Hc) as (Hcl & _ & _ & _ & Hrest).
  destruct (runFrame_mapObjects f c t s v Hf Hc) as [Hmo Hview].
  cbv zeta in *. rewrite Hsp in Hrest.
  destruct Hrest as (Hfr & Hw & Ht & Hm & _).
  destruct (Hview Hsp) as [Hvc Hvz].
  destruct (drawWaves_circles (advance v t) s cp cs rp sop fop rs sos fos Hne Hp Hs)
    as [Hdp Hds].
  fold s' in Hcl, Hfr, Hw, Ht, Hm, Hmo, Hvc, Hvz.
  rewrite Hcl, Hfr, Hw, Ht, Hm, Hmo.
  repeat split; try assumption.
  - rewrite lookup_alter_eq, Ha. reflexivity.
  - rewrite lookup_insert_eq. destruct (fitViewTimer v); reflexivity.
Qed.

(** ** The properties at work on the examples *)

Lemma initial_registry_timers_null : registry_timers_null initial.
Proof. exact (run_null Math_log10_interp always_bounds []). Qed.

Lemma E1_animated_registry_timers_null : registry_timers_null E1_animated.
Proof. exact (run_null Math_log10_interp always_bounds E1_animated_events). Qed.

Lemma J1_animated_registry_timers_null : registry_timers_null J1_animated.
Proof.
  exact (run_null Math_log10_interp always_bounds
           [Snapshot report_J1 (env_at 1000); Frame 6 (Fin 1016)]).
Qed.

Lemma first_report_in_full_witness :
  activeEewAlerts initial !! eventId_of report_E1 (uid (env_at 1000)) = None
  /\ activeEewAlerts (displayEew Math_log10_interp report_E1 (env_at 1000) initial)
       !! eventId_of report_E1 (uid (env_at 1000))
     = Some {| element := next initial; timeoutId := S (next initial) |}
  /\ viewZoom (displayEew Math_log10_interp report_E1 (env_at 1000) initial) = ZoomAt (Fin 8).
Proof.
  assert (Hnew : activeEewAlerts initial !! eventId_of report_E1 (uid (env_at 1000)) = None)
    by (vm_compute; reflexivity).
  split; [exact Hnew |].
  destruct (first_report_in_full Math_log10_interp report_E1 (env_at 1000) initial
              (Fin 31.0) (Fin 103.0) (Fin 6.8) eq_refl eq_refl eq_refl Hnew
              initial_registry_timers_null)
    as (_ & _ & Ha & _ & _ & _ & _ & _ & _ & _ & _ & Hz).
  split; [exact Ha | exact Hz].
Defined.

Lemma update_report_in_full_witness :
  activeEewAlerts E1_animated !! eventId_of report_E1 (uid (env_at 5000))
  = Some {| element := 0; timeoutId := 1 |}
  /\ activeEewAlerts (displayEew Math_log10_interp report_E1 (env_at 5000) E1_animated)
       !! eventId_of report_E1 (uid (env_at 5000))
     = Some {| element := 0; timeoutId := S (next E1_animated) |}
  /\ activeWaveAnimations (displayEew Math_log10_interp report_E1 (env_at 5000) E1_animated)
       !! eventId_of report_E1 (uid (env_at 5000))
     = Some (new_animation (S (S (next E1_animated))) (now (env_at 5000))).
Proof.
  assert (Hex : activeEewAlerts E1_animated !! eventId_of report_E1 (uid (env_at 5000))
                = Some {| element := 0; timeoutId := 1 |}) by (vm_compute; reflexivity).
  split; [exact Hex |].
  destruct (update_report_in_full Math_log10_interp report_E1 (env_at 5000) E1_animated
              {| element := 0; timeoutId := 1 |} (Fin 31.0) (Fin 103.0) (Fin 6.8)
              eq_refl eq_refl eq_refl Hex E1_animated_registry_timers_null)
    as (Ha & _ & _ & Hw & _).
  split; [exact Ha | exact Hw].
Defined.

Lemma cancel_or_final_report_in_full_witness :
  isCancel_of cancel_J1 || isFinal_of cancel_J1 = true
  /\ activeEewAlerts (displayEew Math_log10_interp cancel_J1 (env_at 5000) J1_animated)
     = delete (eventId_of cancel_J1 (uid (env_at 5000))) (activeEewAlerts J1_animated)
  /\ activeWaveAnimations (displayEew Math_log10_interp cancel_J1 (env_at 5000) J1_animated)
     = delete (eventId_of cancel_J1 (uid (env_at 5000))) (activeWaveAnimations J1_animated).
Proof.
  split; [reflexivity |].
  destruct (cancel_or_final_report_in_full Math_log10_interp cancel_J1 (env_at 5000)
              J1_animated eq_refl J1_animated_registry_timers_null)
    as (Ha & Hw & _).
  split; [exact Ha | exact Hw].
Defined.

Lemma snapshot_leaves_other_alerts_witness :
  "E1" <> eventId_of cancel_J1 (uid (env_at 5000))
  /\ activeEewAlerts (displayEew Math_log10_interp cancel_J1 (env_at 5000) E1_animated) !! "E1"
     = activeEewAlerts E1_animated !! "E1".
Proof.
  assert (Hne : "E1" <> eventId_of cancel_J1 (uid (env_at 5000))) by (vm_compute; discriminate).
  split; [exact Hne |].
  exact (proj1 (snapshot_leaves_other_alerts Math_log10_interp cancel_J1 (env_at 5000)
                  E1_animated "E1" Hne)).
Defined.

Lemma unparsable_snapshot_is_ignored_witness :
  knownSource report_unknown = false
  /\ displayEew Math_log10_interp report_unknown (env_at 5000) E1_animated = E1_animated.
Proof.
  split; [reflexivity |].
  exact (unparsable_snapshot_is_ignored Math_log10_interp report_unknown (env_at 5000)
           E1_animated eq_refl (or_introl eq_refl)).
Defined.

Lemma failed_outcomes_fail (oe : FetchOutcome EewData * Env) :
  oe ∈ failed_outcomes -> fetchData oe.1 = None.
Proof.
  unfold failed_outcomes. rewrite !elem_of_cons, elem_of_nil.
  intros [-> | [-> | [-> | [-> | []]]]]; reflexivity.
Qed.

Lemma outage_only_removes_witness :
  (forall oe, oe ∈ failed_outcomes -> fetchData oe.1 = None)
  /\ container (pollFeeds Math_log10_interp failed_outcomes E1_animated)
     = container E1_animated
  /\ next (pollFeeds Math_log10_interp failed_outcomes E1_animated) = next E1_animated.
Proof.
  split; [exact failed_outcomes_fail |].
  destruct (outage_only_removes Math_log10_interp failed_outcomes E1_animated "E1"
              failed_outcomes_fail) as (_ & _ & Hc & Hn & _).
  split; [exact Hc | exact Hn].
Defined.

Lemma test_click_shows_an_exempt_alert_witness :
  (0 < 4)%nat
  /\ activeEewAlerts
       (pollCycle Math_log10_interp [(None, env_at 5000)]
          (clickTest Math_log10_interp (Fin 3) (Fin 1) (Fin 4) (Fin 1) 0 "1750000000000-k3x9q"
             (env_at 1000) initial))
       !! ("test-" ++ "1750000000000-k3x9q")
     = Some {| element := next initial; timeoutId := S (next initial) |}.
Proof.
  split; [lia |].
  destruct (test_click_shows_an_exempt_alert Math_log10_interp (Fin 3) (Fin 1) (Fin 4) (Fin 1)
              0 "1750000000000-k3x9q" (env_at 1000) initial [(None, env_at 5000)]
              ltac:(lia) ltac:(vm_compute; reflexivity) eq_refl)
    as (_ & _ & _ & Ha & _).
  exact Ha.
Defined.

Lemma expiry_timer_hides_its_own_alert_witness :
  callback <$> timers (run Math_log10_interp always_bounds E1_started_events) !! 1
  = Some (ExpireAlert "E1" 0)
  /\ activeEewAlerts
       (fireTimer always_bounds 1 (run Math_log10_interp always_bounds E1_started_events))
     = delete "E1" (activeEewAlerts (run Math_log10_interp always_bounds E1_started_events))
  /\ activeWaveAnimations
       (fireTimer always_bounds 1 (run Math_log10_interp always_bounds E1_started_events))
     = activeWaveAnimations (run Math_log10_interp always_bounds E1_started_events).
Proof.
  assert (Ht : callback <$> timers (run Math_log10_interp always_bounds E1_started_events) !! 1
               = Some (ExpireAlert "E1" 0)) by (vm_compute; reflexivity).
  split; [exact Ht |].
  destruct (expiry_timer_hides_its_own_alert Math_log10_interp always_bounds
              E1_started_events 1 "E1" 0 Ht) as (_ & _ & _ & Ha & _ & _ & Hw & _).
  split; [exact Ha | exact Hw].
Defined.

Lemma one_view_fit_timer_per_animation_witness :
  callback <$> timers (run Math_log10_interp always_bounds E1_animated_events) !! 7
  = Some (FitView 5)
  /\ fitViewTimer <$> closures (run Math_log10_interp always_bounds E1_animated_events) !! 5
     = Some (Some 7).
Proof.
  assert (Ht : callback <$> timers (run Math_log10_interp always_bounds E1_animated_events) !! 7
               = Some (FitView 5)) by (vm_compute; reflexivity).
  split; [exact Ht |].
  exact (proj2 (one_view_fit_timer_per_animation Math_log10_interp always_bounds
                  E1_animated_events 7 7 5 Ht Ht)).
Defined.

Lemma one_pending_frame_per_animation_witness :
  frames (run Math_log10_interp always_bounds E1_animated_events) !! 8 = Some 5
  /\ exists v a,
      closures (run Math_log10_interp always_bounds E1_animated_events) !! 5 = Some v
      /\ activeWaveAnimations (run Math_log10_interp always_bounds E1_animated_events)
           !! eventId v = Some a
      /\ animationFrameId a = 8.
Proof.
  assert (Hf : frames (run Math_log10_interp always_bounds E1_animated_events) !! 8 = Some 5)
    by (vm_compute; reflexivity).
  split; [exact Hf |].
  destruct (one_pending_frame_per_animation Math_log10_interp always_bounds
              E1_animated_events 8 5 Hf) as [(v & a & Hv & Ha & Hfa & _) _].
  exists v, a. repeat split; assumption.
Defined.

Lemma overlay_on_the_map_is_registered_witness :
  2 ∈ onMap (run Math_log10_interp always_bounds E1_animated_events)
  /\ exists id a,
      activeWaveAnimations (run Math_log10_interp always_bounds E1_animated_events) !! id
      = Some a
      /\ (2 = wa_epicenter a \/ 2 = wa_pWave a \/ 2 = wa_sWave a).
Proof.
  assert (Hh : 2 ∈ onMap (run Math_log10_interp always_bounds E1_animated_events)).
  { apply elem_of_elements. vm_compute. set_solver. }
  split; [exact Hh |].
  exact (overlay_on_the_map_is_registered Math_log10_interp always_bounds
           E1_animated_events 2 Hh).
Defined.

Lemma registered_alert_has_its_visible_banner_witness :
  activeEewAlerts (run Math_log10_interp always_bounds E1_animated_events) !! "E1"
  = Some {| element := 0; timeoutId := 1 |}
  /\ 0 ∈ container (run Math_log10_interp always_bounds E1_animated_events).
Proof.
  assert (He : activeEewAlerts (run Math_log10_interp always_bounds E1_animated_events) !! "E1"
               = Some {| element := 0; timeoutId := 1 |}) by (vm_compute; reflexivity).
  split; [exact He |].
  exact (proj1 (registered_alert_has_its_visible_banner Math_log10_interp always_bounds
                  E1_animated_events "E1" _ He)).
Defined.

Lemma registry_never_records_the_view_fit_timer_witness :
  activeWaveAnimations (run Math_log10_interp always_bounds E1_animated_events) !! "E1"
  = Some (set_frame 8 (new_animation 2 (Fin 1000)))
  /\ fitViewTimer <$> closures (run Math_log10_interp always_bounds E1_animated_events) !! 5
     = Some (Some 7)
  /\ wa_fitViewTimer (set_frame 8 (new_animation 2 (Fin 1000))) = None.
Proof.
  assert (Ha : activeWaveAnimations (run Math_log10_interp always_bounds E1_animated_events)
               !! "E1" = Some (set_frame 8 (new_animation 2 (Fin 1000))))
    by (vm_compute; reflexivity).
  split; [exact Ha |]. split; [vm_compute; reflexivity |].
  exact (registry_never_records_the_view_fit_timer Math_log10_interp always_bounds
           E1_animated_events "E1" _ Ha).
Defined.

Lemma banner_appended_by_an_update_is_never_removed_witness :
  activeEewAlerts (run Math_log10_interp always_bounds E1_animated_events)
    !! eventId_of report_E1 (uid (env_at 5000))
  = Some {| element := 0; timeoutId := 1 |}
  /\ orphan
       (fold_left (step Math_log10_interp always_bounds)
          [Poll [(None, env_at 9000)]; TimerFires 10; TransitionEnd 0]
          (displayEew Math_log10_interp report_E1 (env_at 5000)
             (run Math_log10_interp always_bounds E1_animated_events)))
       (next (run Math_log10_interp always_bounds E1_animated_events)).
Proof.
  assert (Hex : activeEewAlerts (run Math_log10_interp always_bounds E1_animated_events)
                  !! eventId_of report_E1 (uid (env_at 5000))
                = Some {| element := 0; timeoutId := 1 |}) by (vm_compute; reflexivity).
  split; [exact Hex |].
  exact (proj2 (banner_appended_by_an_update_is_never_removed Math_log10_interp always_bounds
                  E1_animated_events
                  [Poll [(None, env_at 9000)]; TimerFires 10; TransitionEnd 0]
                  report_E1 (env_at 5000) {| element := 0; timeoutId := 1 |}
                  (Fin 31.0) (Fin 103.0) (Fin 6.8) eq_refl eq_refl eq_refl Hex)).
Defined.

Lemma frame_keeps_the_animation_going_witness :
  frames E1_started !! 6 = Some 5
  /\ stillSpreading (advance (new_closure "E1" 2 3 4 (Fin 1000)) (Fin 1016)) = true
  /\ frames (runFrame 6 (Fin 1016) E1_started) = <[8 := 5]> (delete 6 (frames E1_started))
  /\ onMap (runFrame 6 (Fin 1016) E1_started) = onMap E1_started.
Proof.
  assert (Hf : frames E1_started !! 6 = Some 5) by (vm_compute; reflexivity).
  assert (Hc : closures E1_started !! 5 = Some (new_closure "E1" 2 3 4 (Fin 1000)))
    by (vm_compute; reflexivity).
  assert (Ha : activeWaveAnimations E1_started
               !! eventId (new_closure "E1" 2 3 4 (Fin 1000))
               = Some (new_animation 2 (Fin 1000))) by (vm_compute; reflexivity).
  assert (Hp : mapObjects E1_started !! pWave (new_closure "E1" 2 3 4 (Fin 1000))
               = Some (Circle (Fin 103.0, Fin 31.0) (Fin 0) (Fin 0.8) (Fin 0.1)))
    by (vm_compute; reflexivity).
  assert (Hs : mapObjects E1_started !! sWave (new_closure "E1" 2 3 4 (Fin 1000))
               = Some (Circle (Fin 103.0, Fin 31.0) (Fin 0) (Fin 1) (Fin 0.2)))
    by (vm_compute; reflexivity).
  assert (Hsp : stillSpreading (advance (new_closure "E1" 2 3 4 (Fin 1000)) (Fin 1016)) = true)
    by (vm_compute; reflexivity).
  split; [exact Hf |]. split; [exact Hsp |].
  destruct (frame_keeps_the_animation_going 6 5 (Fin 1016) E1_started
              (new_closure "E1" 2 3 4 (Fin 1000)) (new_animation 2 (Fin 1000))
              (Fin 103.0, Fin 31.0) (Fin 103.0, Fin 31.0)
              (Fin 0) (Fin 0.8) (Fin 0.1) (Fin 0) (Fin 1) (Fin 0.2)
              Hf Hc Ha ltac:(discriminate) Hp Hs Hsp)
    as (Hfr & _ & _ & _ & _ & _ & Hm & _).
  split; [| exact Hm].
  rewrite Hfr. vm_compute. reflexivity.
Defined.

(** ** The view-fit timer that nothing clears *)

Section ViewFitTimers.

Variable Math_log10 : number -> number.
Variable getBounds : MapObject -> bool.

Lemma removeBoth_timers_fresh (id : string) (s : State) :
  timers_fresh s -> timers_fresh (removeBoth id s).
Proof.
  intros (H1 & H2 & H3).
  destruct (removeBoth_state id s) as (Ha & _ & _ & _ & _ & _ & _ & _ & _ & _ & Hn & _).
  cbv zeta in *. unfold timers_fresh. rewrite Ha, Hn.
  split; [| split].
  - intros t x [H _]%removeBoth_timers. eapply H1, H.
  - intros id0 e [_ H]%lookup_delete_Some. eapply H2, H.
  - intros id0 e x [_ H]%lookup_delete_Some [Hx _]%removeBoth_timers. eapply H3; eassumption.
Qed.

Lemma valid_report_timers (data : EewData) (env : Env) (s : State)
    (lat lon magnitude : number) (t : nat) (x : Timer) :
  isCancel_of data || isFinal_of data = false ->
  parseCoordinates data = (Some lat, Some lon, Some magnitude) ->
  validCoordinates (Some lat) (Some lon) (Some magnitude) = true ->
  timers (displayEew Math_log10 data env s) !! t = Some x ->
  (t = S (next s) /\ exists el, x = expiry (eventId_of data (uid env)) el)
  \/ (t <> S (next s) /\ timers s !! t = Some x).
Proof.
  intros Hflags Hparse Hvalid H.
  destruct (displayEew_valid_state Math_log10 data env s lat lon magnitude Hflags Hparse Hvalid)
    as (_ & _ & _ & _ & _ & _ & Ht & _).
  cbv zeta in Ht. rewrite Ht in H. clear Ht.
  apply lookup_delete_timers in H.
  2:{ destruct (activeWaveAnimations s !! eventId_of data (uid env)) as [a |]; [| now left].
      destruct (wa_fitViewTimer a) as [tm |]; [right; eauto | now left]. }
  apply lookup_insert_Some in H. destruct H as [[<- <-] | [Hne H]]; [left; eauto |].
  right. split; [congruence |].
  destruct (activeEewAlerts s !! eventId_of data (uid env)) as [existing |]; [| exact H].
  apply lookup_delete_Some in H. tauto.
Qed.

Lemma displayEew_timers_fresh (data : EewData) (env : Env) (s : State) :
  timers_fresh s -> timers_fresh (displayEew Math_log10 data env s).
Proof.
  intros Hs.
  destruct (displayEew_cases Math_log10 data env s)
    as [-> | [[_ ->] | (lat & lon & magnitude & Hflags & Hparse & Hvalid)]].
  - exact Hs.
  - now apply removeBoth_timers_fresh.
  - destruct Hs as (H1 & H2 & H3).
    destruct (displayEew_valid_state Math_log10 data env s lat lon magnitude
                Hflags Hparse Hvalid) as (Hn & _ & Ha & _).
    cbv zeta in *. unfold timers_fresh. rewrite Hn, Ha.
    split; [| split].
    + intros t x H.
      destruct (valid_report_timers data env s lat lon magnitude t x Hflags Hparse Hvalid H)
        as [[-> _] | [_ H']]; [lia |]. apply H1 in H'. lia.
    + intros id0 e [[_ <-] | [_ H]]%lookup_insert_Some; [cbn; lia |]. apply H2 in H. lia.
    + intros id0 e x Hl H.
      destruct (valid_report_timers data env s lat lon magnitude _ x Hflags Hparse Hvalid H)
        as [[_ [el ->]] | [Hne H']]; [cbn; eauto |].
      apply lookup_insert_Some in Hl. destruct Hl as [[_ <-] | [_ Hl]]; [now cbn in Hne |].
      eapply H3; eassumption.
Qed.

Lemma runFrame_timers_fresh (f : nat) (t : number) (s : State) :
  timers_fresh s -> timers_fresh (runFrame f t s).
Proof.
  intros Hs. destruct (frames s !! f) as [c |] eqn:Hf;
    [| unfold runFrame; rewrite Hf; exact Hs].
  destruct (closures s !! c) as [v |] eqn:Hv.
  2:{ unfold runFrame, animateWaves. rewrite Hf.
      change (closures (upd_frames (delete f) s)) with (closures s). rewrite Hv. exact Hs. }
  destruct Hs as (H1 & H2 & H3).
  destruct (runFrame_state f c t s v Hf Hv) as (_ & Ha & _ & _ & Hrest).
  cbv zeta in *.
  assert (Ht : forall t0 x, timers (runFrame f t s) !! t0 = Some x ->
                 (t0 = next s /\ fitViewTimer v = None /\ x = fitViewTimeout c)
                 \/ (timers s !! t0 = Some x
                     /\ (fitViewTimer v = None -> t0 <> next s))).
  { intros t0 x H.
    assert (H' : match fitViewTimer v with
                 | Some _ => timers s
                 | None => <[next s := fitViewTimeout c]> (timers s)
                 end !! t0 = Some x).
    { destruct (stillSpreading (advance v t)).
      - destruct Hrest as (_ & _ & Ht & _). now rewrite Ht in H.
      - destruct Hrest as (_ & _ & Ht & _). rewrite Ht in H.
        match type of H with
        | context [match ?o with Some _ => _ | None => _ end !! _] => destruct o
        end; [apply lookup_delete_Some in H; tauto | exact H]. }
    destruct (fitViewTimer v); [right; split; [exact H' | discriminate] |].
    apply lookup_insert_Some in H'. destruct H' as [[<- <-] | [Hne H']]; [left; auto |].
    right. split; [exact H' | congruence]. }
  assert (Hn : next s <= next (runFrame f t s)
               /\ (fitViewTimer v = None -> next s < next (runFrame f t s))).
  { destruct (stillSpreading (advance v t));
      destruct Hrest as (_ & _ & _ & _ & ->); destruct (fitViewTimer v);
      split; try lia; discriminate. }
  destruct Hn as [Hn Hn'].
  unfold timers_fresh. rewrite Ha.
  split; [| split].
  - intros t0 x H. destruct (Ht t0 x H) as [(-> & E & _) | [H' _]].
    + now apply Hn'.
    + apply H1 in H'. lia.
  - intros id0 e H. apply H2 in H. lia.
  - intros id0 e x Hl H. destruct (Ht _ x H) as [(E & _ & _) | [H' _]].
    + apply H2 in Hl. lia.
    + eapply H3; eassumption.
Qed.

Lemma fireTimer_timers_fresh (t : nat) (s : State) :
  timers_fresh s -> timers_fresh (fireTimer getBounds t s).
Proof.
  intros Hs. destruct (timers s !! t) as [tm |] eqn:Htm;
    [| unfold fireTimer; rewrite Htm; exact Hs].
  destruct Hs as (H1 & H2 & H3).
  destruct (fireTimer_state getBounds t s tm Htm) as (Ht & _ & _ & _ & _ & Hn & Hcb).
  cbv zeta in *. unfold timers_fresh. rewrite Ht, Hn.
  assert (Ha : forall id e, activeEewAlerts (fireTimer getBounds t s) !! id = Some e ->
                 activeEewAlerts s !! id = Some e).
  { intros id e. destruct (callback tm); destruct Hcb as (-> & _); [| tauto].
    intros H%lookup_delete_Some. tauto. }
  split; [| split].
  - intros t0 x [_ H]%lookup_delete_Some. eapply H1, H.
  - intros id e H%Ha. eapply H2, H.
  - intros id e x Hl%Ha [_ H]%lookup_delete_Some. eapply H3; eassumption.
Qed.

Lemma transitionEnd_timers_fresh (h : nat) (s : State) :
  timers_fresh s -> timers_fresh (transitionEnd h s).
Proof.
  destruct (transitionEnd_state h s) as (Ha & _ & Ht & _ & _ & _ & Hn & _).
  cbv zeta in *. unfold timers_fresh. now rewrite Ha, Ht, Hn.
Qed.

Lemma step_timers_fresh (s : State) (ev : Event) :
  timers_fresh s -> timers_fresh (step Math_log10 getBounds s ev).
Proof.
  destruct ev; cbn [step].
  - apply displayEew_timers_fresh.
  - apply pollCycle_preserves.
    + intros id s0. apply removeBoth_timers_fresh.
    + intros data env s0. apply displayEew_timers_fresh.
  - apply runFrame_timers_fresh.
  - apply fireTimer_timers_fresh.
  - apply transitionEnd_timers_fresh.
Qed.

Lemma run_timers_fresh (evs : list Event) : timers_fresh (run Math_log10 getBounds evs).
Proof.
  unfold run.
  assert (H : timers_fresh initial).
  { repeat split; cbn; intros *; rewrite ?lookup_empty; discriminate. }
  revert H. generalize initial.
  induction evs as [| ev evs IH]; intros s H; [exact H |].
  cbn [fold_left]. apply IH. now apply step_timers_fresh.
Qed.

Lemma removeBoth_null (id : string) (s : State) :
  registry_timers_null s -> registry_timers_null (removeBoth id s).
Proof.
  intros H id0 a. destruct (removeBoth_state id s) as (_ & -> & _).
  intros [_ Ha]%lookup_delete_Some. eapply H, Ha.
Qed.

Lemma removeBoth_pending_view_fit (t c : nat) (id : string) (s : State) :
  pending_view_fit t c s -> pending_view_fit t c (removeBoth id s).
Proof.
  intros (Hfresh & Hnull & Ht).
  split; [now apply removeBoth_timers_fresh |]. split; [now apply removeBoth_null |].
  destruct (removeBoth_state id s) as (_ & _ & Htm & _). cbv zeta in Htm. rewrite Htm.
  assert (E : (match activeWaveAnimations s !! id with
               | Some a => match wa_fitViewTimer a with
                           | Some tm => delete tm
                           | None => fun m : gmap nat Timer => m
                           end
               | None => fun m : gmap nat Timer => m
               end) = (fun m : gmap nat Timer => m)).
  { destruct (activeWaveAnimations s !! id) as [a |] eqn:E; [| reflexivity].
    now rewrite (Hnull id a E). }
  rewrite E.
  destruct (activeEewAlerts s !! id) as [entry |] eqn:Hentry; [| exact Ht].
  rewrite lookup_delete_ne; [exact Ht |].
  intros <-. apply fmap_Some in Ht. destruct Ht as (x & Hx & Hcb).
  destruct Hfresh as (_ & _ & H3).
  destruct (H3 id entry x Hentry Hx) as (id' & el' & Hx'). congruence.
Qed.

Lemma displayEew_pending_view_fit (t c : nat) (data : EewData) (env : Env) (s : State) :
  pending_view_fit t c s -> pending_view_fit t c (displayEew Math_log10 data env s).
Proof.
  intros Hp.
  destruct (displayEew_cases Math_log10 data env s)
    as [-> | [[_ ->] | (lat & lon & magnitude & Hflags & Hparse & Hvalid)]].
  - exact Hp.
  - now apply removeBoth_pending_view_fit.
  - destruct Hp as (Hfresh & Hnull & Ht).
    split; [now apply displayEew_timers_fresh |]. split; [now apply displayEew_null |].
    destruct (displayEew_valid_state Math_log10 data env s lat lon magnitude
                Hflags Hparse Hvalid) as (_ & _ & _ & _ & _ & _ & Htm & _).
    cbv zeta in Htm. rewrite Htm.
    set (id := eventId_of data (uid env)) in *.
    assert (E : (match activeWaveAnimations s !! id with
                 | Some a => match wa_fitViewTimer a with
                             | Some tm => delete tm
                             | None => fun m : gmap nat Timer => m
                             end
                 | None => fun m : gmap nat Timer => m
                 end) = (fun m : gmap nat Timer => m)).
    { destruct (activeWaveAnimations s !! id) as [a |] eqn:E; [| reflexivity].
      now rewrite (Hnull id a E). }
    rewrite E.
    apply fmap_Some in Ht. destruct Ht as (x & Hx & Hcb).
    destruct Hfresh as (H1 & _ & H3).
    rewrite lookup_insert_ne by (apply H1 in Hx; lia).
    destruct (activeEewAlerts s !! id) as [existing |] eqn:Hex.
    + rewrite lookup_delete_ne; [rewrite Hx; cbn; now rewrite Hcb |].
      intros <-. destruct (H3 id existing x Hex Hx) as (id' & el' & Hx'). congruence.
    + rewrite Hx. cbn. now rewrite Hcb.
Qed.

(** X24: nothing that comes from the feeds ever clears a pending view-fit
    timer.  In any reachable state, a view-fit timer that is pending is still
    pending after any snapshot ([displayEew]: report, update, cancel, final)
    and after any polling cycle, whatever they remove (its own animation
    included): only its firing, or the last frame of its animation, ends it. *)
Theorem no_snapshot_or_cycle_clears_a_view_fit_timer (evs : list Event) (t c : nat)
    (data : EewData) (env : Env) (results : list (option EewData * Env)) :
  let s := run Math_log10 getBounds evs in
  callback <$> timers s !! t = Some (FitView c) ->
  callback <$> timers (displayEew Math_log10 data env s) !! t = Some (FitView c)
  /\ callback <$> timers (pollCycle Math_log10 results s) !! t = Some (FitView c).
Proof.
  intros s Ht.
  assert (Hp : pending_view_fit t c s).
  { split; [apply run_timers_fresh |]. split; [apply run_null | exact Ht]. }
  split.
  - now apply displayEew_pending_view_fit.
  - apply (pollCycle_preserves Math_log10 (pending_view_fit t c)); [| | exact Hp].
    + intros id s0. apply removeBoth_pending_view_fit.
    + intros data0 env0 s0. apply displayEew_pending_view_fit.
Qed.

End ViewFitTimers.

(** ** A hidden banner leaves at the end of its transition *)

Lemma transitionEnd_removes (h : nat) (s : State) (e : Element) :
  domElements s !! h = Some e ->
  transitionend_listeners e <> 0 ->
  container (transitionEnd h s) = List.filter (fun h' => negb (h' =? h)%nat) (container s).
Proof.
  intros He Hl. unfold transitionEnd. rewrite He.
  destruct (0 <? transitionend_listeners e)%nat eqn:E; [reflexivity |].
  apply Nat.ltb_ge in E. lia.
Qed.

(** X25: a banner that a cancel or final report hides is still in the
    container, hidden, while its transition runs, and it leaves the container
    when the transition ends, the other elements of the container staying as
    they are. *)
Theorem hidden_banner_leaves_at_the_end_of_its_transition (Math_log10 : number -> number)
    (getBounds : MapObject -> bool) (evs : list Event) (data : EewData) (env : Env)
    (entry : AlertEntry) :
  let s := run Math_log10 getBounds evs in
  isCancel_of data || isFinal_of data = true ->
  activeEewAlerts s !! eventId_of data (uid env) = Some entry ->
  let s1 := displayEew Math_log10 data env s in
  let s2 := transitionEnd (element entry) s1 in
  element entry ∈ container s1
  /\ hidden <$> domElements s1 !! element entry = Some true
  /\ (element entry ∉ container s2)
  /\ (forall h, h <> element entry -> h ∈ container s2 <-> h ∈ container s).
Proof.
  intros s Hflags Hentry s1 s2.
  pose proof (run_consistent Math_log10 getBounds evs) as Hs. fold s in Hs.
  destruct (consistent_banners s Hs _ entry Hentry) as (Hin & el & Hel & Hh & Hl).
  assert (E1 : s1 = removeBoth (eventId_of data (uid env)) s)
    by now apply displayEew_terminating.
  destruct (removeBoth_state (eventId_of data (uid env)) s)
    as (_ & _ & _ & _ & _ & _ & _ & Hd & Hc & _).
  cbv zeta in Hd, Hc. rewrite <- E1, Hentry in Hd. rewrite <- E1 in Hc.
  assert (Hel1 : domElements s1 !! element entry = Some (hiddenBanner el))
    by now rewrite Hd, lookup_alter_eq, Hel.
  assert (Hc2 : container s2
                = List.filter (fun h' => negb (h' =? element entry)%nat) (container s)).
  { subst s2. rewrite (transitionEnd_removes _ s1 _ Hel1) by discriminate. now rewrite Hc. }
  rewrite Hc, Hel1, Hc2.
  split; [exact Hin |]. split; [reflexivity |]. split.
  - rewrite list_elem_of_In, filter_In. intros [_ H]. now rewrite Nat.eqb_refl in H.
  - intros h Hne. rewrite !list_elem_of_In, filter_In. split; [tauto |].
    intros H. split; [exact H |]. apply negb_true_iff. now apply Nat.eqb_neq.
Qed.

(** ** The map shows the overlays of the registered animations *)

Section Overlays.

Variable Math_log10 : number -> number.
Variable getBounds : MapObject -> bool.

Lemma removeBoth_overlays_shown (id : string) (s : State) :
  overlays_shown s -> overlays_shown (removeBoth id s).
Proof.
  intros [H1 H2].
  destruct (removeBoth_state id s) as (_ & Hw & _ & _ & Hm & _ & _ & _ & _ & _ & Hn & _).
  cbv zeta in *. unfold overlays_shown. rewrite Hw, Hm, Hn. split.
  - intros id0 a h [Hne Ha]%lookup_delete_Some Hh.
    destruct (H1 id0 a h Ha Hh) as [Hin Hlt]. split; [| exact Hlt].
    destruct (activeWaveAnimations s !! id) as [a0 |] eqn:E; [| exact Hin].
    apply elem_of_difference. split; [exact Hin |].
    rewrite elem_of_list_to_set. intros Hh0. apply Hne.
    exact (H2 id id0 a0 a h E Ha Hh0 Hh).
  - intros id1 id2 a1 a2 h [_ Ha1]%lookup_delete_Some [_ Ha2]%lookup_delete_Some.
    now apply H2.
Qed.

Lemma new_animation_overlays (n : nat) (t : number) (h : nat) :
  h ∈ overlays_of (new_animation n t) <-> h = n \/ h = S n \/ h = S (S n).
Proof. unfold overlays_of, new_animation. cbn. set_solver. Qed.

Lemma displayEew_overlays_shown (data : EewData) (env : Env) (s : State) :
  overlays_shown s -> overlays_shown (displayEew Math_log10 data env s).
Proof.
  intros Hs.
  destruct (displayEew_cases Math_log10 data env s)
    as [-> | [[_ ->] | (lat & lon & magnitude & Hflags & Hparse & Hvalid)]].
  - exact Hs.
  - now apply removeBoth_overlays_shown.
  - destruct Hs as [H1 H2].
    destruct (displayEew_valid_state Math_log10 data env s lat lon magnitude
                Hflags Hparse Hvalid) as (Hn & _ & _ & Hw & _ & _ & _ & Hm & _).
    cbv zeta in *. unfold overlays_shown. rewrite Hn, Hw, Hm.
    set (id := eventId_of data (uid env)) in *.
    set (n := next s) in *.
    split.
    + intros id0 a h [[_ <-] | [Hne Ha]]%lookup_insert_Some Hh.
      * apply new_animation_overlays in Hh. split; [set_solver | lia].
      * destruct (H1 id0 a h Ha Hh) as [Hin Hlt]. fold n in Hlt. split; [| lia].
        do 3 (apply elem_of_union; right).
        destruct (activeWaveAnimations s !! id) as [a0 |] eqn:E; [| exact Hin].
        apply elem_of_difference. split; [exact Hin |].
        rewrite elem_of_list_to_set. intros Hh0. apply Hne.
        exact (H2 id id0 a0 a h E Ha Hh0 Hh).
    + intros id1 id2 a1 a2 h
             [[<- <-] | [Hne1 Ha1]]%lookup_insert_Some
             [[<- <-] | [Hne2 Ha2]]%lookup_insert_Some Hh1 Hh2; try reflexivity.
      * apply new_animation_overlays in Hh1.
        destruct (H1 id2 a2 h Ha2 Hh2) as [_ Hlt]. fold n in Hlt. lia.
      * apply new_animation_overlays in Hh2.
        destruct (H1 id1 a1 h Ha1 Hh1) as [_ Hlt]. fold n in Hlt. lia.
      * exact (H2 id1 id2 a1 a2 h Ha1 Ha2 Hh1 Hh2).
Qed.

Lemma runFrame_overlays_shown (f : nat) (t : number) (s : State) :
  consistent s -> overlays_shown s -> overlays_shown (runFrame f t s).
Proof.
  intros Hc Hs. destruct (frames s !! f) as [c |] eqn:Hf;
    [| unfold runFrame; rewrite Hf; exact Hs].
  destruct (consistent_frames s Hc f c Hf) as (v & a & Hv & Hwa & _ & Ho1 & Ho2 & Ho3).
  destruct (runFrame_state f c t s v Hf Hv) as (_ & _ & _ & _ & Hrest).
  cbv zeta in *. destruct Hs as [H1 H2]. unfold overlays_shown.
  destruct (stillSpreading (advance v t)).
  - destruct Hrest as (_ & Hw & _ & Hm & Hn). rewrite Hw, Hm.
    assert (Hle : next s <= next (runFrame f t s))
      by (rewrite Hn; destruct (fitViewTimer v); lia).
    assert (Hold : forall id0 a0,
               alter (set_frame (match fitViewTimer v with
                                 | Some _ => next s
                                 | None => S (next s)
                                 end)) (eventId v) (activeWaveAnimations s) !! id0 = Some a0 ->
               exists a1, activeWaveAnimations s !! id0 = Some a1
                          /\ overlays_of a0 = overlays_of a1).
    { intros id0 a0 [(<- & a1 & Ha1 & ->) | [_ Ha1]]%lookup_alter_Some; eauto. }
    split.
    + intros id0 a0 h Ha0 Hh. destruct (Hold id0 a0 Ha0) as (a1 & Ha1 & E).
      rewrite E in Hh. destruct (H1 id0 a1 h Ha1 Hh). split; [assumption | lia].
    + intros id1 id2 a1 a2 h Ha1 Ha2 Hh1 Hh2.
      destruct (Hold id1 a1 Ha1) as (b1 & Hb1 & E1). destruct (Hold id2 a2 Ha2) as (b2 & Hb2 & E2).
      rewrite E1 in Hh1. rewrite E2 in Hh2. exact (H2 id1 id2 b1 b2 h Hb1 Hb2 Hh1 Hh2).
  - destruct Hrest as (_ & Hw & _ & Hm & Hn). rewrite Hw, Hm.
    assert (Hle : next s <= next (runFrame f t s))
      by (rewrite Hn; destruct (fitViewTimer v); lia).
    split.
    + intros id0 a0 h [Hne Ha0]%lookup_delete_Some Hh.
      destruct (H1 id0 a0 h Ha0 Hh) as [Hin Hlt]. split; [| lia].
      apply elem_of_difference. split; [exact Hin |].
      rewrite elem_of_list_to_set, <- Ho1, <- Ho2, <- Ho3. intros Hh0. apply Hne.
      exact (H2 (eventId v) id0 a a0 h Hwa Ha0 Hh0 Hh).
    + intros id1 id2 a1 a2 h [_ Ha1]%lookup_delete_Some [_ Ha2]%lookup_delete_Some.
      now apply H2.
Qed.

Lemma fireTimer_overlays_shown (t : nat) (s : State) :
  overlays_shown s -> overlays_shown (fireTimer getBounds t s).
Proof.
  intros Hs. destruct (timers s !! t) as [tm |] eqn:Htm;
    [| unfold fireTimer; rewrite Htm; exact Hs].
  destruct (fireTimer_state getBounds t s tm Htm) as (_ & Hw & _ & Hm & _ & Hn & _).
  cbv zeta in *. unfold overlays_shown. now rewrite Hw, Hm, Hn.
Qed.

Lemma transitionEnd_overlays_shown (h : nat) (s : State) :
  overlays_shown s -> overlays_shown (transitionEnd h s).
Proof.
  destruct (transitionEnd_state h s) as (_ & Hw & _ & _ & _ & Hm & Hn & _).
  cbv zeta in *. unfold overlays_shown. now rewrite Hw, Hm, Hn.
Qed.

Lemma step_overlays_shown (s : State) (ev : Event) :
  consistent s -> overlays_shown s -> overlays_shown (step Math_log10 getBounds s ev).
Proof.
  intros Hc. destruct ev; cbn [step].
  - apply displayEew_overlays_shown.
  - apply pollCycle_preserves.
    + intros id s0. apply removeBoth_overlays_shown.
    + intros data env s0. apply displayEew_overlays_shown.
  - now apply runFrame_overlays_shown.
  - apply fireTimer_overlays_shown.
  - apply transitionEnd_overlays_shown.
Qed.

Lemma run_overlays_shown (evs : list Event) : overlays_shown (run Math_log10 getBounds evs).
Proof.
  unfold run.
  assert (H : overlays_shown initial).
  { split; cbn; intros *; rewrite ?lookup_empty; discriminate. }
  generalize initial_consistent. revert H. generalize initial.
  induction evs as [| ev evs IH]; intros s H Hc; [exact H |].
  cbn [fold_left]. apply IH; [now apply step_overlays_shown | now apply step_consistent].
Qed.

(** X26: in any reachable state the epicentre marker and the two circles of
    every registered wave animation are on the map, and no overlay belongs to
    two animations; with X19, the overlays on the map are exactly those of the
    registered animations. *)
Theorem registered_animation_is_on_the_map (evs : list Event) (id : string)
    (a : WaveAnimation) :
  let s := run Math_log10 getBounds evs in
  activeWaveAnimations s !! id = Some a ->
  wa_epicenter a ∈ onMap s /\ wa_pWave a ∈ onMap s /\ wa_sWave a ∈ onMap s
  /\ (forall id' a' h,
         activeWaveAnimations s !! id' = Some a' ->
         h ∈ overlays_of a -> h ∈ overlays_of a' -> id' = id)
  /\ (forall h, h ∈ onMap s <->
                exists id' a', activeWaveAnimations s !! id' = Some a' /\ h ∈ overlays_of a').
Proof.
  intros s Ha.
  destruct (run_overlays_shown evs) as [H1 H2]. fold s in H1, H2.
  pose proof (run_consistent Math_log10 getBounds evs) as Hc. fold s in Hc.
  repeat split.
  - apply (H1 id a); [exact Ha | unfold overlays_of; set_solver].
  - apply (H1 id a); [exact Ha | unfold overlays_of; set_solver].
  - apply (H1 id a); [exact Ha | unfold overlays_of; set_solver].
  - intros id' a' h Ha' Hh Hh'. exact (H2 id' id a' a h Ha' Ha Hh' Hh).
  - intros Hh. destruct (consistent_overlays s Hc h Hh) as (id' & a' & Ha' & Hcase).
    exists id', a'. split; [exact Ha' |]. unfold overlays_of.
    destruct Hcase as [-> | [-> | ->]]; set_solver.
  - intros (id' & a' & Ha' & Hh). now apply (H1 id' a' h Ha' Hh).
Qed.

End Overlays.

(** ** The last properties at work on the examples *)

Lemma no_snapshot_or_cycle_clears_a_view_fit_timer_witness :
  callback <$> timers (run Math_log10_interp always_bounds J1_animated_events) !! 7
  = Some (FitView 5)
  /\ callback
     <$> timers (displayEew Math_log10_interp cancel_J1 (env_at 5000)
                   (run Math_log10_interp always_bounds J1_animated_events)) !! 7
     = Some (FitView 5)
  /\ callback
     <$> timers (pollCycle Math_log10_interp [(None, env_at 5000)]
                   (run Math_log10_interp always_bounds J1_animated_events)) !! 7
     = Some (FitView 5).
Proof.
  assert (Ht : callback <$> timers (run Math_log10_interp always_bounds J1_animated_events) !! 7
               = Some (FitView 5)) by (vm_compute; reflexivity).
  split; [exact Ht |].
  exact (no_snapshot_or_cycle_clears_a_view_fit_timer Math_log10_interp always_bounds
           J1_animated_events 7 5 cancel_J1 (env_at 5000) [(None, env_at 5000)] Ht).
Defined.

Lemma hidden_banner_leaves_at_the_end_of_its_transition_witness :
  isCancel_of cancel_J1 || isFinal_of cancel_J1 = true
  /\ activeEewAlerts (run Math_log10_interp always_bounds J1_animated_events)
       !! eventId_of cancel_J1 (uid (env_at 5000))
     = Some {| element := 0; timeoutId := 1 |}
  /\ 0 ∈ container (displayEew Math_log10_interp cancel_J1 (env_at 5000)
                      (run Math_log10_interp always_bounds J1_animated_events))
  /\ (0 ∉ container
            (transitionEnd 0
               (displayEew Math_log10_interp cancel_J1 (env_at 5000)
                  (run Math_log10_interp always_bounds J1_animated_events)))).
Proof.
  assert (He : activeEewAlerts (run Math_log10_interp always_bounds J1_animated_events)
                 !! eventId_of cancel_J1 (uid (env_at 5000))
               = Some {| element := 0; timeoutId := 1 |}) by (vm_compute; reflexivity).
  split; [reflexivity |]. split; [exact He |].
  destruct (hidden_banner_leaves_at_the_end_of_its_transition Math_log10_interp always_bounds
              J1_animated_events cancel_J1 (env_at 5000) {| element := 0; timeoutId := 1 |}
              eq_refl He) as (Hin & _ & Hout & _).
  split; [exact Hin | exact Hout].
Defined.

Lemma registered_animation_is_on_the_map_witness :
  activeWaveAnimations (run Math_log10_interp always_bounds E1_animated_events) !! "E1"
  = Some (set_frame 8 (new_animation 2 (Fin 1000)))
  /\ 2 ∈ onMap (run Math_log10_interp always_bounds E1_animated_events)
  /\ 3 ∈ onMap (run Math_log10_interp always_bounds E1_animated_events)
  /\ 4 ∈ onMap (run Math_log10_interp always_bounds E1_animated_events).
Proof.
  assert (Ha : activeWaveAnimations (run Math_log10_interp always_bounds E1_animated_events)
               !! "E1" = Some (set_frame 8 (new_animation 2 (Fin 1000))))
    by (vm_compute; reflexivity).
  split; [exact Ha |].
  destruct (registered_animation_is_on_the_map Math_log10_interp always_bounds
              E1_animated_events "E1" _ Ha) as (H2 & H3 & H4 & _).
  split; [exact H2 |]. split; [exact H3 | exact H4].
Defined.
